(** * Daily market brief: the date calculator, the Finnhub verifier,
      the brief orchestrator, the storage publisher and the HTTP entry point
      of [main.py], embedded as Rocq functions and verified. *)

From Stdlib Require Import ZArith List String Ascii Bool Lia QArith Qabs Qround.
From Stdlib Require Import DecimalString.
Import ListNotations.

Local Open Scope string_scope.
Local Open Scope Z_scope.

(* ====================================================================== *)
(** ** Python's [datetime], as far as [main.py] uses it

    [main.py] calls [date.weekday()], [date - timedelta(days=k)] and
    [date.strftime(fmt)].  Their meaning is the one of CPython's [datetime]
    module (proleptic Gregorian calendar, ordinal 1 = 0001-01-01).  The
    functions below follow that module's helpers one by one. *)

Module PyDatetime.

Definition MINYEAR : Z := 1.
Definition MAXYEAR : Z := 9999.
(** [date(9999, 12, 31).toordinal()] *)
Definition MAXORDINAL : Z := 3652059.

Record datetime : Type := mkDatetime {
  year : Z;
  month : Z;
  day : Z;
  hour : Z;
  minute : Z;
  second : Z;
  microsecond : Z
}.

(** year -> 1 if leap year, else 0. *)
Definition is_leap (y : Z) : bool :=
  (y mod 4 =? 0) && (negb (y mod 100 =? 0) || (y mod 400 =? 0)).

(** year -> number of days before January 1st of year. *)
Definition days_before_year (y : Z) : Z :=
  let y := y - 1 in
  y * 365 + y / 4 - y / 100 + y / 400.

(** The table [_DAYS_IN_MONTH] (index 0 is the placeholder -1). *)
Definition DAYS_IN_MONTH (m : Z) : Z :=
  match m with
  | 1 => 31 | 2 => 28 | 3 => 31 | 4 => 30 | 5 => 31 | 6 => 30
  | 7 => 31 | 8 => 31 | 9 => 30 | 10 => 31 | 11 => 30 | 12 => 31
  | _ => -1
  end.

(** The table [_DAYS_BEFORE_MONTH]. *)
Definition DAYS_BEFORE_MONTH (m : Z) : Z :=
  match m with
  | 1 => 0 | 2 => 31 | 3 => 59 | 4 => 90 | 5 => 120 | 6 => 151
  | 7 => 181 | 8 => 212 | 9 => 243 | 10 => 273 | 11 => 304 | 12 => 334
  | _ => -1
  end.

Definition days_in_month (y m : Z) : Z :=
  if (m =? 2) && is_leap y then 29 else DAYS_IN_MONTH m.

Definition days_before_month (y m : Z) : Z :=
  DAYS_BEFORE_MONTH m + (if (2 <? m) && is_leap y then 1 else 0).

(** year, month, day -> ordinal, considering 01-Jan-0001 as day 1. *)
Definition ymd2ord (y m d : Z) : Z :=
  days_before_year y + days_before_month y m + d.

Definition DI400Y : Z := 146097.
Definition DI100Y : Z := 36524.
Definition DI4Y : Z := 1461.

(** ordinal -> (year, month, day), considering 01-Jan-0001 as day 1. *)
Definition ord2ymd (n : Z) : Z * Z * Z :=
  let n := n - 1 in
  let n400 := n / DI400Y in
  let n := n mod DI400Y in
  let y := n400 * 400 + 1 in
  let n100 := n / DI100Y in
  let n := n mod DI100Y in
  let n4 := n / DI4Y in
  let n := n mod DI4Y in
  let n1 := n / 365 in
  let n := n mod 365 in
  let y := y + n100 * 100 + n4 * 4 + n1 in
  if (n1 =? 4) || (n100 =? 4) then (y - 1, 12, 31)
  else
    let leapyear := (n1 =? 3) && (negb (n4 =? 24) || (n100 =? 3)) in
    let m := Z.shiftr (n + 50) 5 in
    let preceding :=
      DAYS_BEFORE_MONTH m + (if (2 <? m) && leapyear then 1 else 0) in
    let '(m, preceding) :=
      if n <? preceding
      then (m - 1,
            preceding
            - (DAYS_IN_MONTH (m - 1)
               + (if (m - 1 =? 2) && leapyear then 1 else 0)))
      else (m, preceding) in
    (y, m, n - preceding + 1).

(** The fields a constructed [datetime] object can hold. *)
Definition datetime_ok (d : datetime) : bool :=
  (MINYEAR <=? year d) && (year d <=? MAXYEAR)
  && (1 <=? month d) && (month d <=? 12)
  && (1 <=? day d) && (day d <=? days_in_month (year d) (month d))
  && (0 <=? hour d) && (hour d <? 24)
  && (0 <=? minute d) && (minute d <? 60)
  && (0 <=? second d) && (second d <? 60)
  && (0 <=? microsecond d) && (microsecond d <? 1000000).

Definition toordinal (d : datetime) : Z :=
  ymd2ord (year d) (month d) (day d).

(** [date.weekday()]: Monday = 0 ... Sunday = 6. *)
Definition weekday (d : datetime) : Z :=
  (toordinal d + 6) mod 7.

(** [date - timedelta(days=k)]: the time of day is kept, the ordinal moves
    by [k]; [None] stands for the [OverflowError] raised when the result
    leaves the range of dates. *)
Definition sub_days (d : datetime) (k : Z) : option datetime :=
  let o := toordinal d - k in
  if (0 <? o) && (o <=? MAXORDINAL) then
    let '(y, m, dd) := ord2ymd o in
    Some (mkDatetime y m dd (hour d) (minute d) (second d) (microsecond d))
  else None.

(** Calendar order on dates, the order in which Python compares them. *)
Definition date_lt (a b : datetime) : Prop :=
  year a < year b
  \/ (year a = year b
      /\ (month a < month b \/ (month a = month b /\ day a < day b))).

(** *** [strftime] in the C locale *)

Definition weekday_name (w : Z) : string :=
  match w with
  | 0 => "Monday" | 1 => "Tuesday" | 2 => "Wednesday" | 3 => "Thursday"
  | 4 => "Friday" | 5 => "Saturday" | _ => "Sunday"
  end.

Definition month_name (m : Z) : string :=
  match m with
  | 1 => "January" | 2 => "February" | 3 => "March" | 4 => "April"
  | 5 => "May" | 6 => "June" | 7 => "July" | 8 => "August"
  | 9 => "September" | 10 => "October" | 11 => "November"
  | _ => "December"
  end.

(** Plain decimal digits of a non-negative number. *)
Definition decimal (n : Z) : string :=
  NilZero.string_of_uint (N.to_uint (Z.to_N n)).

Fixpoint zeros (k : nat) : string :=
  match k with
  | O => EmptyString
  | S k' => String "0" (zeros k')
  end.

(** Decimal digits, filled with zeros on the left up to [width]. *)
Definition zero_padded (width : nat) (n : Z) : string :=
  let s := decimal n in
  zeros (width - String.length s) ++ s.

(** One conversion of the format: [%A], [%B], [%d], [%Y], [%m], [%H],
    [%M], [%S]; any other letter is copied with its percent sign.  [%d],
    [%m], [%H], [%M] and [%S] are two digits; [%Y] is the four digits the
    library documents (0001 ... 9999; some C libraries leave out the
    leading zeros of a year below 1000). *)
Definition directive (c : ascii) (d : datetime) : string :=
  match c with
  | "A"%char => weekday_name (weekday d)
  | "B"%char => month_name (month d)
  | "d"%char => zero_padded 2 (day d)
  | "Y"%char => zero_padded 4 (year d)
  | "m"%char => zero_padded 2 (month d)
  | "H"%char => zero_padded 2 (hour d)
  | "M"%char => zero_padded 2 (minute d)
  | "S"%char => zero_padded 2 (second d)
  | _ => String "%" (String c EmptyString)
  end.

Fixpoint strftime (fmt : string) (d : datetime) : string :=
  match fmt with
  | EmptyString => EmptyString
  | String "%" (String c rest) => directive c d ++ strftime rest d
  | String c rest => String c (strftime rest d)
  end.

End PyDatetime.

(* ====================================================================== *)
(** ** Python values, exceptions and the string helpers of [main.py] *)

Module Py.

(** An exception caught by [except Exception as e]: its class and
    [str(e)]. *)
Record exn : Type := mkExn { exn_class : string; exn_str : string }.

(** The outcome of an expression that may raise. *)
Inductive result (A : Type) : Type :=
| Ok (a : A)
| Raise (e : exn).
Arguments Ok {A} a.
Arguments Raise {A} e.

Definition rbind {A B : Type} (r : result A) (k : A -> result B)
  : result B :=
  match r with
  | Ok a => k a
  | Raise e => Raise e
  end.

(** A Python number: an [int], or a finite [float] given by the rational
    it denotes.  Python compares an [int] and a [float] exactly, and [abs]
    is exact on both, so comparisons are those of the rationals. *)
Inductive number : Type :=
| Int (z : Z)
| Float (q : Q).

Definition num_val (n : number) : Q :=
  match n with
  | Int z => inject_Z z
  | Float q => q
  end.

#[local] Unset Elimination Schemes.
(** What [json] decoding yields: [None], booleans, numbers, strings,
    lists and dicts.  A dict is the list of its items in insertion
    order. *)
Inductive PyVal : Type :=
| PNone
| PBool (b : bool)
| PNum (n : number)
| PStr (s : string)
| PList (l : list PyVal)
| PDict (items : list (string * PyVal)).
#[local] Set Elimination Schemes.

Definition is_zero (q : Q) : bool := Qeq_bool q 0.

(** Truth value testing: [None], [False], zero and empty containers are
    false. *)
Definition truthy (v : PyVal) : bool :=
  match v with
  | PNone => false
  | PBool b => b
  | PNum n => negb (is_zero (num_val n))
  | PStr s => negb (String.eqb s "")
  | PList l => match l with [] => false | _ => true end
  | PDict items => match items with [] => false | _ => true end
  end.

(** [x or y] *)
Definition py_or (x y : PyVal) : PyVal := if truthy x then x else y.

Fixpoint assoc {A : Type} (k : string) (items : list (string * A))
  : option A :=
  match items with
  | [] => None
  | (k', v) :: rest => if String.eqb k k' then Some v else assoc k rest
  end.

(** [d[k] = v]: an existing key keeps its place, a new one goes last. *)
Fixpoint assoc_set {A : Type} (k : string) (v : A)
         (items : list (string * A)) : list (string * A) :=
  match items with
  | [] => [(k, v)]
  | (k', v') :: rest =>
      if String.eqb k k' then (k', v) :: rest
      else (k', v') :: assoc_set k v rest
  end.

Definition type_name (v : PyVal) : string :=
  match v with
  | PNone => "NoneType"
  | PBool _ => "bool"
  | PNum (Int _) => "int"
  | PNum (Float _) => "float"
  | PStr _ => "str"
  | PList _ => "list"
  | PDict _ => "dict"
  end.

Definition AttributeError (v : PyVal) (attr : string) : exn :=
  mkExn "AttributeError"
        ("'" ++ type_name v ++ "' object has no attribute '" ++ attr ++ "'").

Definition TypeError (msg : string) : exn := mkExn "TypeError" msg.

(** The value [d.get(k)] reads in the items of a dict. *)
Definition item (k : string) (items : list (string * PyVal)) : PyVal :=
  match assoc k items with
  | Some v => v
  | None => PNone
  end.

(** [d.get(k, default)]; of the decoded values only a dict has the
    method. *)
Definition py_get_default (d : PyVal) (k : string) (default : PyVal)
  : result PyVal :=
  match d with
  | PDict items =>
      Ok (match assoc k items with Some v => v | None => default end)
  | _ => Raise (AttributeError d "get")
  end.

(** [d.get(k)] *)
Definition py_get (d : PyVal) (k : string) : result PyVal :=
  py_get_default d k PNone.

(** [v == s] for a string literal [s]. *)
Definition py_eq_str (v : PyVal) (s : string) : bool :=
  match v with
  | PStr t => String.eqb t s
  | _ => false
  end.

(** The number a value stands for in arithmetic: [bool] is a subtype of
    [int], with values 0 and 1. *)
Definition as_number (v : PyVal) : option number :=
  match v with
  | PBool b => Some (Int (if b then 1 else 0))
  | PNum n => Some n
  | _ => None
  end.

(** [v >= c] for the [int] literal [c]. *)
Definition py_ge_int (v : PyVal) (c : Z) : result bool :=
  match as_number v with
  | Some n => Ok (Qle_bool (inject_Z c) (num_val n))
  | None =>
      Raise (TypeError ("'>=' not supported between instances of '"
                        ++ type_name v ++ "' and 'int'"))
  end.

(** [v >= c] for the [float] literal [c]. *)
Definition py_ge_float (v : PyVal) (c : Q) : result bool :=
  match as_number v with
  | Some n => Ok (Qle_bool c (num_val n))
  | None =>
      Raise (TypeError ("'>=' not supported between instances of '"
                        ++ type_name v ++ "' and 'float'"))
  end.

(** [v > c] for the [int] literal [c]. *)
Definition py_gt_int (v : PyVal) (c : Z) : result bool :=
  match as_number v with
  | Some n => Ok (negb (Qle_bool (num_val n) (inject_Z c)))
  | None =>
      Raise (TypeError ("'>' not supported between instances of '"
                        ++ type_name v ++ "' and 'int'"))
  end.

(** [abs(v)] *)
Definition py_abs (v : PyVal) : result PyVal :=
  match as_number v with
  | Some (Int z) => Ok (PNum (Int (Z.abs z)))
  | Some (Float q) => Ok (PNum (Float (Qabs q)))
  | None => Raise (TypeError ("bad operand type for abs(): '"
                              ++ type_name v ++ "'"))
  end.

Definition ValueError (msg : string) : exn := mkExn "ValueError" msg.

(** [float(z)] of an [int]: the nearest [float] (53 bits, ties to even);
    [None] stands for the [OverflowError] raised when that is beyond the
    largest [float]. *)
Definition float_of_int (z : Z) : option Q :=
  let a := Z.abs z in
  if a <? 2 ^ 53 then Some (inject_Z z)
  else
    let e := Z.log2 a - 52 in
    let m := Z.shiftr a e in
    let r := a - Z.shiftl m e in
    let half := 2 ^ (e - 1) in
    let m' :=
      match r ?= half with
      | Gt => m + 1
      | Eq => if Z.even m then m else m + 1
      | Lt => m
      end in
    let v := Z.shiftl m' e in
    if 2 ^ 1024 <=? v then None
    else Some (inject_Z (Z.sgn z * v)).

Definition FloatOverflowError : exn :=
  mkExn "OverflowError" "int too large to convert to float".

(** [format(x, '.2f')] of a [float]: two decimals, correctly rounded
    (ties to even), the sign of a negative number kept. *)
Definition format_2f_float (q : Q) : string :=
  let scaled := (Qabs q * 100)%Q in
  let fl := Qfloor scaled in
  let r :=
    match (scaled - inject_Z fl ?= 1 # 2)%Q with
    | Gt => fl + 1
    | Eq => if Z.even fl then fl else fl + 1
    | Lt => fl
    end in
  (if Qle_bool 0 q then "" else "-")
    ++ PyDatetime.decimal (r / 100) ++ "."
    ++ PyDatetime.zero_padded 2 (r mod 100).

(** [format(n, '.2f')] of a number: an [int] is converted to a [float]
    first. *)
Definition format_2f_num (n : number) : result string :=
  match n with
  | Float q => Ok (format_2f_float q)
  | Int z =>
      match float_of_int z with
      | Some q => Ok (format_2f_float q)
      | None => Raise FloatOverflowError
      end
  end.

Definition format_2f (v : PyVal) : result string :=
  match as_number v with
  | Some n => format_2f_num n
  | None =>
      Raise (ValueError ("Unknown format code 'f' for object of type '"
                         ++ type_name v ++ "'"))
  end.

(** Iterating a decoded value in a [for] loop: the items of a list, the
    characters of a string, the keys of a dict. *)
Definition py_iter (v : PyVal) : result (list PyVal) :=
  match v with
  | PList l => Ok l
  | PStr s =>
      Ok (map (fun c => PStr (String c EmptyString)) (list_ascii_of_string s))
  | PDict items => Ok (map (fun kv => PStr (fst kv)) items)
  | _ => Raise (TypeError ("'" ++ type_name v ++ "' object is not iterable"))
  end.

(** [s.replace(old, new)] for a non-empty [old]: occurrences are taken
    from the left and do not overlap.  [skip] counts the characters of
    the occurrence being replaced that are still to be dropped. *)
Fixpoint replace_from (old new : string) (skip : nat) (s : string)
  : string :=
  match s with
  | EmptyString => EmptyString
  | String c rest =>
      match skip with
      | S k => replace_from old new k rest
      | O =>
          if String.prefix old s
          then new ++ replace_from old new (String.length old - 1) rest
          else String c (replace_from old new 0 rest)
      end
  end.

Definition replace (old new s : string) : string :=
  replace_from old new 0 s.

(** The ASCII characters [str.isspace] accepts. *)
Definition is_space (c : ascii) : bool :=
  let n := nat_of_ascii c in
  ((9 <=? n) && (n <=? 13) || (28 <=? n) && (n <=? 32))%nat.

Fixpoint lstrip (s : string) : string :=
  match s with
  | String c rest => if is_space c then lstrip rest else s
  | EmptyString => EmptyString
  end.

Fixpoint rstrip (s : string) : string :=
  match s with
  | String c rest =>
      let r := rstrip rest in
      if is_space c && String.eqb r "" then EmptyString else String c r
  | EmptyString => EmptyString
  end.

(** [s.strip()] *)
Definition strip (s : string) : string := rstrip (lstrip s).

End Py.

Import PyDatetime Py.

(* ====================================================================== *)
(** ** The services [main.py] calls, and the monad of its effects *)

Module Effects.

(** Grounding metadata of a generated answer, as [generate_market_brief]
    reads it.  [None] in an attribute's place: the object has no such
    attribute (or, for [chunk_web], a false one). *)
Record Web : Type := mkWeb {
  web_uri : option string;
  web_title : option string
}.
Record Chunk : Type := mkChunk { chunk_web : option Web }.
Record GroundingMetadata : Type := mkGrounding {
  (** no attribute, or the outcome of iterating it *)
  grounding_chunks : option (result (list Chunk))
}.
Record Candidate : Type := mkCandidate {
  (** reading the attribute may raise; [None] is a false value *)
  grounding_metadata : result (option GroundingMetadata)
}.
Record GenResponse : Type := mkResponse {
  (** the [text] property raises when the answer has no text part *)
  response_text : result string;
  response_candidates : list Candidate
}.

(** The calls that leave the process, in the order they are made. *)
Inductive Event : Type :=
| EvNow
| EvConfigure (api_key : string)
| EvModel (model_name : string)
| EvGenerate (prompt : string) (temperature : option Q)
| EvHttpGet (url : string)
| EvStorageClient
| EvBucket (bucket : string)
| EvUpload (bucket filename body content_type : string).

(** The external collaborators.  [World] is whatever they depend on and
    change; a call returns its outcome and the world after it. *)
Class Services : Type := {
  World : Type;
  (** the market-data access credential (a module constant of the
      source; its value plays no part below) *)
  FINNHUB_KEY : string;
  (** [os.environ.get(name)] *)
  environ_get : string -> World -> option string;
  (** [datetime.now()] *)
  datetime_now : World -> datetime * World;
  (** [genai.configure(api_key=...)] *)
  genai_configure : string -> World -> result unit * World;
  (** [genai.GenerativeModel(name)] *)
  genai_GenerativeModel : string -> World -> result unit * World;
  (** [model.generate_content(prompt, tools=[google search],
      generation_config={'temperature': t})] *)
  model_generate_content :
    string -> option Q -> World -> result GenResponse * World;
  (** [requests.get(url).json()] *)
  requests_get_json : string -> World -> result PyVal * World;
  (** [storage.Client()] *)
  storage_Client : World -> result unit * World;
  (** [storage_client.bucket(name)] *)
  storage_bucket : string -> World -> result unit * World;
  (** [bucket.blob(filename).upload_from_string(body, content_type)] *)
  blob_upload_from_string :
    string -> string -> string -> string -> World -> result unit * World;
  (** [json.loads] *)
  json_loads : string -> result PyVal;
  (** [json.dumps(value, indent=2)] *)
  json_dumps : PyVal -> result string;
  (** [str(v)] of a value that is not a string *)
  py_str : PyVal -> string;
  (** [print(text)]: writing the text to the standard output raises when
      its encoding has no bytes for a character of the text
      ([UnicodeEncodeError]); what is written is not recorded.  It stands
      for the [print] of the handler of [fetch_finnhub_metrics], which
      writes a ticker, text decoded from an answer; the other [print]s
      of [main.py] write fixed text, alone or before the message of an
      exception, and are taken to succeed *)
  py_print : string -> result unit
}.

Section Monad.
Context `{Services}.

Record State : Type := mkState { world : World; trace : list Event }.

(** A computation: it ends with a value or a raised exception, and in
    both cases with the state it reached. *)
Definition M (A : Type) : Type := State -> result A * State.

Definition ret {A : Type} (a : A) : M A := fun s => (Ok a, s).

Definition bind {A B : Type} (c : M A) (k : A -> M B) : M B :=
  fun s =>
    match c s with
    | (Ok a, s') => k a s'
    | (Raise e, s') => (Raise e, s')
    end.

Definition raise {A : Type} (e : exn) : M A := fun s => (Raise e, s).

Definition lift {A : Type} (r : result A) : M A := fun s => (r, s).

(** [try: body  except Exception as e: handler(e)] *)
Definition try_except {A : Type} (body : M A) (handler : exn -> M A)
  : M A :=
  fun s =>
    match body s with
    | (Ok a, s') => (Ok a, s')
    | (Raise e, s') => handler e s'
    end.

(** A call of a service: the world moves, the call is recorded. *)
Definition call {A : Type} (ev : Event)
           (f : World -> result A * World) : M A :=
  fun s =>
    let '(r, w) := f (world s) in
    (r, mkState w (trace s ++ [ev])).

End Monad.

Declare Scope py_scope.
Delimit Scope py_scope with py.
Notation "x <- c ;; k" := (bind c (fun x => k))
  (at level 61, c at next level, right associativity) : py_scope.
Notation "c ;;; k" := (bind c (fun _ => k))
  (at level 61, right associativity) : py_scope.

End Effects.

Import Effects.
Local Open Scope py_scope.

Definition nl : string := String (ascii_of_nat 10) EmptyString.
Definition dq : string := String (ascii_of_nat 34) EmptyString.

(* ====================================================================== *)
(** ** Constants *)

Definition MODEL_NAME : string := "gemini-3-flash-preview".
Definition BUCKET_NAME : string := "your-market-brief-bucket".

(** The two prompt templates and the mandatory-context paragraph of
    [generate_market_brief]. *)
Definition discovery_prompt (target_date : string) : string :=
  "Identify 15 major public companies (mix of North America, Europe, Asia) that were top news drivers or price movers for " ++ target_date ++ ". " ++ nl
  ++ "Include tech giants like Apple, Microsoft, NVIDIA, Amazon, Google, Meta, Tesla, etc." ++ nl
  ++ "Return ONLY a JSON array of tickers like [" ++ dq ++ "AAPL" ++ dq ++ ", " ++ dq ++ "MSFT" ++ dq ++ ", " ++ dq ++ "TSLA" ++ dq ++ ", " ++ dq ++ "NVDA" ++ dq ++ ", " ++ dq ++ "ASML" ++ dq ++ ", " ++ dq ++ "MC.PA" ++ dq ++ ", " ++ dq ++ "7203.T" ++ dq ++ ", " ++ dq ++ "SAP" ++ dq ++ "].".

Definition mandatory_context_text (movers_str : string) : string :=
  "The following companies MUST be included as they meet the Mega-Cap Momentum Rule (Cap > $200B and Change >= ±2%): " ++ nl
  ++ movers_str ++ ".".

Definition synthesis_prompt (display_date target_date mandatory_context : string)
  : string :=
  "As a senior institutional analyst, generate the " ++ dq ++ "Market News" ++ dq ++ " for " ++ display_date ++ "." ++ nl
  ++ "Performance figures must reflect the close of " ++ target_date ++ "." ++ nl
  ++ nl
  ++ mandatory_context ++ nl
  ++ nl
  ++ "STRUCTURE AND MANDATORY INDEX REPORTING:" ++ nl
  ++ "## North America" ++ nl
  ++ "The VERY FIRST bullet point MUST be a consolidated overview of the major indices (S&P 500, Nasdaq, Dow Jones) in ONE single bullet point." ++ nl
  ++ "Example:" ++ nl
  ++ "* **Market Indices**: The **S&P 500 (-1.2%)** fell to 6,721.43, while the **Nasdaq Composite (-1.8%)** led declines at 22,693.32, and the **Dow Jones Industrial Average (-0.5%)** proved more resilient, finishing at 47,885.97." ++ nl
  ++ "Then follow with 6-8 more bullets for individual company movers." ++ nl
  ++ nl
  ++ "## Europe" ++ nl
  ++ "* 5-6 Bullets focusing solely on company news. Do NOT include a market index overview bullet point here." ++ nl
  ++ nl
  ++ "## Asia, Emerging Markets & Commodities" ++ nl
  ++ "The VERY FIRST bullet point MUST be a consolidated overview of the major regional indices (Nikkei 225, Hang Seng) in ONE single bullet point." ++ nl
  ++ "Example:" ++ nl
  ++ "* **Regional Indices**: The **Nikkei 225 (+0.4%)** advanced on yen weakness, while the **Hang Seng Index (-1.1%)** retreated amid property sector concerns." ++ nl
  ++ "Then follow with 4-6 more bullets for regional company movers and commodities like Oil and Gold." ++ nl
  ++ nl
  ++ "RULES:" ++ nl
  ++ "- Every bullet point MUST be between 115 and 250 characters. Do not exceed 250 characters." ++ nl
  ++ "- Bold the first entity or the " ++ dq ++ "Market Indices" ++ dq ++ "/" ++ dq ++ "Regional Indices" ++ dq ++ " header." ++ nl
  ++ "- Tone: Factual, institutional, dense. No emojis." ++ nl
  ++ "- ALWAYS include % change in parentheses: (**Entity Name (+2.1%)**)." ++ nl
  ++ "- Ground everything in web search for accurate catalysts and closing prices for " ++ target_date ++ ".".

(* ====================================================================== *)
(** ** Helper functions *)

Section Program.
Context `{Services}.

(** [datetime.now()] *)
Definition now : M datetime :=
  call EvNow (fun w => let '(d, w') := datetime_now w in (Ok d, w')).

(** [if date is None: date = datetime.now()] *)
Definition default_now (date : option datetime) : M datetime :=
  match date with
  | None => now
  | Some d => ret d
  end.

(** Format date to 'long' format. *)
Definition get_formatted_date (date : option datetime) : M string :=
  date <- default_now date ;;
  ret (strftime "%A, %B %d, %Y" date).

Definition OverflowError : exn :=
  mkExn "OverflowError" "date value out of range".

(** [date - timedelta(days=k)] *)
Definition minus_days (date : datetime) (k : Z) : result datetime :=
  match sub_days date k with
  | Some d => Ok d
  | None => Raise OverflowError
  end.

(** The date [prev] that [get_previous_trading_day_str] formats. *)
Definition previous_trading_day (date : datetime) : result datetime :=
  let day := weekday date in          (* Monday=0, Sunday=6 *)
  if day =? 0 then                    (* Monday *)
    minus_days date 3                 (* Go back to Friday *)
  else if day =? 6 then               (* Sunday *)
    minus_days date 2                 (* Go back to Friday *)
  else if day =? 5 then               (* Saturday *)
    minus_days date 1                 (* Go back to Friday *)
  else                                (* Tuesday-Friday *)
    minus_days date 1.                (* Go back one day *)

(** Calculate the previous trading day (excluding weekends). *)
Definition get_previous_trading_day_str (date : option datetime)
  : M string :=
  date <- default_now date ;;
  prev <- lift (previous_trading_day date) ;;
  ret (strftime "%A, %B %d, %Y" prev).

(** What [fetch_finnhub_metrics] returns for a ticker it has data for. *)
Record FinnhubData : Type := mkFinnhubData {
  ticker : PyVal;
  name : PyVal;
  marketCap : PyVal;
  priceChange : PyVal;
  isMegaCapMover_flag : bool
}.

(** [market_cap >= 200000 and abs(price_change) >= 2.0] *)
Definition isMegaCapMover (market_cap price_change : PyVal)
  : result bool :=
  rbind (py_ge_int market_cap 200000) (fun big =>
    if big
    then rbind (py_abs price_change) (fun a => py_ge_float a 2)
    else Ok false).

(** A value inside an f-string. *)
Definition fstr (v : PyVal) : string :=
  match v with
  | PStr s => s
  | _ => py_str v
  end.

Definition http_get_json (url : string) : M PyVal :=
  call (EvHttpGet url) (requests_get_json url).

(** The body of the [try] of [fetch_finnhub_metrics]. *)
Definition fetch_steps (ticker : PyVal) : M (option FinnhubData) :=
  let quote_url :=
    "https://finnhub.io/api/v1/quote?symbol=" ++ fstr ticker
      ++ "&token=" ++ FINNHUB_KEY in
  let profile_url :=
    "https://finnhub.io/api/v1/stock/profile2?symbol=" ++ fstr ticker
      ++ "&token=" ++ FINNHUB_KEY in
  quote_resp <- http_get_json quote_url ;;
  profile_resp <- http_get_json profile_url ;;
  c <- lift (py_get quote_resp "c") ;;
  if negb (truthy c) then ret None
  else
    cap <- lift (py_get profile_resp "marketCapitalization") ;;
    if negb (truthy cap) then ret None
    else
      market_cap <- lift (py_get profile_resp "marketCapitalization") ;;
      price_change <- lift (py_get quote_resp "dp") ;;
      name <- lift (py_get_default profile_resp "name" ticker) ;;
      flag <- lift (isMegaCapMover market_cap price_change) ;;
      ret (Some (mkFinnhubData ticker name market_cap price_change flag)).

(** Fetch market data from Finnhub API.  Returns the data or [None] if
    data unavailable.  The handler prints the ticker and the exception
    before it returns [None]. *)
Definition fetch_finnhub_metrics (ticker : PyVal)
  : M (option FinnhubData) :=
  try_except (fetch_steps ticker)
    (fun e =>
       lift (py_print ("Error fetching Finnhub data for " ++ fstr ticker
                       ++ ": " ++ exn_str e)) ;;;
       ret None).

(** The loop of step 2: [verified_movers] collects the data of the
    tickers that have some. *)
Fixpoint verify_loop (tickers : list PyVal)
         (verified_movers : list FinnhubData) : M (list FinnhubData) :=
  match tickers with
  | [] => ret verified_movers
  | ticker :: rest =>
      data <- fetch_finnhub_metrics ticker ;;
      match data with
      | Some d => verify_loop rest (verified_movers ++ [d])
      | None => verify_loop rest verified_movers
      end
  end.

(** Step 2: Verification - Check Mega-Cap Momentum Rule. *)
Definition verification (tickers : list PyVal) : M (list FinnhubData) :=
  verified_movers <- verify_loop tickers [] ;;
  ret (filter isMegaCapMover_flag verified_movers).

(** One entry of [movers_str]:
    [f"{m['name']} ({'+' if m['priceChange'] > 0 else ''}{m['priceChange']:.2f}%)"] *)
Definition mover_entry (m : FinnhubData) : result string :=
  rbind (py_gt_int (priceChange m) 0) (fun up =>
  rbind (format_2f (priceChange m)) (fun change =>
    Ok (fstr (name m) ++ " (" ++ (if up then "+" else "") ++ change ++ "%)"))).

Fixpoint mover_entries (movers : list FinnhubData) : result (list string) :=
  match movers with
  | [] => Ok []
  | m :: rest =>
      rbind (mover_entry m) (fun e =>
      rbind (mover_entries rest) (fun es => Ok (e :: es)))
  end.

(** [source_map[uri] = title] over the grounding chunks that have a web
    part with both attributes. *)
Fixpoint collect_sources (chunks : list Chunk)
         (source_map : list (string * string)) : list (string * string) :=
  match chunks with
  | [] => source_map
  | chunk :: rest =>
      match chunk_web chunk with
      | Some web =>
          match web_uri web, web_title web with
          | Some uri, Some title =>
              collect_sources rest (assoc_set uri title source_map)
          | _, _ => collect_sources rest source_map
          end
      | None => collect_sources rest source_map
      end
  end.

(** Extract grounding sources; any exception leaves the list empty. *)
Definition extract_sources (response : GenResponse) : PyVal :=
  let sources :=
    match response_candidates response with
    | [] => Ok []
    | candidate :: _ =>
        rbind (grounding_metadata candidate) (fun gm =>
          match gm with
          | Some g =>
              match grounding_chunks g with
              | Some chunks =>
                  rbind chunks (fun cs => Ok (collect_sources cs []))
              | None => Ok []
              end
          | None => Ok []
          end)
    end in
  match sources with
  | Ok source_map =>
      PList (map (fun ut => PDict [("uri", PStr (fst ut));
                                   ("title", PStr (snd ut))])
                 source_map)
  | Raise _ => PList []
  end.

(** [os.environ.get(name)] *)
Definition getenv (name : string) : M (option string) :=
  fun s => (Ok (environ_get name (world s)), s).

Definition generate_content (prompt : string) (temperature : option Q)
  : M GenResponse :=
  call (EvGenerate prompt temperature)
       (model_generate_content prompt temperature).

(** The body of the [try] of [generate_market_brief]. *)
Definition brief_steps : M PyVal :=
  api_key <- getenv "GOOGLE_API_KEY" ;;
  key <- match api_key with
         | Some k =>
             if String.eqb k ""
             then raise (ValueError
                           "GOOGLE_API_KEY environment variable not set")
             else ret k
         | None =>
             raise (ValueError
                      "GOOGLE_API_KEY environment variable not set")
         end ;;
  call (EvConfigure key) (genai_configure key) ;;;
  call (EvModel MODEL_NAME) (genai_GenerativeModel MODEL_NAME) ;;;
  target_date <- get_previous_trading_day_str None ;;
  display_date <- get_formatted_date None ;;
  (* Step 1: Discovery - Identify market movers *)
  discovery_resp <- generate_content (discovery_prompt target_date) None ;;
  tickers <-
    try_except
      (text <- lift (response_text discovery_resp) ;;
       let cleaned :=
         strip (replace "```" "" (replace "```json" "" text)) in
       lift (json_loads cleaned))
      (fun e =>
         raise (ValueError ("Could not parse ticker candidates: "
                            ++ exn_str e))) ;;
  (* Step 2: Verification - Check Mega-Cap Momentum Rule *)
  items <- lift (py_iter tickers) ;;
  mega_cap_movers <- verification items ;;
  (* Step 3: Synthesis - Generate professional report *)
  mandatory_context <-
    match mega_cap_movers with
    | [] => ret ""
    | _ =>
        entries <- lift (mover_entries mega_cap_movers) ;;
        ret (mandatory_context_text (String.concat ", " entries))
    end ;;
  let prompt :=
    synthesis_prompt display_date target_date mandatory_context in
  response <- generate_content prompt (Some (5 # 100)) ;;
  brief_content <- lift (response_text response) ;;
  let sources := extract_sources response in
  t <- now ;;
  let timestamp := strftime "%Y-%m-%d %H:%M:%S" t in
  ret (PDict [("status", PStr "success");
              ("content", PStr brief_content);
              ("sources", sources);
              ("timestamp", PStr timestamp);
              ("displayDate", PStr display_date);
              ("targetDate", PStr target_date)]).

(** Generate market brief using Google Generative AI. *)
Definition generate_market_brief : M PyVal :=
  try_except brief_steps
    (fun e =>
       t <- now ;;
       ret (PDict [("status", PStr "error");
                   ("error", PStr (exn_str e));
                   ("timestamp", PStr (strftime "%Y-%m-%d %H:%M:%S" t))])).

(** [d[k] = v] *)
Definition py_setitem (d : PyVal) (k : string) (v : PyVal)
  : result PyVal :=
  match d with
  | PDict items => Ok (PDict (assoc_set k v items))
  | _ => Raise (TypeError ("'" ++ type_name d
                           ++ "' object does not support item assignment"))
  end.

(** The projection of the brief that [save_to_cloud_storage] stores. *)
Definition data_to_save (brief_data : PyVal) : result PyVal :=
  rbind (py_get brief_data "displayDate") (fun displayDate =>
  rbind (py_get brief_data "targetDate") (fun targetDate =>
  rbind (py_get brief_data "timestamp") (fun generatedAt =>
  rbind (py_get brief_data "content") (fun content =>
  rbind (py_get_default brief_data "sources" (PList [])) (fun sources =>
  rbind (py_get brief_data "status") (fun status =>
    Ok (PDict [("displayDate", displayDate);
               ("targetDate", targetDate);
               ("generatedAt", generatedAt);
               ("content", content);
               ("sources", sources);
               ("status", status)]))))))).

(** The body of the [try] of [save_to_cloud_storage]. *)
Definition save_steps (brief_data : PyVal) : M PyVal :=
  call EvStorageClient storage_Client ;;;
  call (EvBucket BUCKET_NAME) (storage_bucket BUCKET_NAME) ;;;
  t <- now ;;
  let timestamp := strftime "%Y-%m-%d_%H-%M-%S" t in
  let filename := "market_brief_" ++ timestamp ++ ".json" in
  data_to_save <- lift (data_to_save brief_data) ;;
  body <- lift (json_dumps data_to_save) ;;
  call (EvUpload BUCKET_NAME filename body "application/json")
       (blob_upload_from_string BUCKET_NAME filename body
                                "application/json") ;;;
  ret (PDict [("success", PBool true);
              ("bucket", PStr BUCKET_NAME);
              ("filename", PStr filename)]).

(** Save the generated brief to Cloud Storage. *)
Definition save_to_cloud_storage (brief_data : PyVal) : M PyVal :=
  try_except (save_steps brief_data)
    (fun e =>
       ret (PDict [("success", PBool false);
                   ("error", PStr (exn_str e))])).

(** HTTP Cloud Function that generates a market brief and stores it:
    the response body and the status code. *)
Definition generate_market_brief_http {Request : Type} (request : Request)
  : M (PyVal * Z) :=
  brief_data <- generate_market_brief ;;
  status <- lift (py_get brief_data "status") ;;
  brief_data <-
    (if py_eq_str status "success"
     then
       storage_result <- save_to_cloud_storage brief_data ;;
       lift (py_setitem brief_data "storage" storage_result)
     else ret brief_data) ;;
  status <- lift (py_get brief_data "status") ;;
  let status_code := if py_eq_str status "success" then 200 else 500 in
  status <- lift (py_get brief_data "status") ;;
  error <- lift (py_get brief_data "error") ;;
  timestamp <- lift (py_get brief_data "timestamp") ;;
  displayDate <- lift (py_get brief_data "displayDate") ;;
  targetDate <- lift (py_get brief_data "targetDate") ;;
  sources <- lift (py_get_default brief_data "sources" (PList [])) ;;
  storage <- lift (py_get_default brief_data "storage" (PDict [])) ;;
  ret (PDict [("status", status);
              ("message",
               py_or error (PStr "Market brief generated successfully"));
              ("timestamp", timestamp);
              ("displayDate", displayDate);
              ("targetDate", targetDate);
              ("sources", sources);
              ("storage", storage)],
       status_code).

End Program.

(* ====================================================================== *)
(** ** The batch contract of the verification step, in the spec's words *)

(** [l] is [l'] with some elements left out: the order is kept, and so
    are repetitions. *)
Inductive subsequence {A : Type} : list A -> list A -> Prop :=
| subsequence_nil : subsequence [] []
| subsequence_keep x l l' : subsequence l l' -> subsequence (x :: l) (x :: l')
| subsequence_drop x l l' : subsequence l l' -> subsequence l (x :: l').

Section BatchContract.
Context `{Services}.

(** What the handler of [fetch_finnhub_metrics] prints for [ticker] and
    the exception [e], and what it ends with: [None] once the text is
    written, or the exception of [print]. *)
Definition fetch_error_text (ticker : PyVal) (e : exn) : string :=
  "Error fetching Finnhub data for " ++ fstr ticker ++ ": " ++ exn_str e.

Definition printed_then_None (ticker : PyVal) (e : exn)
  : result (option FinnhubData) :=
  rbind (py_print (fetch_error_text ticker e)) (fun _ => Ok None).

(** [kept_in_order tickers s movers s']: going through [tickers] from
    state [s], each ticker is fetched once, in its turn; it contributes
    its data when the fetch returned some and the data is flagged as a
    mega-cap mover, and nothing otherwise. *)
Inductive kept_in_order
  : list PyVal -> State -> list FinnhubData -> State -> Prop :=
| kept_done s : kept_in_order [] s [] s
| kept_mover t ts s d s1 movers s2 :
    fetch_finnhub_metrics t s = (Ok (Some d), s1) ->
    isMegaCapMover_flag d = true ->
    kept_in_order ts s1 movers s2 ->
    kept_in_order (t :: ts) s (d :: movers) s2
| kept_not_mover t ts s d s1 movers s2 :
    fetch_finnhub_metrics t s = (Ok (Some d), s1) ->
    isMegaCapMover_flag d = false ->
    kept_in_order ts s1 movers s2 ->
    kept_in_order (t :: ts) s movers s2
| kept_absent t ts s s1 movers s2 :
    fetch_finnhub_metrics t s = (Ok None, s1) ->
    kept_in_order ts s1 movers s2 ->
    kept_in_order (t :: ts) s movers s2.

End BatchContract.

(* ====================================================================== *)
(** ** The deduplication of sources, in the spec's words *)

(** The title that the last chunk citing [uri] gives it, among the chunks
    whose web part has both attributes. *)
Fixpoint last_title (uri : string) (chunks : list Chunk) : option string :=
  match chunks with
  | [] => None
  | chunk :: rest =>
      match last_title uri rest with
      | Some title => Some title
      | None =>
          match chunk_web chunk with
          | Some web =>
              match web_uri web, web_title web with
              | Some u, Some title =>
                  if String.eqb uri u then Some title else None
              | _, _ => None
              end
          | None => None
          end
      end
  end.

(* ====================================================================== *)
(** ** Scripted services, to run the program on concrete scenarios *)

Module Stub.

(** What each collaborator answers.  The world is the number of calls
    made so far; the clock is read off it. *)
Record Scenario : Type := mkScenario {
  sc_api_key : option string;
  sc_clock : nat -> datetime;
  sc_configure : result unit;
  sc_generate : string -> option Q -> result GenResponse;
  sc_http : list (string * result PyVal);
  sc_loads : list (string * PyVal);
  sc_dumps : PyVal -> result string;
  sc_upload : result unit
}.

Definition ConnectionError : exn :=
  mkExn "ConnectionError" "Max retries exceeded".
Definition JSONDecodeError : exn :=
  mkExn "JSONDecodeError" "Expecting value: line 1 column 1 (char 0)".

Definition tick {A : Type} (r : result A) (w : nat) : result A * nat :=
  (r, S w).

(** Text is held as its UTF-8 bytes, and a lone surrogate (what
    [json.loads] gives for an escape like [\ud800]) as the three bytes of
    its code point, [ED A0..BF xx], which no character has.  An UTF-8
    standard output cannot encode such a text. *)
Fixpoint has_surrogate (s : string) : bool :=
  match s with
  | String a rest =>
      match rest with
      | String b _ =>
          (Nat.eqb (nat_of_ascii a) 237 && Nat.leb 160 (nat_of_ascii b)
           && Nat.leb (nat_of_ascii b) 191)
          || has_surrogate rest
      | EmptyString => false
      end
  | EmptyString => false
  end.

Definition UnicodeEncodeError : exn :=
  mkExn "UnicodeEncodeError"
        "'utf-8' codec can't encode character: surrogates not allowed".

(** The text of [\ud800]. *)
Definition lone_surrogate : string :=
  String (ascii_of_nat 237)
    (String (ascii_of_nat 160) (String (ascii_of_nat 128) EmptyString)).

Definition services (sc : Scenario) : Services := {|
  World := nat;
  FINNHUB_KEY := "KEY";
  environ_get := fun name _ =>
    if String.eqb name "GOOGLE_API_KEY" then sc_api_key sc else None;
  datetime_now := fun w => (sc_clock sc w, S w);
  genai_configure := fun _ => tick (sc_configure sc);
  genai_GenerativeModel := fun _ => tick (Ok tt);
  model_generate_content := fun prompt t => tick (sc_generate sc prompt t);
  requests_get_json := fun url =>
    tick (match assoc url (sc_http sc) with
          | Some r => r
          | None => Raise ConnectionError
          end);
  storage_Client := tick (Ok tt);
  storage_bucket := fun _ => tick (Ok tt);
  blob_upload_from_string := fun _ _ _ _ => tick (sc_upload sc);
  json_loads := fun text =>
    match assoc text (sc_loads sc) with
    | Some v => Ok v
    | None => Raise JSONDecodeError
    end;
  json_dumps := sc_dumps sc;
  py_print := fun text =>
    if has_surrogate text then Raise UnicodeEncodeError else Ok tt;
  py_str := fun _ => "<object>"
|}.

Definition start (sc : Scenario) : @State (services sc) :=
  @mkState (services sc) O [].

(** Tuesday 7 January 2025, 09:30, one second later at each call. *)
Definition clock_2025_01_07 (w : nat) : datetime :=
  mkDatetime 2025 1 7 9 30 (Z.of_nat (w mod 60)) 0.

Definition quote_url (t : string) : string :=
  "https://finnhub.io/api/v1/quote?symbol=" ++ t ++ "&token=KEY".
Definition profile_url (t : string) : string :=
  "https://finnhub.io/api/v1/stock/profile2?symbol=" ++ t ++ "&token=KEY".

Definition quote (c dp : Q) : result PyVal :=
  Ok (PDict [("c", PNum (Float c)); ("dp", PNum (Float dp))]).
Definition profile (nm : string) (cap : Q) : result PyVal :=
  Ok (PDict [("marketCapitalization", PNum (Float cap));
             ("name", PStr nm)]).

Definition tickers_text : string :=
  "[" ++ dq ++ "AAPL" ++ dq ++ ", " ++ dq ++ "XYZ" ++ dq ++ ", "
      ++ dq ++ "NVDA" ++ dq ++ ", " ++ dq ++ "AAPL" ++ dq ++ "]".

Definition answer (text : string) : result GenResponse :=
  Ok (mkResponse (Ok text) []).

(** Everything works: the model names AAPL, XYZ, NVDA and AAPL again;
    AAPL is a mega cap that moved 2.5%, XYZ cannot be fetched, NVDA is a
    mega cap that did not move, and the report comes with two citations
    of one page. *)
Definition all_well : Scenario := {|
  sc_api_key := Some "secret";
  sc_clock := clock_2025_01_07;
  sc_configure := Ok tt;
  sc_generate := fun _ t =>
    match t with
    | None => answer ("```json" ++ nl ++ tickers_text ++ nl ++ "```")
    | Some _ =>
        Ok (mkResponse (Ok "## North America")
              [mkCandidate
                 (Ok (Some (mkGrounding (Some (Ok
                    [mkChunk (Some (mkWeb (Some "https://a.example")
                                          (Some "First")));
                     mkChunk None;
                     mkChunk (Some (mkWeb (Some "https://a.example")
                                          (Some "Second")))])))))]
              )
    end;
  sc_http :=
    [(quote_url "AAPL", quote 230 (5 # 2));
     (profile_url "AAPL", profile "Apple Inc" 3400000);
     (quote_url "NVDA", quote 140 (1 # 2));
     (profile_url "NVDA", profile "NVIDIA Corp" 3300000)];
  sc_loads :=
    [(tickers_text,
      PList [PStr "AAPL"; PStr "XYZ"; PStr "NVDA"; PStr "AAPL"])];
  sc_dumps := fun _ => Ok "{}";
  sc_upload := Ok tt
|}.

(** As [all_well], but the object store refuses the write. *)
Definition storage_down : Scenario := {|
  sc_api_key := sc_api_key all_well;
  sc_clock := sc_clock all_well;
  sc_configure := sc_configure all_well;
  sc_generate := sc_generate all_well;
  sc_http := sc_http all_well;
  sc_loads := sc_loads all_well;
  sc_dumps := sc_dumps all_well;
  sc_upload := Raise (mkExn "Forbidden" "403 POST: access denied")
|}.

(** The credential of the generative service is not set. *)
Definition no_api_key : Scenario := {|
  sc_api_key := None;
  sc_clock := sc_clock all_well;
  sc_configure := sc_configure all_well;
  sc_generate := sc_generate all_well;
  sc_http := sc_http all_well;
  sc_loads := sc_loads all_well;
  sc_dumps := sc_dumps all_well;
  sc_upload := sc_upload all_well
|}.

(** Configuring the client raises an exception with an empty message. *)
Definition silent_failure : Scenario := {|
  sc_api_key := sc_api_key all_well;
  sc_clock := sc_clock all_well;
  sc_configure := Raise (mkExn "Exception" "");
  sc_generate := sc_generate all_well;
  sc_http := sc_http all_well;
  sc_loads := sc_loads all_well;
  sc_dumps := sc_dumps all_well;
  sc_upload := sc_upload all_well
|}.

(** A quote with a price but a 0% change. *)
Definition flat_day : Scenario := {|
  sc_api_key := sc_api_key all_well;
  sc_clock := sc_clock all_well;
  sc_configure := sc_configure all_well;
  sc_generate := sc_generate all_well;
  sc_http :=
    [(quote_url "AAPL", quote 230 0);
     (profile_url "AAPL", profile "Apple Inc" 3400000)];
  sc_loads := sc_loads all_well;
  sc_dumps := sc_dumps all_well;
  sc_upload := sc_upload all_well
|}.

End Stub.

(** *** Inputs of the scenarios *)

(** A Monday, and the first day of the calendar (a Monday too). *)
Definition monday_2025_01_13 : datetime := mkDatetime 2025 1 13 8 0 0 0.
Definition first_day : datetime := mkDatetime 1 1 1 0 0 0 0.

(** A brief to publish. *)
Definition some_brief : PyVal :=
  PDict [("status", PStr "success");
         ("content", PStr "## North America");
         ("sources", PList []);
         ("timestamp", PStr "2025-01-07 09:29:58");
         ("displayDate", PStr "Tuesday, January 07, 2025");
         ("targetDate", PStr "Monday, January 06, 2025")].

(** The brief of the scenario where the object store is down, and the state
    it is produced in. *)
Definition storage_down_brief : list (string * PyVal) :=
  Eval vm_compute in
    match fst (@generate_market_brief (Stub.services Stub.storage_down)
                 (Stub.start Stub.storage_down)) with
    | Ok (PDict items) => items
    | _ => []
    end.

Definition storage_down_state : @State (Stub.services Stub.storage_down) :=
  Eval vm_compute in
    snd (@generate_market_brief (Stub.services Stub.storage_down)
           (Stub.start Stub.storage_down)).

(* ====================================================================== *)
(** ** Checks used by the calendar proofs *)

(** How many days [previous_trading_day] goes back from a day of the week. *)
Definition days_back (day : Z) : Z :=
  if day =? 0 then 3 else if day =? 6 then 2 else 1.

(** The month and day that [ord2ymd] reads off the day of the year [n]
    (from 0) of a year that is a leap year or not. *)
Definition month_day (leapyear : bool) (n : Z) : Z * Z :=
  let m := Z.shiftr (n + 50) 5 in
  let preceding :=
    DAYS_BEFORE_MONTH m + (if (2 <? m) && leapyear then 1 else 0) in
  let '(m, preceding) :=
    if n <? preceding
    then (m - 1,
          preceding
          - (DAYS_IN_MONTH (m - 1)
             + (if (m - 1 =? 2) && leapyear then 1 else 0)))
    else (m, preceding) in
  (m, n - preceding + 1).

Definition month_day_good (leapyear : bool) (n : Z) : bool :=
  let '(m, d) := month_day leapyear n in
  (1 <=? m) && (m <=? 12) && (1 <=? d)
  && (d <=? DAYS_IN_MONTH m + (if (m =? 2) && leapyear then 1 else 0))
  && (DAYS_BEFORE_MONTH m + (if (2 <? m) && leapyear then 1 else 0) + d
      =? n + 1).

Definition days_of_year : list Z := map Z.of_nat (seq 0 365).

(** The numbers of at most two and of at most four digits. *)
Definition two_digits : list Z := map Z.of_nat (seq 0 100).
Definition four_digits : list Z := map Z.of_nat (seq 0 (100 * 100)).

(* ====================================================================== *)
(** ** The calls a computation adds to the trace *)

Section Calls.
Context `{Services}.

(** Whatever its outcome, [c] only adds calls to the trace, and all of
    them satisfy [P]. *)
Definition appends {A : Type} (P : Event -> Prop) (c : M A) : Prop :=
  forall (s : State) (r : result A) (s' : State),
    c s = (r, s') ->
    exists evs, trace s' = (trace s ++ evs)%list /\ Forall P evs.

(** [movers_str] is one entry for each mover. *)
Definition entry_of (m : FinnhubData) (entry : string) : Prop :=
  exists (pc : number) (change : string),
    priceChange m = PNum pc
    /\ (2 <= Qabs (num_val pc))%Q
    /\ format_2f_num pc = Ok change
    /\ entry = fstr (name m) ++ " ("
                 ++ (if Qle_bool (num_val pc) 0 then "" else "+")
                 ++ change ++ "%)".


End Calls.

(** A request to the market-data service. *)
Definition is_http_get (ev : Event) : Prop :=
  exists url, ev = EvHttpGet url.

(** A call of the object store. *)
Definition is_storage_call (ev : Event) : Prop :=
  match ev with
  | EvStorageClient | EvBucket _ | EvUpload _ _ _ _ => True
  | _ => False
  end.

(** A call that [generate_market_brief] may make: the clock, the
    generative service, the market-data service. *)
Definition is_brief_call (ev : Event) : Prop :=
  match ev with
  | EvNow | EvConfigure _ | EvModel _ | EvGenerate _ _ | EvHttpGet _ => True
  | EvStorageClient | EvBucket _ | EvUpload _ _ _ _ => False
  end.

(** The answer of the discovery call cannot be read: nothing decodes. *)
Definition unparsable : Stub.Scenario := {|
  Stub.sc_api_key := Stub.sc_api_key Stub.all_well;
  Stub.sc_clock := Stub.sc_clock Stub.all_well;
  Stub.sc_configure := Stub.sc_configure Stub.all_well;
  Stub.sc_generate := fun _ _ => Stub.answer "I cannot help with that.";
  Stub.sc_http := Stub.sc_http Stub.all_well;
  Stub.sc_loads := [];
  Stub.sc_dumps := Stub.sc_dumps Stub.all_well;
  Stub.sc_upload := Stub.sc_upload Stub.all_well
|}.

(** The text a discovery answer is decoded from:
    [text.replace('```json', '').replace('```', '').strip()]. *)
Definition cleaned (text : string) : string :=
  strip (replace "```" "" (replace "```json" "" text)).


(** [c in s] *)
Fixpoint has_char (c : ascii) (s : string) : bool :=
  match s with
  | EmptyString => false
  | String x rest => Ascii.eqb x c || has_char c rest
  end.

Definition backtick : ascii := "`"%char.

(** The brief of the scenario where everything works, and the state it is
    produced in. *)
Definition all_well_brief : list (string * PyVal) :=
  Eval vm_compute in
    match fst (@generate_market_brief (Stub.services Stub.all_well)
                 (Stub.start Stub.all_well)) with
    | Ok (PDict items) => items
    | _ => []
    end.

Definition all_well_state : @State (Stub.services Stub.all_well) :=
  Eval vm_compute in
    snd (@generate_market_brief (Stub.services Stub.all_well)
           (Stub.start Stub.all_well)).

(** The record of AAPL in that scenario. *)
Definition aapl : FinnhubData :=
  mkFinnhubData (PStr "AAPL") (PStr "Apple Inc") (PNum (Float 3400000))
                (PNum (Float (5 # 2))) true.

(** A small company and a mega cap whose quotes have a price and no
    percent change. *)
Definition tiny_quote : list (string * PyVal) := [("c", PNum (Float 12))].
Definition tiny_profile : list (string * PyVal) :=
  [("marketCapitalization", PNum (Float 150)); ("name", PStr "Tiny Co")].
Definition giant_profile : list (string * PyVal) :=
  [("marketCapitalization", PNum (Float 3400000));
   ("name", PStr "Giant Co")].

Definition missing_change : Stub.Scenario := {|
  Stub.sc_api_key := Stub.sc_api_key Stub.all_well;
  Stub.sc_clock := Stub.sc_clock Stub.all_well;
  Stub.sc_configure := Stub.sc_configure Stub.all_well;
  Stub.sc_generate := Stub.sc_generate Stub.all_well;
  Stub.sc_http :=
    [(Stub.quote_url "TINY", Ok (PDict tiny_quote));
     (Stub.profile_url "TINY", Ok (PDict tiny_profile));
     (Stub.quote_url "GIANT", Ok (PDict tiny_quote));
     (Stub.profile_url "GIANT", Ok (PDict giant_profile))];
  Stub.sc_loads := Stub.sc_loads Stub.all_well;
  Stub.sc_dumps := Stub.sc_dumps Stub.all_well;
  Stub.sc_upload := Stub.sc_upload Stub.all_well
|}.



(* ====================================================================== *)
(** * Properties *)

(** The twelve months, one goal each. *)
Ltac month_cases m :=
  let C := fresh "C" in
  assert (C : m = 1 \/ m = 2 \/ m = 3 \/ m = 4 \/ m = 5 \/ m = 6 \/ m = 7
              \/ m = 8 \/ m = 9 \/ m = 10 \/ m = 11 \/ m = 12) by lia;
  repeat (destruct C as [C | C]; [subst m | ]); [.. | subst m].

Ltac tables :=
  cbv [DAYS_IN_MONTH DAYS_BEFORE_MONTH Z.eqb Z.ltb Z.compare Pos.compare
       Pos.compare_cont Pos.eqb andb].

(** One step through a computation: case analysis on a scrutinee that has
    no case analysis inside. *)
Ltac step :=
  match goal with
  | |- context [match ?x with _ => _ end] =>
      lazymatch x with
      | context [match _ with _ => _ end] => fail
      | _ => destruct x eqn:?
      end
  end.

(** ** The calendar: ordinals and dates *)

(** Every day of the year, from 0 to 364, gets a month and a day of that
    month, back to back with the table of days before each month. *)
Lemma month_day_table :
  forallb (fun n => month_day_good true n && month_day_good false n)
          days_of_year = true.
Proof. vm_compute. reflexivity. Qed.

Lemma month_day_ok (leapyear : bool) (n : Z) :
  0 <= n < 365 -> month_day_good leapyear n = true.
Proof.
  intros Hn.
  pose proof month_day_table as T.
  rewrite forallb_forall in T.
  assert (In n days_of_year) as Hin.
  { unfold days_of_year. apply in_map_iff. exists (Z.to_nat n). split.
    - lia.
    - apply in_seq. lia. }
  specialize (T n Hin). apply andb_true_iff in T.
  destruct leapyear; tauto.
Qed.

(** [ord2ymd], with its last lines read as [month_day]. *)
Lemma ord2ymd_month_day (n : Z) :
  ord2ymd n =
  let n0 := n - 1 in
  let n400 := n0 / DI400Y in
  let r400 := n0 mod DI400Y in
  let n100 := r400 / DI100Y in
  let r100 := r400 mod DI100Y in
  let n4 := r100 / DI4Y in
  let r4 := r100 mod DI4Y in
  let n1 := r4 / 365 in
  let r := r4 mod 365 in
  let y := n400 * 400 + 1 + n100 * 100 + n4 * 4 + n1 in
  if (n1 =? 4) || (n100 =? 4) then (y - 1, 12, 31)
  else
    let leapyear := (n1 =? 3) && (negb (n4 =? 24) || (n100 =? 3)) in
    (y, fst (month_day leapyear r), snd (month_day leapyear r)).
Proof.
  unfold ord2ymd, month_day. cbv zeta.
  destruct (_ || _); [reflexivity|].
  destruct (_ <? _); reflexivity.
Qed.

Lemma is_leap_iff y :
  is_leap y = true
  <-> (y mod 4 = 0 /\ (y mod 100 <> 0 \/ y mod 400 = 0)).
Proof.
  unfold is_leap.
  rewrite andb_true_iff, orb_true_iff, negb_true_iff, !Z.eqb_eq, Z.eqb_neq.
  tauto.
Qed.

(** The date of an ordinal in range is a date of the calendar, and has
    that ordinal. *)
Lemma ord2ymd_ok n y m d :
  1 <= n <= MAXORDINAL -> ord2ymd n = (y, m, d) ->
  ymd2ord y m d = n /\ MINYEAR <= y <= MAXYEAR /\ 1 <= m <= 12
  /\ 1 <= d <= days_in_month y m.
Proof.
  unfold MAXORDINAL, MINYEAR, MAXYEAR. intros Hn.
  rewrite ord2ymd_month_day. cbv zeta. unfold DI400Y, DI100Y, DI4Y.
  set (n0 := n - 1).
  set (n400 := n0 / 146097). set (r400 := n0 mod 146097).
  set (n100 := r400 / 36524). set (r100 := r400 mod 36524).
  set (n4 := r100 / 1461). set (r4 := r100 mod 1461).
  set (n1 := r4 / 365). set (r := r4 mod 365).
  assert (E400 : n0 = 146097 * n400 + r400 /\ 0 <= r400 < 146097)
    by (subst n400 r400; split; [apply Z.div_mod; lia | apply Z.mod_pos_bound; lia]).
  assert (E100 : r400 = 36524 * n100 + r100 /\ 0 <= r100 < 36524)
    by (subst n100 r100; split; [apply Z.div_mod; lia | apply Z.mod_pos_bound; lia]).
  assert (E4 : r100 = 1461 * n4 + r4 /\ 0 <= r4 < 1461)
    by (subst n4 r4; split; [apply Z.div_mod; lia | apply Z.mod_pos_bound; lia]).
  assert (E1 : r4 = 365 * n1 + r /\ 0 <= r < 365)
    by (subst n1 r; split; [apply Z.div_mod; lia | apply Z.mod_pos_bound; lia]).
  clearbody n400 r400 n100 r100 n4 r4 n1 r. subst n0.
  destruct ((n1 =? 4) || (n100 =? 4)) eqn:Esp.
  - intros [= <- <- <-].
    apply orb_true_iff in Esp. rewrite !Z.eqb_eq in Esp.
    assert (L : is_leap (n400 * 400 + 1 + n100 * 100 + n4 * 4 + n1 - 1) = true).
    { apply is_leap_iff. Z.div_mod_to_equations. lia. }
    unfold ymd2ord, days_in_month, days_before_month, days_before_year. rewrite L. cbn.
    Z.div_mod_to_equations. lia.
  - apply orb_false_iff in Esp. rewrite !Z.eqb_neq in Esp.
    set (leap := (n1 =? 3) && (negb (n4 =? 24) || (n100 =? 3))).
    pose proof (month_day_ok leap r (proj2 E1)) as G.
    unfold month_day_good in G. destruct (month_day leap r) as [mm dd]. cbn [fst snd].
    intros [= <- <- <-].
    rewrite !andb_true_iff, !Z.leb_le, Z.eqb_eq in G.
    assert (L : is_leap (n400 * 400 + 1 + n100 * 100 + n4 * 4 + n1) = leap).
    { subst leap. apply eq_true_iff_eq. rewrite is_leap_iff.
      rewrite andb_true_iff, orb_true_iff, negb_true_iff, !Z.eqb_eq, Z.eqb_neq.
      Z.div_mod_to_equations. lia. }
    unfold ymd2ord, days_in_month, days_before_month, days_before_year. rewrite L.
    cbv zeta.
    split; [|split; [|split]].
    + destruct G as [[[[G1 G2] G3] G4] G5]. rewrite <- Z.add_assoc, G5.
      assert (B100 : 0 <= n100 <= 3) by lia.
      assert (B4 : 0 <= n4 <= 24) by lia.
      assert (B1 : 0 <= n1 <= 3) by lia.
      set (Y := n400 * 400 + 1 + n100 * 100 + n4 * 4 + n1 - 1).
      rewrite <- (Z.div_unique_pos Y 4 (100 * n400 + 25 * n100 + n4) n1) by (subst Y; lia).
      rewrite <- (Z.div_unique_pos Y 100 (4 * n400 + n100) (4 * n4 + n1)) by (subst Y; lia).
      rewrite <- (Z.div_unique_pos Y 400 n400 (100 * n100 + 4 * n4 + n1)) by (subst Y; lia).
      subst Y. lia.
    + lia.
    + lia.
    + destruct ((mm =? 2) && leap) eqn:E2; [|lia].
      apply andb_true_iff in E2. destruct E2 as [E2 _]. apply Z.eqb_eq in E2.
      subst mm. cbn in G. lia.
Qed.

(** A year has 365 days, and one more when it is a leap year. *)
Lemma days_before_year_succ y :
  days_before_year (y + 1) = days_before_year y + 365 + (if is_leap y then 1 else 0).
Proof.
  unfold days_before_year. cbv zeta.
  destruct (is_leap y) eqn:L.
  - apply is_leap_iff in L. Z.div_mod_to_equations. lia.
  - assert (~ (y mod 4 = 0 /\ (y mod 100 <> 0 \/ y mod 400 = 0))) as N
      by (rewrite <- is_leap_iff; congruence).
    Z.div_mod_to_equations. lia.
Qed.

Lemma days_before_year_mono y y' :
  y <= y' -> days_before_year y <= days_before_year y'.
Proof.
  unfold days_before_year. cbv zeta. intros. Z.div_mod_to_equations. lia.
Qed.

Lemma day_of_year_bounds y m d :
  1 <= m <= 12 -> 1 <= d <= days_in_month y m ->
  1 <= days_before_month y m + d <= 365 + (if is_leap y then 1 else 0).
Proof.
  intros Hm. unfold days_in_month, days_before_month.
  month_cases m; destruct (is_leap y); tables; lia.
Qed.

Lemma month_order y m d m' d' :
  1 <= m <= 12 -> 1 <= m' <= 12 -> m < m' ->
  d <= days_in_month y m -> 1 <= d' ->
  days_before_month y m + d < days_before_month y m' + d'.
Proof.
  intros Hm Hm' Hlt. unfold days_in_month, days_before_month.
  month_cases m; month_cases m'; try lia; destruct (is_leap y); tables; lia.
Qed.

Lemma datetime_ok_iff (d : datetime) :
  datetime_ok d = true <->
  (MINYEAR <= year d <= MAXYEAR /\ 1 <= month d <= 12
   /\ 1 <= day d <= days_in_month (year d) (month d))
  /\ (0 <= hour d < 24 /\ 0 <= minute d < 60 /\ 0 <= second d < 60
      /\ 0 <= microsecond d < 1000000).
Proof.
  unfold datetime_ok. rewrite !andb_true_iff, !Z.leb_le, !Z.ltb_lt. tauto.
Qed.

(** The ordinal grows with the date. *)
Lemma ymd2ord_lt y m d y' m' d' :
  1 <= m <= 12 -> 1 <= d <= days_in_month y m ->
  1 <= m' <= 12 -> 1 <= d' <= days_in_month y' m' ->
  (y < y' \/ (y = y' /\ (m < m' \/ (m = m' /\ d < d')))) ->
  ymd2ord y m d < ymd2ord y' m' d'.
Proof.
  intros Hm Hd Hm' Hd' Hlt. unfold ymd2ord.
  pose proof (day_of_year_bounds y m d Hm Hd) as B.
  pose proof (day_of_year_bounds y' m' d' Hm' Hd') as B'.
  destruct Hlt as [Hy | [-> [Hmm | [-> Hdd]]]].
  - pose proof (days_before_year_succ y) as S1.
    pose proof (days_before_year_mono (y + 1) y' ltac:(lia)) as M1.
    lia.
  - pose proof (month_order y' m d m' d' Hm Hm' Hmm (proj2 Hd) (proj1 Hd')).
    lia.
  - lia.
Qed.

Lemma toordinal_lt (a b : datetime) :
  datetime_ok a = true -> datetime_ok b = true ->
  date_lt a b -> toordinal a < toordinal b.
Proof.
  intros Ha Hb Hlt. apply datetime_ok_iff in Ha, Hb.
  unfold date_lt in Hlt. unfold toordinal.
  apply ymd2ord_lt; tauto.
Qed.

(** The ordinals of the dates of the calendar: 1 to [MAXORDINAL]. *)
Lemma toordinal_bounds (d : datetime) :
  datetime_ok d = true -> 1 <= toordinal d <= MAXORDINAL.
Proof.
  intros Hd. apply datetime_ok_iff in Hd.
  destruct Hd as [([Y1 Y2] & [M1 M2] & [D1 D2]) _].
  unfold toordinal, ymd2ord, MINYEAR, MAXYEAR, MAXORDINAL in *.
  pose proof (day_of_year_bounds (year d) (month d) (day d) ltac:(lia) ltac:(lia)) as B.
  pose proof (days_before_year_mono 1 (year d) Y1) as L1.
  change (days_before_year 1) with 0 in L1.
  assert (year d = 9999 \/ year d + 1 <= 9999) as [E | Hy] by lia.
  - rewrite E in *. change (is_leap 9999) with false in B.
    change (days_before_year 9999) with 3651694. lia.
  - pose proof (days_before_year_succ (year d)) as S1.
    pose proof (days_before_year_mono (year d + 1) 9999 Hy) as M9.
    change (days_before_year 9999) with 3651694 in M9.
    destruct (is_leap (year d)); lia.
Qed.

(** And the date grows with the ordinal. *)
Lemma date_lt_of_ordinal (a b : datetime) :
  datetime_ok a = true -> datetime_ok b = true ->
  toordinal a < toordinal b -> date_lt a b.
Proof.
  intros Ha Hb Hlt.
  destruct (Z.lt_trichotomy (year a) (year b)) as [Hy | [Hy | Hy]].
  - left. exact Hy.
  - destruct (Z.lt_trichotomy (month a) (month b)) as [Hm | [Hm | Hm]].
    + right. auto.
    + destruct (Z.lt_trichotomy (day a) (day b)) as [Hd | [Hd | Hd]].
      * right. auto.
      * unfold toordinal in Hlt. rewrite Hy, Hm, Hd in Hlt. lia.
      * assert (date_lt b a) as R by (unfold date_lt; auto).
        apply toordinal_lt in R; auto. lia.
    + assert (date_lt b a) as R by (unfold date_lt; auto).
      apply toordinal_lt in R; auto. lia.
  - assert (date_lt b a) as R by (unfold date_lt; auto).
    apply toordinal_lt in R; auto. lia.
Qed.

(** [date - timedelta(days=k)] within the range of dates: [k] days
    earlier, and the same time of day. *)
Lemma sub_days_spec (d : datetime) (k : Z) :
  1 <= toordinal d - k <= MAXORDINAL ->
  exists p,
    sub_days d k = Some p /\ toordinal p = toordinal d - k
    /\ MINYEAR <= year p <= MAXYEAR /\ 1 <= month p <= 12
    /\ 1 <= day p <= days_in_month (year p) (month p)
    /\ hour p = hour d /\ minute p = minute d /\ second p = second d
    /\ microsecond p = microsecond d.
Proof.
  intros Hr. unfold sub_days. cbv zeta.
  replace (0 <? toordinal d - k) with true by (symmetry; apply Z.ltb_lt; lia).
  replace (toordinal d - k <=? MAXORDINAL) with true
    by (symmetry; apply Z.leb_le; lia).
  cbn [andb].
  destruct (ord2ymd (toordinal d - k)) as [[y m] dd] eqn:E.
  destruct (ord2ymd_ok _ _ _ _ Hr E) as (R & Y & Mo & D).
  eexists. split; [reflexivity|]. cbn. unfold toordinal. cbn. tauto.
Qed.

Lemma sub_days_ok (d p : datetime) (k : Z) :
  datetime_ok d = true -> sub_days d k = Some p -> datetime_ok p = true.
Proof.
  intros Hd E.
  assert (1 <= toordinal d - k <= MAXORDINAL) as Hr.
  { unfold sub_days in E. cbv zeta in E.
    destruct ((0 <? toordinal d - k) && (toordinal d - k <=? MAXORDINAL)) eqn:R;
      [|discriminate].
    apply andb_true_iff in R. rewrite Z.ltb_lt, Z.leb_le in R. lia. }
  destruct (sub_days_spec d k Hr)
    as (p' & E' & _ & Y & Mo & D & T1 & T2 & T3 & T4).
  rewrite E in E'. injection E' as <-.
  apply datetime_ok_iff in Hd. apply datetime_ok_iff.
  rewrite T1, T2, T3, T4. tauto.
Qed.

(** ... and before the first day: no date. *)
Lemma sub_days_overflow (d : datetime) (k : Z) :
  toordinal d - k < 1 -> sub_days d k = None.
Proof.
  intros Hr. unfold sub_days. cbv zeta.
  replace (0 <? toordinal d - k) with false by (symmetry; apply Z.ltb_ge; lia).
  reflexivity.
Qed.

(** Ordinal 1 is the first of January of year 1, and no other date. *)
Lemma toordinal_min (d : datetime) :
  datetime_ok d = true ->
  (toordinal d = 1 <-> (year d, month d, day d) = (1, 1, 1)).
Proof.
  intros Hd. apply datetime_ok_iff in Hd. destruct Hd as [(Y & Mo & D) _].
  unfold MINYEAR in Y. split.
  - intros E.
    destruct (Z.eq_dec (year d) 1) as [Ey|Ny];
      [destruct (Z.eq_dec (month d) 1) as [Em|Nm];
       [destruct (Z.eq_dec (day d) 1) as [Ed|Nd]; [congruence|]|]|];
      exfalso;
      assert (ymd2ord 1 1 1 < ymd2ord (year d) (month d) (day d)) as L
        by (apply ymd2ord_lt; try assumption; try (cbn; lia); lia);
      unfold toordinal in E; rewrite E in L; cbn in L; lia.
  - intros [= Ey Em Ed]. unfold toordinal. rewrite Ey, Em, Ed. reflexivity.
Qed.

Lemma weekday_range (d : datetime) : 0 <= weekday d <= 6.
Proof. unfold weekday. pose proof (Z.mod_pos_bound (toordinal d + 6) 7). lia. Qed.

(** Going back [k] days goes back [k] days of the week. *)
Lemma weekday_sub_days (d p : datetime) (k : Z) :
  toordinal p = toordinal d - k -> weekday p = (weekday d - k) mod 7.
Proof.
  intros E. unfold weekday. rewrite E.
  rewrite Zminus_mod_idemp_l. f_equal. lia.
Qed.

(** ** The date calculator *)

(** The four branches of [previous_trading_day] as one subtraction. *)
Lemma previous_trading_day_minus (d : datetime) :
  previous_trading_day d = minus_days d (days_back (weekday d)).
Proof.
  unfold previous_trading_day, days_back. cbv zeta.
  destruct (weekday d =? 0); [reflexivity|].
  destruct (weekday d =? 6); [reflexivity|].
  destruct (weekday d =? 5); reflexivity.
Qed.

Lemma days_back_in_range (d : datetime) :
  datetime_ok d = true -> toordinal d <> 1 ->
  1 <= toordinal d - days_back (weekday d) <= MAXORDINAL.
Proof.
  intros Hd Hne. pose proof (toordinal_bounds d Hd) as B.
  unfold days_back, weekday.
  destruct ((toordinal d + 6) mod 7 =? 0) eqn:E0;
    [apply Z.eqb_eq in E0 | destruct ((toordinal d + 6) mod 7 =? 6) eqn:E6;
                             [apply Z.eqb_eq in E6|]].
  - revert E0. Z.div_mod_to_equations. lia.
  - revert E6. Z.div_mod_to_equations. lia.
  - lia.
Qed.

(** What [previous_trading_day] computes on every date but the first. *)
Lemma previous_trading_day_defined (d : datetime) :
  datetime_ok d = true -> toordinal d <> 1 ->
  exists prev,
    previous_trading_day d = Ok prev
    /\ toordinal prev = toordinal d - days_back (weekday d)
    /\ datetime_ok prev = true.
Proof.
  intros Hd Hne. rewrite previous_trading_day_minus. unfold minus_days.
  destruct (sub_days_spec d _ (days_back_in_range d Hd Hne))
    as (p & E & O & _).
  exists p. rewrite E. repeat split; [exact O|].
  exact (sub_days_ok d p _ Hd E).
Qed.

Lemma previous_trading_day_first (d : datetime) :
  toordinal d = 1 -> previous_trading_day d = Raise OverflowError.
Proof.
  intros E. rewrite previous_trading_day_minus. unfold minus_days.
  rewrite sub_days_overflow; [reflexivity|].
  pose proof (weekday_range d). unfold days_back.
  destruct (weekday d =? 0); [lia|]. destruct (weekday d =? 6); lia.
Qed.

Lemma weekday_of_previous (d prev : datetime) :
  toordinal prev = toordinal d - days_back (weekday d) ->
  0 <= weekday prev <= 4
  /\ (weekday d = 0 \/ weekday d = 5 \/ weekday d = 6 -> weekday prev = 4).
Proof.
  intros E. rewrite (weekday_sub_days d prev _ E).
  pose proof (weekday_range d) as R. unfold days_back.
  assert (weekday d = 0 \/ weekday d = 1 \/ weekday d = 2 \/ weekday d = 3
          \/ weekday d = 4 \/ weekday d = 5 \/ weekday d = 6) as C by lia.
  repeat (destruct C as [C | C]; [rewrite C; cbn; lia|]).
  rewrite C; cbn; lia.
Qed.

Lemma append_nil_r (a : string) : a ++ "" = a.
Proof. induction a as [|x a IH]; cbn; [reflexivity | now rewrite IH]. Qed.

(** The long format: full weekday name, full month name, day in two
    digits, year. *)
Lemma long_format (d : datetime) :
  strftime "%A, %B %d, %Y" d
  = weekday_name (weekday d) ++ ", " ++ month_name (month d) ++ " "
      ++ zero_padded 2 (day d) ++ ", " ++ strftime "%Y" d.
Proof. reflexivity. Qed.

Section DateCalculator.
Context `{Services}.

(** The reference instant is always there: the date given, or the clock's. *)
Lemma default_now_total (date : option datetime) (s : State) :
  exists d s', default_now date s = (Ok d, s').
Proof.
  destruct date as [d|]; cbn.
  - exists d, s. reflexivity.
  - unfold now, call. destruct (datetime_now (world s)) as [d w].
    eexists _, _. reflexivity.
Qed.

(** C2, as the code has it.  For every reference instant [d] (the date
    passed, or the clock's when none is) other than 0001-01-01,
    [get_previous_trading_day_str] returns the long format of a date
    [prev] that lies exactly 3 days before [d] when [d] is a Monday, 1 day
    when it is a Saturday, 2 days when it is a Sunday and 1 day from
    Tuesday to Friday; from a Monday, a Saturday or a Sunday [prev] is a
    Friday; the string starts with the full weekday name, then the full
    month name. *)
Theorem get_previous_trading_day_str_offsets
        (date : option datetime) (s s' : State) (d : datetime) :
  default_now date s = (Ok d, s') ->
  datetime_ok d = true ->
  (year d, month d, day d) <> (1, 1, 1) ->
  exists prev : datetime,
    get_previous_trading_day_str date s
    = (Ok (strftime "%A, %B %d, %Y" prev), s')
    /\ datetime_ok prev = true
    /\ (weekday d = 0 -> toordinal prev = toordinal d - 3)
    /\ (weekday d = 5 -> toordinal prev = toordinal d - 1)
    /\ (weekday d = 6 -> toordinal prev = toordinal d - 2)
    /\ (1 <= weekday d <= 4 -> toordinal prev = toordinal d - 1)
    /\ (weekday d = 0 \/ weekday d = 5 \/ weekday d = 6 -> weekday prev = 4)
    /\ strftime "%A, %B %d, %Y" prev
       = weekday_name (weekday prev) ++ ", " ++ month_name (month prev)
           ++ " " ++ zero_padded 2 (day prev) ++ ", "
           ++ strftime "%Y" prev.
Proof.
  intros Hnow Hd Hne.
  assert (toordinal d <> 1) as Hord
    by (intros E; apply Hne; apply toordinal_min; assumption).
  destruct (previous_trading_day_defined d Hd Hord) as (prev & E & O & Hp).
  destruct (weekday_of_previous d prev O) as [_ Fri].
  exists prev. split.
  { unfold get_previous_trading_day_str, bind, lift, ret.
    rewrite Hnow, E. reflexivity. }
  split; [exact Hp|].
  unfold days_back in O.
  repeat split.
  - intros W. rewrite W in O. exact O.
  - intros W. rewrite W in O. exact O.
  - intros W. rewrite W in O. exact O.
  - intros W. destruct (weekday d =? 0) eqn:E0; [apply Z.eqb_eq in E0; lia|].
    destruct (weekday d =? 6) eqn:E6; [apply Z.eqb_eq in E6; lia|]. exact O.
  - exact Fri.
Qed.

(** C8, at the failing input.  [get_formatted_date] of Tuesday 7 January
    2025 is the day number in two digits, ["07"], and not ["7"]. *)
Theorem get_formatted_date_pads_day (s : State) :
  get_formatted_date (Some (mkDatetime 2025 1 7 9 30 0 0)) s
  = (Ok "Tuesday, January 07, 2025", s)
  /\ "Tuesday, January 07, 2025" <> "Tuesday, January 7, 2025".
Proof. split; [reflexivity | discriminate]. Qed.

End DateCalculator.

(** C5.  For every reference instant [d], a date [prev] computed by
    [previous_trading_day] is strictly earlier than [d]'s date, in calendar
    order and in days, and is none of Saturday and Sunday; a date is
    computed for every [d] but 0001-01-01, where the subtraction leaves
    the range of dates. *)
Theorem previous_trading_day_earlier_weekday (d : datetime) :
  datetime_ok d = true ->
  (forall prev,
      previous_trading_day d = Ok prev ->
      date_lt prev d /\ toordinal prev < toordinal d
      /\ weekday prev <> 5 /\ weekday prev <> 6)
  /\ ((year d, month d, day d) <> (1, 1, 1) ->
      exists prev, previous_trading_day d = Ok prev)
  /\ ((year d, month d, day d) = (1, 1, 1) ->
      previous_trading_day d = Raise OverflowError).
Proof.
  intros Hd. split; [|split].
  - intros prev E.
    destruct (Z.eq_dec (toordinal d) 1) as [E1 | Hord].
    { rewrite (previous_trading_day_first d E1) in E. discriminate. }
    destruct (previous_trading_day_defined d Hd Hord) as (p & E' & O & Hp).
    rewrite E in E'. injection E' as <-.
    destruct (weekday_of_previous d prev O) as [R _].
    assert (toordinal prev < toordinal d) as Hlt.
    { rewrite O. unfold days_back.
      destruct (weekday d =? 0); [lia|]. destruct (weekday d =? 6); lia. }
    split; [apply date_lt_of_ordinal; assumption|].
    split; [exact Hlt|]. lia.
  - intros Hne.
    assert (toordinal d <> 1) as Hord
      by (intros E; apply Hne; apply toordinal_min; assumption).
    destruct (previous_trading_day_defined d Hd Hord) as (p & E & _).
    exists p. exact E.
  - intros E. apply previous_trading_day_first. apply toordinal_min; assumption.
Qed.

(** From Monday 13 January 2025: three days back, a Friday. *)
Lemma get_previous_trading_day_str_offsets_witness :
  exists prev : datetime,
    @get_previous_trading_day_str (Stub.services Stub.all_well)
      (Some monday_2025_01_13) (Stub.start Stub.all_well)
    = (Ok (strftime "%A, %B %d, %Y" prev), Stub.start Stub.all_well)
    /\ toordinal prev = toordinal monday_2025_01_13 - 3
    /\ weekday prev = 4.
Proof.
  destruct (@get_previous_trading_day_str_offsets
              (Stub.services Stub.all_well) (Some monday_2025_01_13)
              (Stub.start Stub.all_well) (Stub.start Stub.all_well)
              monday_2025_01_13)
    as (prev & E & _ & Mon & _ & _ & _ & Fri & _).
  - reflexivity.
  - reflexivity.
  - discriminate.
  - exists prev. split; [exact E|]. split.
    + apply Mon. reflexivity.
    + apply Fri. left. reflexivity.
Defined.

(** C2 fails on the first day of the calendar: 0001-01-01 is a Monday, and
    the date three days before it does not exist. *)
Lemma get_previous_trading_day_str_first_day :
  datetime_ok first_day = true
  /\ weekday first_day = 0
  /\ @get_previous_trading_day_str (Stub.services Stub.all_well)
       (Some first_day) (Stub.start Stub.all_well)
     = (Raise OverflowError, Stub.start Stub.all_well).
Proof. repeat split. Qed.

(** The same Monday: the date computed is earlier, and no weekend day. *)
Lemma previous_trading_day_earlier_weekday_witness :
  exists prev,
    previous_trading_day monday_2025_01_13 = Ok prev
    /\ date_lt prev monday_2025_01_13
    /\ weekday prev <> 5 /\ weekday prev <> 6.
Proof.
  destruct (previous_trading_day_earlier_weekday monday_2025_01_13)
    as (Inv & Def & _).
  - reflexivity.
  - destruct Def as [prev E]; [discriminate|].
    exists prev. split; [exact E|].
    destruct (Inv prev E) as (L & _ & N5 & N6). auto.
Defined.

(** ** The Finnhub verifier *)

Lemma Qabs_inject_Z (z : Z) : Qabs (inject_Z z) = inject_Z (Z.abs z).
Proof. reflexivity. Qed.

(** The rule on two numbers: the outcome is a boolean, never an
    exception. *)
Lemma isMegaCapMover_numbers (mc pc : number) :
  isMegaCapMover (PNum mc) (PNum pc)
  = Ok (Qle_bool 200000 (num_val mc) && Qle_bool 2 (Qabs (num_val pc))).
Proof.
  unfold isMegaCapMover, py_ge_int, py_ge_float, py_abs. cbn [as_number rbind].
  change (inject_Z 200000) with 200000%Q.
  destruct (Qle_bool 200000 (num_val mc)); cbn [andb]; [|reflexivity].
  destruct pc as [z | q]; cbn [rbind as_number num_val]; [|reflexivity].
  rewrite Qabs_inject_Z. reflexivity.
Qed.

(** C1.  On a quote whose two fields are numbers, [isMegaCapMover] is true
    exactly when the market capitalisation is at least 200000 and the
    absolute value of the price change is at least 2.0, both bounds
    included: 200000 with 2.0 or -2.0 gives true, 199999.99 with 2.0 gives
    false (for the decimal number and for the [float] nearest to it,
    858993416250327 / 2^32). *)
Theorem isMegaCapMover_threshold :
  (forall mc pc : number,
      exists b : bool,
        isMegaCapMover (PNum mc) (PNum pc) = Ok b
        /\ (b = true <->
            (200000 <= num_val mc /\ 2 <= Qabs (num_val pc))%Q))
  /\ isMegaCapMover (PNum (Int 200000)) (PNum (Float 2)) = Ok true
  /\ isMegaCapMover (PNum (Int 200000)) (PNum (Float (-2))) = Ok true
  /\ isMegaCapMover (PNum (Float 200000)) (PNum (Int (-2))) = Ok true
  /\ isMegaCapMover (PNum (Float 199999.99)) (PNum (Float 2)) = Ok false
  /\ isMegaCapMover (PNum (Float (858993416250327 # 4294967296)))
                    (PNum (Float 2)) = Ok false.
Proof.
  split; [|repeat split].
  intros mc pc. eexists. split; [apply isMegaCapMover_numbers|].
  rewrite andb_true_iff, !Qle_bool_iff. reflexivity.
Qed.

Section Verifier.
Context `{Services}.

(** [fetch_finnhub_metrics] is its steps followed, when they raise, by
    the handler. *)
Lemma fetch_finnhub_metrics_run (ticker : PyVal) (s : State) :
  fetch_finnhub_metrics ticker s
  = match fetch_steps ticker s with
    | (Ok data, s') => (Ok data, s')
    | (Raise e, s') => (printed_then_None ticker e, s')
    end.
Proof.
  unfold fetch_finnhub_metrics, try_except, printed_then_None,
    fetch_error_text.
  destruct (fetch_steps ticker s) as [[data | e] s']; [reflexivity|].
  unfold bind, lift, ret. destruct (py_print _); reflexivity.
Qed.

(** An exception leaves [fetch_finnhub_metrics] only from the [print] of
    its handler. *)
Lemma fetch_finnhub_metrics_raises (ticker : PyVal) (s s' : State)
      (e : exn) :
  fetch_finnhub_metrics ticker s = (Raise e, s') ->
  exists e0,
    fetch_steps ticker s = (Raise e0, s')
    /\ py_print (fetch_error_text ticker e0) = Raise e.
Proof.
  rewrite fetch_finnhub_metrics_run.
  destruct (fetch_steps ticker s) as [[data | e0] s1]; [discriminate|].
  unfold printed_then_None.
  destruct (py_print (fetch_error_text ticker e0)) as [u | e1] eqn:P;
    cbn [rbind]; intros [= <- <-]. exists e0. auto.
Qed.

Lemma fetch_finnhub_metrics_ticker (t : PyVal) (s s' : State)
      (d : FinnhubData) :
  fetch_finnhub_metrics t s = (Ok (Some d), s') -> ticker d = t.
Proof.
  rewrite fetch_finnhub_metrics_run.
  destruct (fetch_steps t s) as [[data | e0] s1] eqn:E.
  - intros [= -> ->]. revert E.
    unfold fetch_steps, bind, lift, ret.
    repeat step; intros E; inversion E; reflexivity.
  - unfold printed_then_None. destruct (py_print _); discriminate.
Qed.

(** C3, as the code has it.  When both lookups answer with an object: if
    the quote's current price [c] or the profile's market capitalisation
    is missing or false, the result is [None]; if [c] is true, the
    capitalisation a non-zero number and the percent change [dp] a
    number (zero included), the result is the populated record, its flag
    given by the threshold rule. *)
Theorem fetch_finnhub_metrics_absent_or_populated
        (ticker : PyVal) (s s1 s2 : State)
        (quote profile : list (string * PyVal)) :
  http_get_json ("https://finnhub.io/api/v1/quote?symbol="
                 ++ fstr ticker ++ "&token=" ++ FINNHUB_KEY) s
  = (Ok (PDict quote), s1) ->
  http_get_json ("https://finnhub.io/api/v1/stock/profile2?symbol="
                 ++ fstr ticker ++ "&token=" ++ FINNHUB_KEY) s1
  = (Ok (PDict profile), s2) ->
  let c := match assoc "c" quote with Some v => v | None => PNone end in
  let cap := match assoc "marketCapitalization" profile with
             | Some v => v
             | None => PNone
             end in
  (truthy c = false \/ truthy cap = false ->
   fetch_finnhub_metrics ticker s = (Ok None, s2))
  /\ (forall mc pc : number,
         truthy c = true ->
         cap = PNum mc -> is_zero (num_val mc) = false ->
         assoc "dp" quote = Some (PNum pc) ->
         fetch_finnhub_metrics ticker s
         = (Ok (Some (mkFinnhubData
                        ticker
                        (match assoc "name" profile with
                         | Some n => n
                         | None => ticker
                         end)
                        (PNum mc) (PNum pc)
                        (Qle_bool 200000 (num_val mc)
                         && Qle_bool 2 (Qabs (num_val pc))))),
            s2)).
Proof.
  intros Hq Hp c cap. split.
  - intros Hfalsy.
    unfold fetch_finnhub_metrics, fetch_steps, try_except, bind, lift, ret.
    rewrite Hq, Hp. cbn [py_get py_get_default]. fold c cap.
    destruct (truthy c); cbn [negb]; [|reflexivity].
    destruct Hfalsy as [F | F]; [discriminate|]. rewrite F. reflexivity.
  - intros mc pc Hc Hcap Hnz Hdp.
    unfold fetch_finnhub_metrics, fetch_steps, try_except, bind, lift, ret.
    rewrite Hq, Hp. cbn [py_get py_get_default]. fold c cap.
    rewrite Hc, Hcap, Hdp. cbn [negb truthy]. rewrite Hnz. cbn [negb].
    rewrite isMegaCapMover_numbers. reflexivity.
Qed.

(** The loop from any accumulator: when it returns, it has appended. *)
Lemma verify_loop_collects (tickers : list PyVal) :
  forall (acc result : list FinnhubData) (s s' : State),
    verify_loop tickers acc s = (Ok result, s') ->
    exists found,
      result = (acc ++ found)%list
      /\ kept_in_order tickers s (filter isMegaCapMover_flag found) s'.
Proof.
  induction tickers as [|t ts IH]; intros acc result s s'.
  - cbn. intros [= <- <-]. exists []. rewrite app_nil_r.
    split; [reflexivity | constructor].
  - cbn [verify_loop]. unfold bind at 1.
    destruct (fetch_finnhub_metrics t s) as [[[d|] | e] s1] eqn:F;
      [| |discriminate]; intros E.
    + destruct (IH _ _ _ _ E) as (found & -> & K).
      exists (d :: found). split.
      * rewrite <- app_assoc. reflexivity.
      * cbn [filter]. destruct (isMegaCapMover_flag d) eqn:Fl.
        -- eapply kept_mover; eassumption.
        -- eapply kept_not_mover; eassumption.
    + destruct (IH _ _ _ _ E) as (found & -> & K).
      exists found. split; [reflexivity|].
      eapply kept_absent; eassumption.
Qed.

(** The loop on a list cut in two. *)
Lemma verify_loop_app (l1 l2 : list PyVal) :
  forall (acc : list FinnhubData) (s : State),
    verify_loop (l1 ++ l2)%list acc s
    = match verify_loop l1 acc s with
      | (Ok acc1, s1) => verify_loop l2 acc1 s1
      | (Raise e, s1) => (Raise e, s1)
      end.
Proof.
  induction l1 as [|t ts IH]; intros acc s; [reflexivity|].
  cbn [app verify_loop]. unfold bind.
  destruct (fetch_finnhub_metrics t s) as [[[d|] | e] s1];
    [apply IH | apply IH | reflexivity].
Qed.

(** The loop only appends to its accumulator. *)
Lemma verify_loop_acc (tickers : list PyVal) :
  forall (acc : list FinnhubData) (s : State),
    verify_loop tickers acc s
    = match verify_loop tickers [] s with
      | (Ok found, s') => (Ok (acc ++ found)%list, s')
      | (Raise e, s') => (Raise e, s')
      end.
Proof.
  induction tickers as [|t ts IH]; intros acc s.
  - cbn. rewrite app_nil_r. reflexivity.
  - cbn [verify_loop]. unfold bind.
    destruct (fetch_finnhub_metrics t s) as [[[d|] | e] s1];
      [| apply IH | reflexivity].
    rewrite (IH (acc ++ [d])%list), (IH ([] ++ [d])%list).
    destruct (verify_loop ts [] s1) as [[found | e] s2]; [|reflexivity].
    rewrite <- app_assoc. reflexivity.
Qed.

Lemma kept_in_order_subsequence tickers s movers s' :
  kept_in_order tickers s movers s' ->
  subsequence (map ticker movers) tickers
  /\ Forall (fun m => isMegaCapMover_flag m = true) movers.
Proof.
  induction 1 as [s | t ts s d s1 ms s2 F Fl K [IHs IHf]
                  | t ts s d s1 ms s2 F Fl K [IHs IHf]
                  | t ts s s1 ms s2 F K [IHs IHf]].
  - split; constructor.
  - split.
    + cbn [map]. rewrite (fetch_finnhub_metrics_ticker _ _ _ _ F).
      now constructor.
    + now constructor.
  - split; [now constructor | assumption].
  - split; [now constructor | assumption].
Qed.

(** The verification step, when it returns, satisfies the batch
    contract. *)
Lemma verification_kept (tickers : list PyVal) (s s' : State)
      (movers : list FinnhubData) :
  verification tickers s = (Ok movers, s') ->
  kept_in_order tickers s movers s'.
Proof.
  unfold verification, bind, ret.
  destruct (verify_loop tickers [] s) as [[found | e] s1] eqn:E;
    [|discriminate].
  intros [= <- <-].
  destruct (verify_loop_collects _ _ _ _ _ E) as (found' & -> & K).
  exact K.
Qed.

(** The verification step on a list cut in two: the second part runs
    from where the first ended, when the first returned. *)
Lemma verification_app (l1 l2 : list PyVal) (s : State) :
  verification (l1 ++ l2)%list s
  = match verification l1 s with
    | (Ok m1, s1) =>
        match verification l2 s1 with
        | (Ok m2, s2) => (Ok (m1 ++ m2)%list, s2)
        | (Raise e, s2) => (Raise e, s2)
        end
    | (Raise e, s1) => (Raise e, s1)
    end.
Proof.
  unfold verification, bind, ret. rewrite verify_loop_app.
  destruct (verify_loop l1 [] s) as [[found1 | e] s1]; [|reflexivity].
  rewrite verify_loop_acc.
  destruct (verify_loop l2 [] s1) as [[found2 | e] s2]; [|reflexivity].
  rewrite filter_app. reflexivity.
Qed.

(** One ticker whose lookup fails. *)
Lemma verification_one_failure (t : PyVal) (s : State) (e0 : exn)
      (w1 : World) :
  requests_get_json ("https://finnhub.io/api/v1/quote?symbol="
                     ++ fstr t ++ "&token=" ++ FINNHUB_KEY) (world s)
  = (Raise e0, w1) ->
  fetch_finnhub_metrics t s
  = (printed_then_None t e0,
     mkState w1
       (trace s
          ++ [EvHttpGet ("https://finnhub.io/api/v1/quote?symbol="
                         ++ fstr t ++ "&token=" ++ FINNHUB_KEY)])%list).
Proof.
  intros R. rewrite fetch_finnhub_metrics_run.
  unfold fetch_steps, bind, http_get_json, call. rewrite R. reflexivity.
Qed.

(** C4, at the failing input.  A ticker [t] whose quote lookup fails and
    for which the handler's [print] raises ends the whole verification
    step with that exception, after this one request: the tickers after
    it are not looked up, and the movers found before it are lost.  On
    its own, each of the other parts of the list is verified. *)
Theorem verification_stops_when_print_raises
        (before after : list PyVal) (t : PyVal) (s0 s s2 : State)
        (m1 m2 : list FinnhubData) (e0 e : exn) (w1 : World) :
  verification before s0 = (Ok m1, s) ->
  requests_get_json ("https://finnhub.io/api/v1/quote?symbol="
                     ++ fstr t ++ "&token=" ++ FINNHUB_KEY) (world s)
  = (Raise e0, w1) ->
  py_print ("Error fetching Finnhub data for " ++ fstr t ++ ": "
            ++ exn_str e0) = Raise e ->
  verification after s = (Ok m2, s2) ->
  verification (before ++ t :: after)%list s0
  = (Raise e,
     mkState w1
       (trace s
          ++ [EvHttpGet ("https://finnhub.io/api/v1/quote?symbol="
                         ++ fstr t ++ "&token=" ++ FINNHUB_KEY)])%list)
  /\ kept_in_order before s0 m1 s
  /\ kept_in_order after s m2 s2.
Proof.
  intros B R P A. split; [|split; apply verification_kept; assumption].
  rewrite verification_app, B.
  change (t :: after) with ([t] ++ after)%list.
  rewrite verification_app.
  unfold verification at 1. cbn [verify_loop]. unfold bind at 1 2.
  rewrite (verification_one_failure t s e0 w1 R).
  unfold printed_then_None, fetch_error_text. rewrite P. reflexivity.
Qed.

End Verifier.

(** ** The orchestrator *)

Section Orchestrator.
Context `{Services}.

Lemma bind_Ok_inv {A B : Type} (c : M A) (k : A -> M B)
      (s s' : State) (b : B) :
  bind c k s = (Ok b, s') ->
  exists a s1, c s = (Ok a, s1) /\ k a s1 = (Ok b, s').
Proof.
  unfold bind. destruct (c s) as [[a | e] s1]; intros E.
  - exists a, s1. auto.
  - discriminate E.
Qed.


(** A result that [brief_steps] returns has the six fields of a
    success. *)
Lemma brief_steps_success (s s1 : State) (r : PyVal) :
  brief_steps s = (Ok r, s1) ->
  exists content sources timestamp display_date target_date,
    r = PDict [("status", PStr "success");
               ("content", PStr content);
               ("sources", sources);
               ("timestamp", PStr timestamp);
               ("displayDate", PStr display_date);
               ("targetDate", PStr target_date)].
Proof.
  unfold brief_steps. intros E.
  repeat (apply bind_Ok_inv in E; destruct E as (? & ? & _ & E);
          cbv beta zeta in E).
  unfold ret in E. injection E as <- _.
  eexists _, _, _, _, _. reflexivity.
Qed.


End Orchestrator.

(** ** The storage publisher and the HTTP entry point *)

Lemma assoc_set_same {A : Type} (k : string) (v : A)
      (items : list (string * A)) :
  assoc k (assoc_set k v items) = Some v.
Proof.
  induction items as [|[k' v'] rest IH]; cbn.
  - rewrite String.eqb_refl. reflexivity.
  - destruct (String.eqb k k') eqn:E; cbn; rewrite E; [reflexivity | exact IH].
Qed.

Lemma assoc_set_other {A : Type} (k k' : string) (v : A)
      (items : list (string * A)) :
  String.eqb k k' = false ->
  assoc k (assoc_set k' v items) = assoc k items.
Proof.
  intros Hne. induction items as [|[k0 v0] rest IH]; cbn.
  - rewrite Hne. reflexivity.
  - destruct (String.eqb k' k0) eqn:E; cbn.
    + apply String.eqb_eq in E. subst k0. rewrite Hne. reflexivity.
    + rewrite IH. reflexivity.
Qed.

Lemma py_eq_str_true (v : PyVal) (t : string) :
  py_eq_str v t = true -> v = PStr t.
Proof.
  destruct v; cbn; try discriminate.
  intros E. apply String.eqb_eq in E. now subst.
Qed.

Lemma zero_padded_2_table :
  forallb (fun n => Nat.eqb (String.length (zero_padded 2 n)) 2) two_digits
  = true.
Proof. vm_compute. reflexivity. Qed.

Lemma zero_padded_4_table :
  forallb (fun n => Nat.eqb (String.length (zero_padded 4 n)) 4) four_digits
  = true.
Proof. vm_compute. reflexivity. Qed.

Lemma zero_padded_2_length (n : Z) :
  0 <= n < 100 -> String.length (zero_padded 2 n) = 2%nat.
Proof.
  intros Hn. pose proof zero_padded_2_table as T.
  rewrite forallb_forall in T. apply Nat.eqb_eq, T.
  unfold two_digits. apply in_map_iff. exists (Z.to_nat n).
  split; [lia | apply in_seq; lia].
Qed.

Lemma zero_padded_4_length (n : Z) :
  0 <= n < 10000 -> String.length (zero_padded 4 n) = 4%nat.
Proof.
  intros Hn. pose proof zero_padded_4_table as T.
  rewrite forallb_forall in T. apply Nat.eqb_eq, T.
  unfold four_digits. apply in_map_iff. exists (Z.to_nat n).
  split; [lia | apply in_seq; lia].
Qed.

Lemma length_append (a b : string) :
  String.length (a ++ b) = (String.length a + String.length b)%nat.
Proof. induction a as [|x a IH]; cbn; [reflexivity | now rewrite IH]. Qed.

(** The timestamp of the storage key, field by field. *)
Lemma key_format (t : datetime) :
  strftime "%Y-%m-%d_%H-%M-%S" t
  = strftime "%Y" t ++ "-" ++ zero_padded 2 (month t) ++ "-"
      ++ zero_padded 2 (day t) ++ "_" ++ zero_padded 2 (hour t) ++ "-"
      ++ zero_padded 2 (minute t) ++ "-" ++ zero_padded 2 (second t).
Proof.
  cbn [strftime directive]. rewrite !append_nil_r. reflexivity.
Qed.

Lemma days_in_month_le (y m : Z) : 1 <= m <= 12 -> days_in_month y m <= 31.
Proof.
  intros Hm. unfold days_in_month.
  month_cases m; destruct (is_leap y); tables; lia.
Qed.

Lemma key_format_length (t : datetime) :
  datetime_ok t = true -> 1000 <= year t ->
  String.length (strftime "%Y-%m-%d_%H-%M-%S" t) = 19%nat.
Proof.
  intros Ht Hy. apply datetime_ok_iff in Ht.
  destruct Ht as [(Y & Mo & D) (Hh & Hm & Hs & _)].
  unfold MINYEAR, MAXYEAR in Y.
  pose proof (days_in_month_le (year t) (month t) Mo) as D31.
  rewrite key_format, !length_append.
  cbn [strftime directive]. rewrite append_nil_r.
  rewrite zero_padded_4_length, !zero_padded_2_length by lia.
  reflexivity.
Qed.

Section Publisher.
Context `{Services}.

Lemma call_run {A : Type} (ev : Event) (f : World -> result A * World)
      (s : State) (r : result A) (w : World) :
  f (world s) = (r, w) ->
  call ev f s = (r, mkState w (trace s ++ [ev])).
Proof. intros E. unfold call. rewrite E. reflexivity. Qed.

(** The handler of [save_to_cloud_storage] turns every exception into a
    result: the function itself never raises. *)
Lemma save_to_cloud_storage_never_raises (brief_data : PyVal) (s : State) :
  exists r s', save_to_cloud_storage brief_data s = (Ok r, s').
Proof.
  unfold save_to_cloud_storage, try_except, ret.
  destruct (save_steps brief_data s) as [[r | e] s'];
    eexists _, _; reflexivity.
Qed.

Lemma save_to_cloud_storage_failure (brief_data : PyVal) (s s' : State)
      (e : exn) :
  save_steps brief_data s = (Raise e, s') ->
  save_to_cloud_storage brief_data s
  = (Ok (PDict [("success", PBool false); ("error", PStr (exn_str e))]),
     s').
Proof.
  intros E. unfold save_to_cloud_storage, try_except, ret.
  rewrite E. reflexivity.
Qed.

(** C9, as the code has it.  When a publish reaches the object store
    (client and bucket obtained, the brief serialised), the key it writes
    is [market_brief_<YYYY-MM-DD_HH-MM-SS>.json], extension included,
    where the timestamp is the clock read during this call, after the
    client and the bucket were obtained; no field of the brief enters the
    key.  With a year of four digits the timestamp has 19 characters. *)
Theorem save_to_cloud_storage_key
        (brief_data data : PyVal) (s : State) (w1 w2 w3 : World)
        (t : datetime) (body : string) :
  storage_Client (world s) = (Ok tt, w1) ->
  storage_bucket BUCKET_NAME w1 = (Ok tt, w2) ->
  datetime_now w2 = (t, w3) ->
  data_to_save brief_data = Ok data ->
  json_dumps data = Ok body ->
  let timestamp := strftime "%Y-%m-%d_%H-%M-%S" t in
  let filename := "market_brief_" ++ timestamp ++ ".json" in
  exists r s',
    save_to_cloud_storage brief_data s = (Ok r, s')
    /\ trace s'
       = (trace s
            ++ [EvStorageClient; EvBucket BUCKET_NAME; EvNow;
                EvUpload BUCKET_NAME filename body "application/json"])%list
    /\ (blob_upload_from_string BUCKET_NAME filename body
                                "application/json" w3
        = (Ok tt, world s') ->
        r = PDict [("success", PBool true);
                   ("bucket", PStr BUCKET_NAME);
                   ("filename", PStr filename)])
    /\ timestamp
       = strftime "%Y" t ++ "-" ++ zero_padded 2 (month t) ++ "-"
           ++ zero_padded 2 (day t) ++ "_" ++ zero_padded 2 (hour t)
           ++ "-" ++ zero_padded 2 (minute t) ++ "-"
           ++ zero_padded 2 (second t)
    /\ (datetime_ok t = true -> 1000 <= year t ->
        String.length timestamp = 19%nat).
Proof.
  intros Hc Hb Hn Hd Hj timestamp filename.
  destruct (blob_upload_from_string BUCKET_NAME filename body
                                   "application/json" w3)
    as [up w4] eqn:Hu.
  assert (exists r,
             save_to_cloud_storage brief_data s
             = (Ok r,
                mkState w4
                  (trace s
                     ++ [EvStorageClient; EvBucket BUCKET_NAME; EvNow;
                         EvUpload BUCKET_NAME filename body
                                  "application/json"])%list)
             /\ (up = Ok tt ->
                 r = PDict [("success", PBool true);
                            ("bucket", PStr BUCKET_NAME);
                            ("filename", PStr filename)])) as (r & E & R).
  { unfold save_to_cloud_storage, save_steps, try_except, bind, now.
    rewrite (call_run _ _ _ _ _ Hc). cbn [world trace].
    rewrite (call_run _ _ (mkState w1 _) _ _ Hb). cbn [world trace].
    erewrite (call_run _ _ (mkState w2 _)); [|cbn [world]; rewrite Hn; reflexivity].
    cbn [world trace]. unfold lift. rewrite Hd, Hj.
    fold timestamp. fold filename.
    rewrite (call_run _ _ (mkState w3 _) _ _ Hu). cbn [world trace].
    rewrite <- !app_assoc. cbn [app].
    destruct up as [[] | e]; unfold ret; eexists; split; try reflexivity.
    discriminate. }
  exists r, (mkState w4
               (trace s
                  ++ [EvStorageClient; EvBucket BUCKET_NAME; EvNow;
                      EvUpload BUCKET_NAME filename body
                               "application/json"])%list).
  split; [exact E|]. split; [reflexivity|]. split.
  - cbn [world]. intros [= ->]. apply R. reflexivity.
  - split; [apply key_format | apply key_format_length].
Qed.

End Publisher.

Section HttpEntryPoint.
Context `{Services}.
Context {Request : Type}.

(** The response to a brief that is no success: the brief's fields, an
    empty storage field, code 500, and no call after the brief. *)
Lemma http_not_success (request : Request) (s s1 : State)
      (brief : list (string * PyVal)) :
  generate_market_brief s = (Ok (PDict brief), s1) ->
  py_eq_str (item "status" brief) "success" = false ->
  generate_market_brief_http request s
  = (Ok (PDict [("status", item "status" brief);
                ("message", py_or (item "error" brief)
                       (PStr "Market brief generated successfully"));
                ("timestamp", item "timestamp" brief);
                ("displayDate", item "displayDate" brief);
                ("targetDate", item "targetDate" brief);
                ("sources",
                 match assoc "sources" brief with
                 | Some v => v
                 | None => PList []
                 end);
                ("storage",
                 match assoc "storage" brief with
                 | Some v => v
                 | None => PDict []
                 end)],
         500),
     s1).
Proof.
  intros E Hs.
  unfold generate_market_brief_http, bind, lift, ret.
  rewrite E. cbn [py_get py_get_default]. fold (item "status" brief).
  rewrite Hs. cbn [py_get py_get_default]. fold (item "status" brief).
  rewrite Hs. reflexivity.
Qed.

(** The response to a successful brief: the publisher runs once, its
    result is the storage field, the code is 200. *)
Lemma http_success (request : Request) (s s1 s2 : State)
      (brief : list (string * PyVal)) (storage_result : PyVal) :
  generate_market_brief s = (Ok (PDict brief), s1) ->
  py_eq_str (item "status" brief) "success" = true ->
  save_to_cloud_storage (PDict brief) s1 = (Ok storage_result, s2) ->
  exists body,
    generate_market_brief_http request s = (Ok (body, 200), s2)
    /\ py_get body "status" = Ok (PStr "success")
    /\ py_get body "storage" = Ok storage_result.
Proof.
  intros E Hs Hp.
  unfold generate_market_brief_http, bind, lift, ret.
  rewrite E. cbn [py_get py_get_default]. fold (item "status" brief).
  rewrite Hs, Hp. cbn [py_setitem py_get py_get_default].
  rewrite assoc_set_same, !assoc_set_other by reflexivity.
  fold (item "status" brief). rewrite Hs.
  eexists. split; [reflexivity|]. split; [|reflexivity].
  cbn. rewrite (py_eq_str_true _ _ Hs). reflexivity.
Qed.

(** C7.  After a brief whose status is not ["success"] the entry point
    answers 500 and calls nothing more: the publisher is not invoked.
    After a successful brief it invokes the publisher, puts its result
    in the storage field and answers 200 with the status ["success"];
    an exception inside the publisher (a failed write) becomes the
    storage field [{success: False, error: message}], the status and the
    code unchanged. *)
Theorem http_publishes_on_success_only (request : Request) (s s1 : State)
        (brief : list (string * PyVal)) :
  generate_market_brief s = (Ok (PDict brief), s1) ->
  (py_eq_str (item "status" brief) "success" = false ->
   exists body,
     generate_market_brief_http request s = (Ok (body, 500), s1)
     /\ py_get body "status" = Ok (item "status" brief)
     /\ (assoc "storage" brief = None ->
         py_get body "storage" = Ok (PDict [])))
  /\ (py_eq_str (item "status" brief) "success" = true ->
      exists storage_result s2 body,
        save_to_cloud_storage (PDict brief) s1 = (Ok storage_result, s2)
        /\ generate_market_brief_http request s = (Ok (body, 200), s2)
        /\ py_get body "status" = Ok (PStr "success")
        /\ py_get body "storage" = Ok storage_result
        /\ (forall e s',
               save_steps (PDict brief) s1 = (Raise e, s') ->
               s2 = s'
               /\ storage_result
                  = PDict [("success", PBool false);
                           ("error", PStr (exn_str e))])).
Proof.
  intros E. split.
  - intros Hs. eexists. split; [exact (http_not_success request _ _ _ E Hs)|].
    split; [reflexivity|]. intros Hno. cbn. rewrite Hno. reflexivity.
  - intros Hs.
    destruct (save_to_cloud_storage_never_raises (PDict brief) s1)
      as (storage_result & s2 & Hp).
    destruct (http_success request _ _ _ _ _ E Hs Hp) as (body & R & St & Sg).
    exists storage_result, s2, body.
    repeat (split; [assumption|]).
    intros e s' Hf. rewrite (save_to_cloud_storage_failure _ _ _ _ Hf) in Hp.
    injection Hp as <- <-. split; reflexivity.
Qed.

(** C10.  When the brief has the status ["error"] and the empty string as
    its error, the response has the status ["error"] and the code 500,
    and its message is the text of a success. *)
Theorem http_empty_error_reads_as_success (request : Request)
        (s s1 : State) (brief : list (string * PyVal)) :
  generate_market_brief s = (Ok (PDict brief), s1) ->
  assoc "status" brief = Some (PStr "error") ->
  assoc "error" brief = Some (PStr "") ->
  exists body,
    generate_market_brief_http request s = (Ok (body, 500), s1)
    /\ py_get body "status" = Ok (PStr "error")
    /\ py_get body "message"
       = Ok (PStr "Market brief generated successfully").
Proof.
  intros E Hst Her.
  assert (py_eq_str (item "status" brief) "success" = false) as Hs
    by (unfold item; rewrite Hst; reflexivity).
  eexists. split; [exact (http_not_success request _ _ _ E Hs)|].
  unfold item. rewrite Hst, Her. split; reflexivity.
Qed.

End HttpEntryPoint.

(** ** The properties at work on the scripted scenarios *)

(** AAPL in [Stub.all_well]: a price, a capitalisation of 3.4 million
    millions and a change of 2.5% give the populated record, flagged. *)
Lemma fetch_finnhub_metrics_absent_or_populated_witness :
  @fetch_finnhub_metrics (Stub.services Stub.all_well) (PStr "AAPL")
    (Stub.start Stub.all_well)
  = (Ok (Some (mkFinnhubData (PStr "AAPL") (PStr "Apple Inc")
                 (PNum (Float 3400000)) (PNum (Float (5 # 2))) true)),
     @mkState (Stub.services Stub.all_well) 2%nat
       [EvHttpGet (Stub.quote_url "AAPL");
        EvHttpGet (Stub.profile_url "AAPL")]).
Proof.
  destruct (@fetch_finnhub_metrics_absent_or_populated
              (Stub.services Stub.all_well) (PStr "AAPL")
              (Stub.start Stub.all_well)
              (@mkState (Stub.services Stub.all_well) 1%nat
                 [EvHttpGet (Stub.quote_url "AAPL")])
              (@mkState (Stub.services Stub.all_well) 2%nat
                 [EvHttpGet (Stub.quote_url "AAPL");
                  EvHttpGet (Stub.profile_url "AAPL")])
              [("c", PNum (Float 230)); ("dp", PNum (Float (5 # 2)))]
              [("marketCapitalization", PNum (Float 3400000));
               ("name", PStr "Apple Inc")])
    as [_ Populated].
  - reflexivity.
  - reflexivity.
  - rewrite (Populated (Float 3400000) (Float (5 # 2))); reflexivity.
Defined.

(** C3 fails on a quote with a price and a 0% change: the record is
    populated, its change 0 and its flag false. *)
Lemma fetch_finnhub_metrics_flat_day :
  @fetch_finnhub_metrics (Stub.services Stub.flat_day) (PStr "AAPL")
    (Stub.start Stub.flat_day)
  = (Ok (Some (mkFinnhubData (PStr "AAPL") (PStr "Apple Inc")
                 (PNum (Float 3400000)) (PNum (Float 0)) false)),
     @mkState (Stub.services Stub.flat_day) 2%nat
       [EvHttpGet (Stub.quote_url "AAPL");
        EvHttpGet (Stub.profile_url "AAPL")]).
Proof. reflexivity. Qed.

(** The tickers of [Stub.all_well] with a lone surrogate in the place of
    XYZ: AAPL is fetched, the lookup of the surrogate fails and the
    handler's [print] raises; NVDA and the second AAPL are never looked
    up, and the AAPL already found is lost.  Without that ticker the
    result is AAPL twice. *)
Lemma verification_stops_when_print_raises_witness :
  @verification (Stub.services Stub.all_well)
    [PStr "AAPL"; PStr Stub.lone_surrogate; PStr "NVDA"; PStr "AAPL"]
    (Stub.start Stub.all_well)
  = (Raise Stub.UnicodeEncodeError,
     @mkState (Stub.services Stub.all_well) 3%nat
       [EvHttpGet (Stub.quote_url "AAPL");
        EvHttpGet (Stub.profile_url "AAPL");
        EvHttpGet (Stub.quote_url Stub.lone_surrogate)])
  /\ fst (@verification (Stub.services Stub.all_well)
            [PStr "AAPL"; PStr "NVDA"; PStr "AAPL"]
            (Stub.start Stub.all_well))
     = Ok [aapl; aapl].
Proof.
  split; [|reflexivity].
  apply (@verification_stops_when_print_raises
           (Stub.services Stub.all_well)
           [PStr "AAPL"] [PStr "NVDA"; PStr "AAPL"]
           (PStr Stub.lone_surrogate)
           (Stub.start Stub.all_well)
           (@mkState (Stub.services Stub.all_well) 2%nat
              [EvHttpGet (Stub.quote_url "AAPL");
               EvHttpGet (Stub.profile_url "AAPL")])
           (snd (@verification (Stub.services Stub.all_well)
                   [PStr "NVDA"; PStr "AAPL"]
                   (@mkState (Stub.services Stub.all_well) 2%nat
                      [EvHttpGet (Stub.quote_url "AAPL");
                       EvHttpGet (Stub.profile_url "AAPL")])))
           [aapl] [aapl] Stub.ConnectionError Stub.UnicodeEncodeError
           3%nat).
  - reflexivity.
  - reflexivity.
  - reflexivity.
  - vm_compute. reflexivity.
Defined.



(** The object store is down: the brief is a success, the response says
    200 and carries the failure in its storage field. *)
Lemma http_publishes_on_success_only_witness :
  exists s2 body,
    @generate_market_brief_http (Stub.services Stub.storage_down) unit tt
      (Stub.start Stub.storage_down)
    = (Ok (body, 200), s2)
    /\ py_get body "status" = Ok (PStr "success")
    /\ py_get body "storage"
       = Ok (PDict [("success", PBool false);
                    ("error", PStr "403 POST: access denied")]).
Proof.
  destruct (@http_publishes_on_success_only
              (Stub.services Stub.storage_down) unit tt
              (Stub.start Stub.storage_down) storage_down_state
              storage_down_brief)
    as [_ Published].
  - vm_compute. reflexivity.
  - destruct Published as (r & s2 & body & _ & R & St & Sg & Failed).
    + reflexivity.
    + exists s2, body. split; [exact R|]. split; [exact St|].
      rewrite Sg. f_equal.
      refine (proj2 (Failed (mkExn "Forbidden" "403 POST: access denied")
                            _ _)).
      vm_compute. reflexivity.
Defined.

(** A publish at 09:30:00: the clock is read at the third call, 09:30:02,
    and the key carries that time. *)
Lemma save_to_cloud_storage_key_witness :
  exists r s',
    @save_to_cloud_storage (Stub.services Stub.all_well) some_brief
      (Stub.start Stub.all_well)
    = (Ok r, s')
    /\ trace s'
       = [EvStorageClient; EvBucket BUCKET_NAME; EvNow;
          EvUpload BUCKET_NAME "market_brief_2025-01-07_09-30-02.json" "{}"
                   "application/json"].
Proof.
  destruct (@save_to_cloud_storage_key
              (Stub.services Stub.all_well) some_brief
              (PDict [("displayDate", PStr "Tuesday, January 07, 2025");
                      ("targetDate", PStr "Monday, January 06, 2025");
                      ("generatedAt", PStr "2025-01-07 09:29:58");
                      ("content", PStr "## North America");
                      ("sources", PList []);
                      ("status", PStr "success")])
              (Stub.start Stub.all_well) 1%nat 2%nat 3%nat
              (Stub.clock_2025_01_07 2) "{}")
    as (r & s' & E & T & _).
  - reflexivity.
  - reflexivity.
  - reflexivity.
  - reflexivity.
  - reflexivity.
  - exists r, s'. split; [exact E|]. rewrite T. reflexivity.
Defined.

(** C9 fails on every publish: the key written ends in [.json], so it is
    longer than [market_brief_] followed by a timestamp. *)
Lemma save_to_cloud_storage_key_has_extension :
  trace (snd (@save_to_cloud_storage (Stub.services Stub.all_well)
                some_brief (Stub.start Stub.all_well)))
  = [EvStorageClient; EvBucket BUCKET_NAME; EvNow;
     EvUpload BUCKET_NAME "market_brief_2025-01-07_09-30-02.json" "{}"
              "application/json"]
  /\ strftime "%Y-%m-%d_%H-%M-%S" (Stub.clock_2025_01_07 2)
     = "2025-01-07_09-30-02"
  /\ String.eqb "market_brief_2025-01-07_09-30-02.json"
                "market_brief_2025-01-07_09-30-02" = false
  /\ String.length "market_brief_2025-01-07_09-30-02.json" = 37%nat
  /\ String.length "market_brief_2025-01-07_09-30-02" = 32%nat.
Proof. repeat split. Qed.

(** An exception with an empty message while configuring the client. *)
Lemma http_empty_error_reads_as_success_witness :
  exists body s1,
    @generate_market_brief_http (Stub.services Stub.silent_failure) unit tt
      (Stub.start Stub.silent_failure)
    = (Ok (body, 500), s1)
    /\ py_get body "status" = Ok (PStr "error")
    /\ py_get body "message"
       = Ok (PStr "Market brief generated successfully").
Proof.
  destruct (@http_empty_error_reads_as_success
              (Stub.services Stub.silent_failure) unit tt
              (Stub.start Stub.silent_failure)
              (@mkState (Stub.services Stub.silent_failure) 2%nat
                 [EvConfigure "secret"; EvNow])
              [("status", PStr "error"); ("error", PStr "");
               ("timestamp", PStr "2025-01-07 09:30:01")])
    as (body & R & St & Msg).
  - reflexivity.
  - reflexivity.
  - reflexivity.
  - exists body. eexists. split; [exact R|]. split; assumption.
Defined.

(** ** Further properties of the orchestrator *)

Lemma assoc_set_keys {A : Type} (k k' : string) (v : A)
      (items : list (string * A)) :
  In k' (map fst (assoc_set k v items)) <-> k' = k \/ In k' (map fst items).
Proof.
  induction items as [|[k0 v0] rest IH]; cbn.
  - split; [intros [E | []]; auto | intros [E | []]; auto].
  - destruct (String.eqb k k0) eqn:E; cbn.
    + apply String.eqb_eq in E. subst k0. intuition congruence.
    + rewrite IH. intuition congruence.
Qed.

Lemma assoc_set_NoDup {A : Type} (k : string) (v : A)
      (items : list (string * A)) :
  NoDup (map fst items) -> NoDup (map fst (assoc_set k v items)).
Proof.
  induction items as [|[k0 v0] rest IH]; cbn; intros N.
  - constructor; [intros [] | constructor].
  - inversion N as [|? ? Hnot Hrest]; subst.
    destruct (String.eqb k k0) eqn:E; cbn.
    + constructor; assumption.
    + constructor; [|apply IH; assumption].
      rewrite assoc_set_keys. intros [-> | Hin]; [|contradiction].
      rewrite String.eqb_refl in E. discriminate.
Qed.

Lemma assoc_set_lookup {A : Type} (k k' : string) (v : A)
      (items : list (string * A)) :
  assoc k' (assoc_set k v items)
  = if String.eqb k' k then Some v else assoc k' items.
Proof.
  destruct (String.eqb k' k) eqn:E.
  - apply String.eqb_eq in E. subst. apply assoc_set_same.
  - apply assoc_set_other. exact E.
Qed.

Lemma collect_sources_from (chunks : list Chunk) :
  forall source_map : list (string * string),
    NoDup (map fst source_map) ->
    NoDup (map fst (collect_sources chunks source_map))
    /\ forall uri,
        assoc uri (collect_sources chunks source_map)
        = match last_title uri chunks with
          | Some title => Some title
          | None => assoc uri source_map
          end.
Proof.
  induction chunks as [|chunk rest IH]; intros source_map N.
  - split; [exact N | reflexivity].
  - cbn [collect_sources last_title].
    destruct (chunk_web chunk) as [web|];
      [destruct (web_uri web) as [u|]; [destruct (web_title web) as [t|]|]|].
    + destruct (IH _ (assoc_set_NoDup u t source_map N)) as [N' L].
      split; [exact N'|]. intros uri. rewrite L.
      destruct (last_title uri rest); [reflexivity|].
      rewrite assoc_set_lookup. destruct (String.eqb uri u); reflexivity.
    + destruct (IH _ N) as [N' L]. split; [exact N'|].
      intros uri. rewrite L. destruct (last_title uri rest); reflexivity.
    + destruct (IH _ N) as [N' L]. split; [exact N'|].
      intros uri. rewrite L. destruct (last_title uri rest); reflexivity.
    + destruct (IH _ N) as [N' L]. split; [exact N'|].
      intros uri. rewrite L. destruct (last_title uri rest); reflexivity.
Qed.

(** X1.  The sources collected from the grounding chunks hold every uri
    once, each with the title of the last chunk that cites it; two chunks
    with one uri and two titles leave one entry, with the later title. *)
Theorem collect_sources_deduplicates (chunks : list Chunk) :
  NoDup (map fst (collect_sources chunks []))
  /\ (forall uri,
         assoc uri (collect_sources chunks []) = last_title uri chunks)
  /\ collect_sources
       [mkChunk (Some (mkWeb (Some "https://a.example") (Some "First")));
        mkChunk (Some (mkWeb (Some "https://a.example") (Some "Second")))]
       []
     = [("https://a.example", "Second")].
Proof.
  destruct (collect_sources_from chunks [] (NoDup_nil _)) as [N L].
  split; [exact N|]. split; [|reflexivity].
  intros uri. rewrite L. destruct (last_title uri chunks); reflexivity.
Qed.

Section Configuration.
Context `{Services}.

(** X2.  Without the credential of the generative service (unset, or
    empty) the brief is the error result with the message of the missing
    variable, and no service is called: the clock alone is read, for the
    timestamp. *)
Theorem generate_market_brief_without_key (s : State) :
  environ_get "GOOGLE_API_KEY" (world s) = None
  \/ environ_get "GOOGLE_API_KEY" (world s) = Some "" ->
  generate_market_brief s
  = (Ok (PDict [("status", PStr "error");
                ("error",
                 PStr "GOOGLE_API_KEY environment variable not set");
                ("timestamp",
                 PStr (strftime "%Y-%m-%d %H:%M:%S"
                                (fst (datetime_now (world s)))))]),
     mkState (snd (datetime_now (world s))) (trace s ++ [EvNow])).
Proof.
  intros Hkey.
  unfold generate_market_brief, try_except, brief_steps.
  unfold bind at 1. unfold bind at 1. unfold getenv, raise.
  destruct Hkey as [E | E]; rewrite E; cbv beta iota delta [String.eqb];
    unfold bind, ret, now, call;
    destruct (datetime_now (world s)) as [t w]; reflexivity.
Qed.

End Configuration.

(** [Stub.no_api_key]: the error result, and a trace of one clock read. *)
Lemma generate_market_brief_without_key_witness :
  @generate_market_brief (Stub.services Stub.no_api_key)
    (Stub.start Stub.no_api_key)
  = (Ok (PDict [("status", PStr "error");
                ("error",
                 PStr "GOOGLE_API_KEY environment variable not set");
                ("timestamp", PStr "2025-01-07 09:30:00")]),
     @mkState (Stub.services Stub.no_api_key) 1%nat [EvNow]).
Proof.
  rewrite (@generate_market_brief_without_key
             (Stub.services Stub.no_api_key) (Stub.start Stub.no_api_key));
    [reflexivity | left; reflexivity].
Defined.

(** ** The previous trading day is the latest weekday *)

(** X3.  The date [get_previous_trading_day_str] formats is the latest
    Monday-to-Friday before the reference date: every day strictly between
    the two is a Saturday or a Sunday. *)
Theorem previous_trading_day_skips_only_weekends (d prev : datetime) :
  datetime_ok d = true ->
  previous_trading_day d = Ok prev ->
  0 <= weekday prev <= 4
  /\ toordinal prev < toordinal d
  /\ forall o : Z,
      toordinal prev < o < toordinal d ->
      (o + 6) mod 7 = 5 \/ (o + 6) mod 7 = 6.
Proof.
  intros Hd E.
  destruct (Z.eq_dec (toordinal d) 1) as [E1 | Hord].
  { rewrite (previous_trading_day_first d E1) in E. discriminate. }
  destruct (previous_trading_day_defined d Hd Hord) as (p & E' & O & _).
  rewrite E in E'. injection E' as <-.
  destruct (weekday_of_previous d prev O) as [R _].
  split; [exact R|].
  revert O. unfold days_back, weekday.
  destruct ((toordinal d + 6) mod 7 =? 0) eqn:E0;
    [apply Z.eqb_eq in E0
    | destruct ((toordinal d + 6) mod 7 =? 6) eqn:E6;
      [apply Z.eqb_eq in E6|]];
    intros O; (split; [lia|]); intros o Ho.
  - revert E0. Z.div_mod_to_equations. lia.
  - revert E6. Z.div_mod_to_equations. lia.
  - lia.
Qed.

(** Monday 13 January 2025: Friday the 10th, a Saturday and a Sunday in
    between. *)
Lemma previous_trading_day_skips_only_weekends_witness :
  0 <= weekday (mkDatetime 2025 1 10 8 0 0 0) <= 4
  /\ toordinal (mkDatetime 2025 1 10 8 0 0 0) < toordinal monday_2025_01_13.
Proof.
  destruct (previous_trading_day_skips_only_weekends
              monday_2025_01_13 (mkDatetime 2025 1 10 8 0 0 0))
    as (W & L & _); [reflexivity | reflexivity | split; assumption].
Defined.

(** ** The calls the program makes *)

Section CallsOfThePieces.
Context `{Services}.

Lemma appends_ret {A : Type} (P : Event -> Prop) (a : A) :
  appends P (ret a).
Proof.
  intros s r s' [= <- <-]. exists []. rewrite app_nil_r. auto.
Qed.

Lemma appends_raise {A : Type} (P : Event -> Prop) (e : exn) :
  appends P (@raise _ A e).
Proof.
  intros s r s' [= <- <-]. exists []. rewrite app_nil_r. auto.
Qed.

Lemma appends_lift {A : Type} (P : Event -> Prop) (x : result A) :
  appends P (lift x).
Proof.
  intros s r s' [= <- <-]. exists []. rewrite app_nil_r. auto.
Qed.

Lemma appends_getenv (P : Event -> Prop) (name : string) :
  appends P (getenv name).
Proof.
  intros s r s' [= <- <-]. exists []. rewrite app_nil_r. auto.
Qed.

Lemma appends_call {A : Type} (P : Event -> Prop) (ev : Event)
      (f : World -> result A * World) :
  P ev -> appends P (call ev f).
Proof.
  intros Hev s r s'. unfold call. destruct (f (world s)) as [x w].
  intros [= <- <-]. exists [ev]. cbn. auto.
Qed.

Lemma appends_bind {A B : Type} (P : Event -> Prop) (c : M A)
      (k : A -> M B) :
  appends P c -> (forall a, appends P (k a)) -> appends P (bind c k).
Proof.
  intros Hc Hk s r s'. unfold bind.
  destruct (c s) as [[a | e] s1] eqn:E; intros R.
  - destruct (Hc _ _ _ E) as (evs1 & T1 & F1).
    destruct (Hk a _ _ _ R) as (evs2 & T2 & F2).
    exists (evs1 ++ evs2)%list. rewrite T2, T1, app_assoc.
    split; [reflexivity | apply Forall_app; auto].
  - injection R as <- <-. exact (Hc _ _ _ E).
Qed.

Lemma appends_try_except {A : Type} (P : Event -> Prop) (body : M A)
      (handler : exn -> M A) :
  appends P body -> (forall e, appends P (handler e)) ->
  appends P (try_except body handler).
Proof.
  intros Hb Hh s r s'. unfold try_except.
  destruct (body s) as [[a | e] s1] eqn:E; intros R.
  - injection R as <- <-. exact (Hb _ _ _ E).
  - destruct (Hb _ _ _ E) as (evs1 & T1 & F1).
    destruct (Hh e _ _ _ R) as (evs2 & T2 & F2).
    exists (evs1 ++ evs2)%list. rewrite T2, T1, app_assoc.
    split; [reflexivity | apply Forall_app; auto].
Qed.

Lemma appends_weaken {A : Type} (P Q : Event -> Prop) (c : M A) :
  (forall ev, P ev -> Q ev) -> appends P c -> appends Q c.
Proof.
  intros PQ Hc s r s' E. destruct (Hc _ _ _ E) as (evs & T & F).
  exists evs. split; [exact T|]. eapply Forall_impl; eassumption.
Qed.

Lemma appends_now (P : Event -> Prop) : P EvNow -> appends P now.
Proof. intros HP. apply appends_call. exact HP. Qed.

End CallsOfThePieces.

(** Through a computation, piece by piece. *)
Ltac appends_steps :=
  repeat first
    [ apply appends_ret
    | apply appends_raise
    | apply appends_lift
    | apply appends_getenv
    | apply appends_bind; [|intros ?]
    | apply appends_try_except; [|intros ?]
    | match goal with
      | |- appends _ (match ?x with _ => _ end) => destruct x
      | |- appends _ (if ?x then _ else _) => destruct x
      end ].

(** ** More on the Finnhub verifier *)

Lemma isMegaCapMover_true (market_cap price_change : PyVal) :
  isMegaCapMover market_cap price_change = Ok true ->
  exists mc pc : number,
    market_cap = PNum mc /\ price_change = PNum pc
    /\ (200000 <= num_val mc)%Q /\ (2 <= Qabs (num_val pc))%Q.
Proof.
  intros E.
  destruct market_cap as [ | [|] | mc | | | ];
    try (vm_compute in E; discriminate E).
  destruct price_change as [ | [|] | pc | | | ];
    try (unfold isMegaCapMover, py_ge_int in E; cbn [as_number rbind] in E;
         destruct (Qle_bool (inject_Z 200000) (num_val mc));
         vm_compute in E; discriminate E).
  exists mc, pc. rewrite isMegaCapMover_numbers in E.
  injection E as E. apply andb_true_iff in E. rewrite !Qle_bool_iff in E.
  tauto.
Qed.


(** Above 2^53 an [int] is rounded before it is formatted. *)
Lemma format_2f_rounds_int :
  format_2f (PNum (Int (2 ^ 53 + 1))) = Ok "9007199254740992.00"
  /\ format_2f (PNum (Int (2 ^ 53 + 3))) = Ok "9007199254740996.00"
  /\ format_2f (PNum (Int (10 ^ 400))) = Raise FloatOverflowError.
Proof. repeat split; vm_compute; reflexivity. Qed.

Section MoreOnTheVerifier.
Context `{Services}.

Lemma http_get_json_run (url : string) (s : State) :
  http_get_json url s
  = (fst (requests_get_json url (world s)),
     mkState (snd (requests_get_json url (world s)))
             (trace s ++ [EvHttpGet url])).
Proof.
  unfold http_get_json, call.
  destruct (requests_get_json url (world s)); reflexivity.
Qed.

(** X4.  When the steps of [fetch_finnhub_metrics] raise, the handler
    prints the ticker and the exception, and the result is [None] if the
    text could be written and the exception of [print] if not.  That is
    what happens when the quote lookup raises (the profile is then not
    requested), when the profile lookup raises, when the quote is no
    object, and when the quote has a true price and the profile is no
    object; a quote without a true price gives [None] whatever the
    profile is. *)
Theorem fetch_finnhub_metrics_fails_soft (ticker : PyVal) (s : State) :
  let quote_url := "https://finnhub.io/api/v1/quote?symbol="
                     ++ fstr ticker ++ "&token=" ++ FINNHUB_KEY in
  let profile_url := "https://finnhub.io/api/v1/stock/profile2?symbol="
                       ++ fstr ticker ++ "&token=" ++ FINNHUB_KEY in
  (forall e : exn,
      (py_print (fetch_error_text ticker e) = Ok tt ->
       printed_then_None ticker e = Ok None)
      /\ (forall e', py_print (fetch_error_text ticker e) = Raise e' ->
                     printed_then_None ticker e = Raise e'))
  /\ (forall e s1,
         http_get_json quote_url s = (Raise e, s1) ->
         fetch_finnhub_metrics ticker s = (printed_then_None ticker e, s1)
         /\ trace s1 = (trace s ++ [EvHttpGet quote_url])%list)
  /\ (forall quote s1 e s2,
         http_get_json quote_url s = (Ok quote, s1) ->
         http_get_json profile_url s1 = (Raise e, s2) ->
         fetch_finnhub_metrics ticker s = (printed_then_None ticker e, s2))
  /\ (forall quote s1 profile s2,
         http_get_json quote_url s = (Ok quote, s1) ->
         http_get_json profile_url s1 = (Ok profile, s2) ->
         (forall items, quote <> PDict items) ->
         fetch_finnhub_metrics ticker s
         = (printed_then_None ticker (AttributeError quote "get"), s2))
  /\ (forall quote s1 profile s2,
         http_get_json quote_url s = (Ok (PDict quote), s1) ->
         http_get_json profile_url s1 = (Ok profile, s2) ->
         (forall items, profile <> PDict items) ->
         fetch_finnhub_metrics ticker s
         = (if truthy (item "c" quote)
            then printed_then_None ticker (AttributeError profile "get")
            else Ok None,
            s2)).
Proof.
  intros quote_url profile_url. split; [|split; [|split; [|split]]].
  - intros e. unfold printed_then_None. split.
    + intros ->. reflexivity.
    + intros e' ->. reflexivity.
  - intros e s1 E. split.
    + rewrite fetch_finnhub_metrics_run. unfold fetch_steps, bind.
      fold quote_url. rewrite E. reflexivity.
    + rewrite http_get_json_run in E. injection E as _ <-. reflexivity.
  - intros quote s1 e s2 Eq Ep.
    rewrite fetch_finnhub_metrics_run. unfold fetch_steps, bind.
    fold quote_url profile_url. rewrite Eq, Ep. reflexivity.
  - intros quote s1 profile s2 Eq Ep Hno.
    rewrite fetch_finnhub_metrics_run. unfold fetch_steps, bind, lift.
    fold quote_url profile_url. rewrite Eq, Ep.
    destruct quote as [ | | | | | q]; try reflexivity.
    exfalso. exact (Hno q eq_refl).
  - intros quote s1 profile s2 Eq Ep Hno.
    rewrite fetch_finnhub_metrics_run. unfold fetch_steps, bind, lift, ret.
    fold quote_url profile_url. rewrite Eq, Ep.
    cbn [py_get py_get_default]. fold (item "c" quote).
    destruct (truthy (item "c" quote)); cbn [negb]; [|reflexivity].
    destruct profile as [ | | | | | p]; try reflexivity.
    exfalso. exact (Hno p eq_refl).
Qed.

(** X5.  A quote with a price but no usable percent change ([dp] missing,
    or no number): with a market capitalisation of 200000 or more [abs]
    raises a [TypeError], which the handler prints, and the result is
    [None] once the text is written; below 200000 the rule stops at the
    capitalisation, and the record is returned with the change as it was
    read and the flag false. *)
Theorem fetch_finnhub_metrics_without_change
        (ticker : PyVal) (s s1 s2 : State)
        (quote profile : list (string * PyVal)) (mc : number) :
  http_get_json ("https://finnhub.io/api/v1/quote?symbol="
                 ++ fstr ticker ++ "&token=" ++ FINNHUB_KEY) s
  = (Ok (PDict quote), s1) ->
  http_get_json ("https://finnhub.io/api/v1/stock/profile2?symbol="
                 ++ fstr ticker ++ "&token=" ++ FINNHUB_KEY) s1
  = (Ok (PDict profile), s2) ->
  truthy (item "c" quote) = true ->
  item "marketCapitalization" profile = PNum mc ->
  is_zero (num_val mc) = false ->
  as_number (item "dp" quote) = None ->
  fetch_finnhub_metrics ticker s
  = (if Qle_bool 200000 (num_val mc)
     then rbind (py_print
                   ("Error fetching Finnhub data for " ++ fstr ticker
                    ++ ": bad operand type for abs(): '"
                    ++ type_name (item "dp" quote) ++ "'"))
                (fun _ => Ok None)
     else Ok (Some (mkFinnhubData
                      ticker
                      (match assoc "name" profile with
                       | Some n => n
                       | None => ticker
                       end)
                      (PNum mc) (item "dp" quote) false)),
     s2).
Proof.
  intros Hq Hp Hc Hcap Hnz Hdp.
  rewrite fetch_finnhub_metrics_run. unfold fetch_steps, bind, lift, ret.
  rewrite Hq, Hp. cbn [py_get py_get_default].
  fold (item "c" quote) (item "marketCapitalization" profile)
       (item "dp" quote).
  rewrite Hc, Hcap. cbn [negb truthy]. rewrite Hnz. cbn [negb].
  unfold isMegaCapMover, py_ge_int, py_abs. cbn [as_number rbind].
  change (inject_Z 200000) with 200000%Q.
  destruct (Qle_bool 200000 (num_val mc)); [|reflexivity].
  rewrite Hdp. reflexivity.
Qed.

(** A returned record was built by the steps. *)
Lemma fetch_finnhub_metrics_Some
      (t : PyVal) (s s' : State) (d : FinnhubData) :
  fetch_finnhub_metrics t s = (Ok (Some d), s') ->
  fetch_steps t s = (Ok (Some d), s').
Proof.
  rewrite fetch_finnhub_metrics_run.
  destruct (fetch_steps t s) as [[data | e0] s1]; [trivial|].
  unfold printed_then_None. destruct (py_print _); discriminate.
Qed.

(** A flagged record holds two numbers that pass the rule. *)
Lemma fetch_finnhub_metrics_flagged
      (t : PyVal) (s s' : State) (d : FinnhubData) :
  fetch_finnhub_metrics t s = (Ok (Some d), s') ->
  isMegaCapMover_flag d = true ->
  exists mc pc : number,
    marketCap d = PNum mc /\ priceChange d = PNum pc
    /\ (200000 <= num_val mc)%Q /\ (2 <= Qabs (num_val pc))%Q.
Proof.
  intros F. apply fetch_finnhub_metrics_Some in F. revert F.
  unfold fetch_steps, bind, lift, ret.
  repeat step; intros E; inversion E; subst; clear E.
  cbn [marketCap priceChange isMegaCapMover_flag].
  intros ->. apply isMegaCapMover_true. assumption.
Qed.

(** X6.  A record that [fetch_finnhub_metrics] returns carries the ticker
    it was asked for and a market capitalisation that is true; when its
    flag is set, capitalisation and change are numbers, the first at least
    200000 and the second at least 2 in absolute value. *)
Theorem fetch_finnhub_metrics_flag_sound
        (t : PyVal) (s s' : State) (d : FinnhubData) :
  fetch_finnhub_metrics t s = (Ok (Some d), s') ->
  ticker d = t
  /\ truthy (marketCap d) = true
  /\ (isMegaCapMover_flag d = true ->
      exists mc pc : number,
        marketCap d = PNum mc /\ priceChange d = PNum pc
        /\ (200000 <= num_val mc)%Q /\ (2 <= Qabs (num_val pc))%Q).
Proof.
  intros F. split; [|split].
  - exact (fetch_finnhub_metrics_ticker _ _ _ _ F).
  - apply fetch_finnhub_metrics_Some in F. revert F.
    unfold fetch_steps, bind, lift, ret.
    repeat step; intros E; inversion E; subst; clear E.
    cbn [marketCap]. apply negb_false_iff. assumption.
  - exact (fetch_finnhub_metrics_flagged _ _ _ _ F).
Qed.

(** The requests of one fetch: the quote, then the profile unless the
    quote lookup raised. *)
Lemma fetch_finnhub_metrics_calls (ticker : PyVal) (s : State) :
  let quote_url := "https://finnhub.io/api/v1/quote?symbol="
                     ++ fstr ticker ++ "&token=" ++ FINNHUB_KEY in
  let profile_url := "https://finnhub.io/api/v1/stock/profile2?symbol="
                       ++ fstr ticker ++ "&token=" ++ FINNHUB_KEY in
  trace (snd (fetch_finnhub_metrics ticker s))
  = (trace s ++ [EvHttpGet quote_url])%list
  \/ trace (snd (fetch_finnhub_metrics ticker s))
     = (trace s ++ [EvHttpGet quote_url; EvHttpGet profile_url])%list.
Proof.
  intros quote_url profile_url.
  assert (snd (fetch_finnhub_metrics ticker s) = snd (fetch_steps ticker s))
    as ->.
  { rewrite fetch_finnhub_metrics_run.
    destruct (fetch_steps ticker s) as [[data | e] s1]; reflexivity. }
  unfold fetch_steps, bind, lift, ret.
  fold quote_url profile_url.
  rewrite (http_get_json_run quote_url s).
  destruct (fst (requests_get_json quote_url (world s))) as [quote | e];
    [|left; reflexivity].
  rewrite http_get_json_run. cbn [world trace]. rewrite <- app_assoc.
  right. repeat step; reflexivity.
Qed.

Lemma verify_loop_calls (tickers : list PyVal) :
  forall (acc : list FinnhubData) (s : State),
  exists evs,
    trace (snd (verify_loop tickers acc s)) = (trace s ++ evs)%list
    /\ Forall is_http_get evs
    /\ (List.length evs <= 2 * List.length tickers)%nat
    /\ (forall found, fst (verify_loop tickers acc s) = Ok found ->
                      (List.length tickers <= List.length evs)%nat).
Proof.
  induction tickers as [|t ts IH]; intros acc s.
  - exists []. cbn. rewrite app_nil_r. auto.
  - cbn [verify_loop]. unfold bind at 1 2.
    pose proof (fetch_finnhub_metrics_calls t s) as C. cbv zeta in C.
    destruct (fetch_finnhub_metrics t s) as [[data | e] s1].
    + cbn [snd] in C.
      assert (exists acc', (match data with
                            | Some d => verify_loop ts (acc ++ [d])
                            | None => verify_loop ts acc
                            end) = verify_loop ts acc') as [acc' ->]
        by (destruct data; eexists; reflexivity).
      destruct (IH acc' s1) as (evs & T & Fa & L & L').
      destruct C as [C | C]; rewrite C in T; rewrite <- app_assoc in T;
        eexists; (split; [exact T|]); cbn [app length];
        (split; [repeat constructor; try (eexists; reflexivity); assumption
                |]);
        (split; [cbn; lia
                | intros found E; specialize (L' found E);
                  cbn [List.length]; lia]).
    + cbn [snd fst] in *.
      destruct C as [C | C]; eexists; (split; [exact C|]);
        (split; [repeat constructor; eexists; reflexivity|]);
        (split; [cbn; lia | discriminate]).
Qed.

(** An exception leaves the loop only from the [print] about one of its
    tickers. *)
Lemma verify_loop_raises (tickers : list PyVal) :
  forall (acc : list FinnhubData) (s s' : State) (e : exn),
    verify_loop tickers acc s = (Raise e, s') ->
    exists t e0,
      In t tickers /\ py_print (fetch_error_text t e0) = Raise e.
Proof.
  induction tickers as [|t ts IH]; intros acc s s' e; [discriminate|].
  cbn [verify_loop]. unfold bind at 1.
  destruct (fetch_finnhub_metrics t s) as [[[d|] | e1] s1] eqn:F.
  - intros E. destruct (IH _ _ _ _ E) as (t' & e0 & I & P).
    exists t', e0. split; [right; exact I | exact P].
  - intros E. destruct (IH _ _ _ _ E) as (t' & e0 & I & P).
    exists t', e0. split; [right; exact I | exact P].
  - intros [= <- <-].
    destruct (fetch_finnhub_metrics_raises _ _ _ _ F) as (e0 & _ & P).
    exists t, e0. split; [left; reflexivity | exact P].
Qed.

(** X8.  The verification step calls nothing but the market-data service:
    whatever the answers, it adds only HTTP requests to the trace, at most
    two for each ticker, and at least one for each ticker when it
    returns.  It returns unless the [print] of the handler raised for one
    of the tickers; that exception is then the one that leaves the
    step. *)
Theorem verification_calls (tickers : list PyVal) (s : State) :
  exists evs,
    trace (snd (verification tickers s)) = (trace s ++ evs)%list
    /\ Forall is_http_get evs
    /\ (List.length evs <= 2 * List.length tickers)%nat
    /\ (forall movers,
           fst (verification tickers s) = Ok movers ->
           (List.length tickers <= List.length evs)%nat)
    /\ (forall e,
           fst (verification tickers s) = Raise e ->
           exists t e0,
             In t tickers /\ py_print (fetch_error_text t e0) = Raise e).
Proof.
  destruct (verify_loop_calls tickers [] s) as (evs & T & Fa & L & L').
  pose proof (verify_loop_raises tickers [] s) as R.
  exists evs. unfold verification, bind, ret.
  destruct (verify_loop tickers [] s) as [[found | e] s1];
    cbn [fst snd] in *.
  - split; [exact T|]. split; [exact Fa|]. split; [exact L|].
    split; [intros _ _; exact (L' found eq_refl) | discriminate].
  - split; [exact T|]. split; [exact Fa|]. split; [exact L|].
    split; [discriminate|]. intros e' [= <-]. exact (R s1 e eq_refl).
Qed.

(** X18.  When the verification step returns, it returns the data of
    exactly those tickers whose fetch returned some data flagged as a
    mega-cap mover, each ticker fetched once in its turn: the tickers of
    the result are a subsequence of the input, in its order, repetitions
    kept; and the result of a list cut in two is the result of the first
    part followed by the result of the second part run from where the
    first ended. *)
Theorem verification_returns_movers_in_order
        (tickers : list PyVal) (s s' : State) (movers : list FinnhubData) :
  verification tickers s = (Ok movers, s') ->
  kept_in_order tickers s movers s'
  /\ subsequence (map ticker movers) tickers
  /\ Forall (fun m => isMegaCapMover_flag m = true) movers
  /\ (forall before after,
         tickers = (before ++ after)%list ->
         exists m1 s1 m2,
           verification before s = (Ok m1, s1)
           /\ verification after s1 = (Ok m2, s')
           /\ movers = (m1 ++ m2)%list).
Proof.
  intros E. pose proof (verification_kept _ _ _ _ E) as K.
  split; [exact K|].
  destruct (kept_in_order_subsequence _ _ _ _ K) as [Sub Fl].
  split; [exact Sub|]. split; [exact Fl|].
  intros before after ->. rewrite verification_app in E.
  destruct (verification before s) as [[m1 | e1] s1]; [|discriminate].
  destruct (verification after s1) as [[m2 | e2] s2] eqn:E2;
    [|discriminate].
  injection E as <- <-. exists m1, s1, m2.
  split; [reflexivity|]. split; [exact E2 | reflexivity].
Qed.

Lemma kept_in_order_flagged tickers s movers s' :
  kept_in_order tickers s movers s' ->
  Forall (fun m => exists mc pc : number,
              marketCap m = PNum mc /\ priceChange m = PNum pc
              /\ (200000 <= num_val mc)%Q /\ (2 <= Qabs (num_val pc))%Q)
         movers.
Proof.
  induction 1 as [s | t ts s d s1 ms s2 F Fl K IH
                  | t ts s d s1 ms s2 F Fl K IH
                  | t ts s s1 ms s2 F K IH]; try assumption.
  - constructor.
  - constructor; [|exact IH].
    exact (fetch_finnhub_metrics_flagged _ _ _ _ F Fl).
Qed.

(** The entry of a mover whose change is a number. *)
Lemma mover_entry_number (m : FinnhubData) (pc : number) :
  priceChange m = PNum pc ->
  mover_entry m
  = rbind (format_2f_num pc) (fun change =>
      Ok (fstr (name m) ++ " ("
            ++ (if Qle_bool (num_val pc) 0 then "" else "+")
            ++ change ++ "%)")).
Proof.
  intros Hp. unfold mover_entry, py_gt_int, format_2f.
  rewrite Hp. cbn [as_number rbind].
  change (inject_Z 0) with 0%Q.
  destruct (format_2f_num pc); cbn [rbind]; [|reflexivity].
  destruct (Qle_bool (num_val pc) 0); reflexivity.
Qed.

(** The entries of flagged movers, when formatting them returns. *)
Lemma flagged_movers_entries (movers : list FinnhubData) :
  Forall (fun m => exists mc pc : number,
              marketCap m = PNum mc /\ priceChange m = PNum pc
              /\ (200000 <= num_val mc)%Q /\ (2 <= Qabs (num_val pc))%Q)
         movers ->
  forall entries,
    mover_entries movers = Ok entries -> Forall2 entry_of movers entries.
Proof.
  intros Fl.
  induction Fl as [|m ms (mc & pc & Hc & Hp & _ & Ha) _ IH]; intros entries.
  - intros [= <-]. constructor.
  - cbn [mover_entries]. rewrite (mover_entry_number m pc Hp).
    destruct (format_2f_num pc) as [change | e] eqn:Fm; [|discriminate].
    cbn [rbind].
    destruct (mover_entries ms) as [es | e]; [|discriminate].
    intros [= <-]. constructor; [|exact (IH es eq_refl)].
    exists pc, change. auto.
Qed.



End MoreOnTheVerifier.

(** ** More on the orchestrator *)

Section MoreOnTheOrchestrator.
Context `{Services}.

Lemma appends_of_run {A : Type} (P : Event -> Prop) (c : M A) :
  (forall s, exists evs,
        trace (snd (c s)) = (trace s ++ evs)%list /\ Forall P evs) ->
  appends P c.
Proof.
  intros Hc s r s' E. specialize (Hc s). rewrite E in Hc. exact Hc.
Qed.

Lemma verify_loop_appends (tickers : list PyVal)
      (acc : list FinnhubData) :
  appends is_brief_call (verify_loop tickers acc).
Proof.
  apply appends_of_run. intros s.
  destruct (verify_loop_calls tickers acc s) as (evs & T & Fa & _).
  exists evs. split; [exact T|].
  eapply Forall_impl; [|exact Fa]. intros ev [url ->]. exact I.
Qed.

Lemma brief_steps_appends : appends is_brief_call brief_steps.
Proof.
  unfold brief_steps, get_previous_trading_day_str, get_formatted_date,
    default_now, generate_content.
  appends_steps;
    try (apply appends_call; exact I);
    try (apply appends_now; exact I);
    try apply verify_loop_appends.
Qed.

(** X9.  Whatever happens, [generate_market_brief] calls only the clock,
    the generative service and the market-data service: it never touches
    the object store. *)
Theorem generate_market_brief_never_stores (s : State) :
  exists evs,
    trace (snd (generate_market_brief s)) = (trace s ++ evs)%list
    /\ Forall is_brief_call evs
    /\ Forall (fun ev => ~ is_storage_call ev) evs.
Proof.
  assert (appends is_brief_call generate_market_brief) as A.
  { unfold generate_market_brief.
    apply appends_try_except; [exact brief_steps_appends|].
    intros e. appends_steps. apply appends_now. exact I. }
  destruct (generate_market_brief s) as [r s'] eqn:E.
  destruct (A _ _ _ E) as (evs & T & F).
  exists evs. split; [exact T|]. split; [exact F|].
  eapply Forall_impl; [|exact F]. intros [] B S; cbn in *; contradiction.
Qed.

Lemma bind_run_Ok {A B : Type} (c : M A) (k : A -> M B)
      (s s1 : State) (a : A) :
  c s = (Ok a, s1) -> bind c k s = k a s1.
Proof. intros E. unfold bind. rewrite E. reflexivity. Qed.

Lemma bind_run_Raise {A B : Type} (c : M A) (k : A -> M B)
      (s s1 : State) (e : exn) :
  c s = (Raise e, s1) -> bind c k s = (Raise e, s1).
Proof. intros E. unfold bind. rewrite E. reflexivity. Qed.

Lemma now_run (s : State) :
  now s = (Ok (fst (datetime_now (world s))),
           mkState (snd (datetime_now (world s))) (trace s ++ [EvNow])).
Proof. unfold now, call. destruct (datetime_now (world s)); reflexivity. Qed.

(** The steps up to the answer of the discovery call, when all of them
    succeed. *)
Lemma brief_steps_discovery
      (s : State) (key : string) (w1 w2 w3 w4 w5 : World)
      (t1 t2 : datetime) (prev : datetime) (resp : GenResponse)
      (rest : string -> string -> GenResponse -> M PyVal) :
  environ_get "GOOGLE_API_KEY" (world s) = Some key ->
  key <> "" ->
  genai_configure key (world s) = (Ok tt, w1) ->
  genai_GenerativeModel MODEL_NAME w1 = (Ok tt, w2) ->
  datetime_now w2 = (t1, w3) ->
  previous_trading_day t1 = Ok prev ->
  datetime_now w3 = (t2, w4) ->
  model_generate_content
    (discovery_prompt (strftime "%A, %B %d, %Y" prev)) None w4
  = (Ok resp, w5) ->
  (api_key <- getenv "GOOGLE_API_KEY" ;;
   key <- match api_key with
          | Some k =>
              if String.eqb k ""
              then raise (ValueError
                            "GOOGLE_API_KEY environment variable not set")
              else ret k
          | None =>
              raise (ValueError
                       "GOOGLE_API_KEY environment variable not set")
          end ;;
   call (EvConfigure key) (genai_configure key) ;;;
   call (EvModel MODEL_NAME) (genai_GenerativeModel MODEL_NAME) ;;;
   target_date <- get_previous_trading_day_str None ;;
   display_date <- get_formatted_date None ;;
   discovery_resp <- generate_content (discovery_prompt target_date) None ;;
   rest target_date display_date discovery_resp) s
  = rest (strftime "%A, %B %d, %Y" prev) (strftime "%A, %B %d, %Y" t2) resp
      (mkState w5
         (trace s
            ++ [EvConfigure key; EvModel MODEL_NAME; EvNow; EvNow;
                EvGenerate
                  (discovery_prompt (strftime "%A, %B %d, %Y" prev))
                  None])%list).
Proof.
  intros Hkey Hne Hconf Hmodel Hn1 Hprev Hn2 Hgen.
  apply String.eqb_neq in Hne.
  rewrite (bind_run_Ok _ _ s s (Some key))
    by (unfold getenv; rewrite Hkey; reflexivity).
  rewrite Hne.
  rewrite (bind_run_Ok _ _ s s key) by reflexivity.
  rewrite (bind_run_Ok _ _ _ _ tt (call_run _ _ _ _ _ Hconf)).
  rewrite (bind_run_Ok _ _ _ (mkState w2 ((trace s ++ [EvConfigure key])
                                            ++ [EvModel MODEL_NAME])) tt)
    by (apply call_run; exact Hmodel).
  rewrite (bind_run_Ok _ _ _
             (mkState w3 (((trace s ++ [EvConfigure key])
                             ++ [EvModel MODEL_NAME]) ++ [EvNow]))
             (strftime "%A, %B %d, %Y" prev)).
  2:{ unfold get_previous_trading_day_str, default_now.
      rewrite (bind_run_Ok _ _ _ _ t1)
        by (rewrite now_run; cbn [world trace]; rewrite Hn1; reflexivity).
      unfold bind, lift, ret. rewrite Hprev. reflexivity. }
  rewrite (bind_run_Ok _ _ _
             (mkState w4 ((((trace s ++ [EvConfigure key])
                              ++ [EvModel MODEL_NAME]) ++ [EvNow])
                            ++ [EvNow]))
             (strftime "%A, %B %d, %Y" t2)).
  2:{ unfold get_formatted_date, default_now.
      rewrite (bind_run_Ok _ _ _ _ t2)
        by (rewrite now_run; cbn [world trace]; rewrite Hn2; reflexivity).
      reflexivity. }
  rewrite (bind_run_Ok _ _ _ _ resp)
    by (unfold generate_content; apply call_run; exact Hgen).
  cbn [world trace]. rewrite <- !app_assoc. reflexivity.
Qed.

(** X10.  When the steps up to the discovery call succeed and its answer
    cannot be used, the brief is an error and nothing more is called but
    the clock, for the timestamp: no ticker is fetched, no report is asked
    for.  An answer without text, or whose cleaned text does not decode,
    gives the message ["Could not parse ticker candidates: "] followed by
    the exception's; a decoded value that cannot be iterated gives the
    message of its [TypeError]. *)
Theorem generate_market_brief_rejects_discovery
        (s : State) (key : string) (w1 w2 w3 w4 w5 : World)
        (t1 t2 : datetime) (prev : datetime) (resp : GenResponse) :
  environ_get "GOOGLE_API_KEY" (world s) = Some key ->
  key <> "" ->
  genai_configure key (world s) = (Ok tt, w1) ->
  genai_GenerativeModel MODEL_NAME w1 = (Ok tt, w2) ->
  datetime_now w2 = (t1, w3) ->
  previous_trading_day t1 = Ok prev ->
  datetime_now w3 = (t2, w4) ->
  model_generate_content
    (discovery_prompt (strftime "%A, %B %d, %Y" prev)) None w4
  = (Ok resp, w5) ->
  let decoded :=
    rbind (response_text resp) (fun text => json_loads (cleaned text)) in
  let failed (message : string) :=
    generate_market_brief s
    = (Ok (PDict [("status", PStr "error");
                  ("error", PStr message);
                  ("timestamp",
                   PStr (strftime "%Y-%m-%d %H:%M:%S"
                                  (fst (datetime_now w5))))]),
       mkState (snd (datetime_now w5))
         (trace s
            ++ [EvConfigure key; EvModel MODEL_NAME; EvNow; EvNow;
                EvGenerate
                  (discovery_prompt (strftime "%A, %B %d, %Y" prev)) None;
                EvNow])%list) in
  (forall e,
      decoded = Raise e ->
      failed ("Could not parse ticker candidates: " ++ exn_str e))
  /\ (forall v e,
         decoded = Ok v -> py_iter v = Raise e -> failed (exn_str e)).
Proof.
  intros Hkey Hne Hconf Hmodel Hn1 Hprev Hn2 Hgen decoded failed.
  assert (forall e,
             brief_steps s
             = (Raise e,
                mkState w5
                  (trace s
                     ++ [EvConfigure key; EvModel MODEL_NAME; EvNow; EvNow;
                         EvGenerate
                           (discovery_prompt
                              (strftime "%A, %B %d, %Y" prev)) None])%list)
             -> failed (exn_str e)) as Handler.
  { intros e E. unfold failed, generate_market_brief, try_except.
    rewrite E. unfold bind, ret. rewrite now_run. cbn [world trace].
    rewrite <- app_assoc. reflexivity. }
  split.
  - intros e D.
    apply (Handler (ValueError ("Could not parse ticker candidates: "
                                ++ exn_str e))).
    unfold brief_steps.
    erewrite brief_steps_discovery by eassumption.
    apply bind_run_Raise. unfold try_except, bind, lift, raise.
    unfold decoded, cleaned in D.
    destruct (response_text resp) as [text | e0]; cbn [rbind] in D.
    + rewrite D. reflexivity.
    + injection D as ->. reflexivity.
  - intros v e D I. apply (Handler e).
    unfold brief_steps.
    erewrite brief_steps_discovery by eassumption.
    erewrite (bind_run_Ok _ _ _ _ v).
    2:{ unfold try_except, bind, lift. unfold decoded, cleaned in D.
        destruct (response_text resp) as [text | e0]; cbn [rbind] in D;
          [rewrite D; reflexivity | discriminate D]. }
    apply bind_run_Raise. unfold lift. rewrite I. reflexivity.
Qed.

End MoreOnTheOrchestrator.

Section TheStepsInOrder.
Context `{Services}.

Lemma call_trace {A : Type} (ev : Event) (f : World -> result A * World)
      (s s' : State) (r : result A) :
  call ev f s = (r, s') -> trace s' = (trace s ++ [ev])%list.
Proof.
  unfold call. destruct (f (world s)). intros [= _ <-]. reflexivity.
Qed.

Lemma now_trace (s s' : State) (r : result datetime) :
  now s = (r, s') -> trace s' = (trace s ++ [EvNow])%list.
Proof. unfold now. apply call_trace. Qed.

Lemma lift_Ok {A : Type} (x : result A) (s s' : State) (a : A) :
  lift x s = (Ok a, s') -> x = Ok a /\ s' = s.
Proof. unfold lift. intros [= -> <-]. auto. Qed.

Lemma ret_Ok {A : Type} (x a : A) (s s' : State) :
  ret x s = (Ok a, s') -> a = x /\ s' = s.
Proof. unfold ret. intros [= -> <-]. auto. Qed.

Lemma generate_market_brief_success (s s' : State)
      (items : list (string * PyVal)) :
  generate_market_brief s = (Ok (PDict items), s') ->
  item "status" items = PStr "success" ->
  brief_steps s = (Ok (PDict items), s').
Proof.
  unfold generate_market_brief, try_except.
  destruct (brief_steps s) as [[r | e] s1]; [intros [= -> ->]; reflexivity|].
  unfold bind, ret. destruct (now s1) as [[t | e'] s2];
    intros [= <- _]; discriminate.
Qed.

(** X11.  A successful brief was made by the three steps in their order:
    after the client is configured and the clock read twice, one discovery
    call; then requests to the market-data service only; then one
    synthesis call, at temperature 0.05, and the clock for the timestamp.
    The two dates of the result are the dates of the two prompts. *)
Theorem generate_market_brief_steps_in_order
        (s s' : State) (items : list (string * PyVal)) :
  generate_market_brief s = (Ok (PDict items), s') ->
  item "status" items = PStr "success" ->
  exists key target_date display_date requests mandatory_context,
    trace s'
    = (trace s
         ++ [EvConfigure key; EvModel MODEL_NAME; EvNow; EvNow;
             EvGenerate (discovery_prompt target_date) None]
         ++ requests
         ++ [EvGenerate
               (synthesis_prompt display_date target_date mandatory_context)
               (Some (5 # 100));
             EvNow])%list
    /\ Forall is_http_get requests
    /\ item "targetDate" items = PStr target_date
    /\ item "displayDate" items = PStr display_date.
Proof.
  intros E Hs. apply generate_market_brief_success in E; [|exact Hs].
  clear Hs. unfold brief_steps in E.
  apply bind_Ok_inv in E. destruct E as (api_key & s1 & E1 & E).
  injection E1 as _ <-.
  apply bind_Ok_inv in E. destruct E as (key & s2 & E2 & E).
  assert (s2 = s) as ->.
  { destruct api_key as [k|]; [destruct (String.eqb k "")|];
      try discriminate E2. now injection E2 as _ <-. }
  clear E2.
  apply bind_Ok_inv in E. destruct E as (u1 & s3 & E3 & E).
  apply call_trace in E3.
  apply bind_Ok_inv in E. destruct E as (u2 & s4 & E4 & E).
  apply call_trace in E4.
  apply bind_Ok_inv in E. destruct E as (target_date & s5 & E5 & E).
  assert (trace s5 = (trace s4 ++ [EvNow])%list) as T5.
  { unfold get_previous_trading_day_str, default_now in E5.
    apply bind_Ok_inv in E5. destruct E5 as (t1 & s41 & N1 & E5).
    apply now_trace in N1.
    apply bind_Ok_inv in E5. destruct E5 as (prev & s42 & L & E5).
    apply lift_Ok in L. destruct L as [_ ->].
    apply ret_Ok in E5. destruct E5 as [_ ->]. exact N1. }
  clear E5.
  apply bind_Ok_inv in E. destruct E as (display_date & s6 & E6 & E).
  assert (trace s6 = (trace s5 ++ [EvNow])%list) as T6.
  { unfold get_formatted_date, default_now in E6.
    apply bind_Ok_inv in E6. destruct E6 as (t2 & s51 & N2 & E6).
    apply now_trace in N2.
    apply ret_Ok in E6. destruct E6 as [_ ->]. exact N2. }
  clear E6.
  apply bind_Ok_inv in E. destruct E as (discovery_resp & s7 & E7 & E).
  apply call_trace in E7.
  apply bind_Ok_inv in E. destruct E as (tickers & s8 & E8 & E).
  assert (s8 = s7) as ->.
  { unfold try_except, bind, lift, raise in E8.
    destruct (response_text discovery_resp); [|discriminate E8].
    destruct (json_loads _); [|discriminate E8]. now injection E8 as _ <-. }
  clear E8.
  apply bind_Ok_inv in E. destruct E as (its & s9 & E9 & E).
  apply lift_Ok in E9. destruct E9 as [_ ->].
  apply bind_Ok_inv in E. destruct E as (movers & s10 & E10 & E).
  pose proof (verify_loop_calls its [] s7) as (requests & T10 & F10 & _).
  assert (trace s10 = (trace s7 ++ requests)%list) as T10'.
  { unfold verification, bind, ret in E10.
    destruct (verify_loop its [] s7) as [[found | e] sv];
      [|discriminate E10]. injection E10 as _ <-. exact T10. }
  clear E10 T10.
  apply bind_Ok_inv in E. destruct E as (context & s11 & E11 & E).
  assert (s11 = s10) as ->.
  { destruct movers.
    - apply ret_Ok in E11. tauto.
    - apply bind_Ok_inv in E11. destruct E11 as (es & sx & L & R).
      apply lift_Ok in L. destruct L as [_ ->].
      apply ret_Ok in R. tauto. }
  clear E11. cbv zeta in E.
  apply bind_Ok_inv in E. destruct E as (response & s12 & E12 & E).
  apply call_trace in E12.
  apply bind_Ok_inv in E. destruct E as (content & s13 & E13 & E).
  apply lift_Ok in E13. destruct E13 as [_ ->].
  apply bind_Ok_inv in E. destruct E as (t & s14 & E14 & E).
  apply now_trace in E14.
  apply ret_Ok in E. destruct E as [[= ->] ->].
  exists key, target_date, display_date, requests, context.
  split; [|split; [exact F10 | split; reflexivity]].
  rewrite E14, E12, T10', E7, T6, T5, E4, E3.
  rewrite <- !app_assoc. reflexivity.
Qed.

End TheStepsInOrder.

(** The model answers in prose: the brief is the parse error, after six
    calls, none of them to the market-data service. *)
Lemma generate_market_brief_rejects_discovery_witness :
  @generate_market_brief (Stub.services unparsable) (Stub.start unparsable)
  = (Ok (PDict [("status", PStr "error");
                ("error",
                 PStr ("Could not parse ticker candidates: "
                       ++ "Expecting value: line 1 column 1 (char 0)"));
                ("timestamp", PStr "2025-01-07 09:30:05")]),
     @mkState (Stub.services unparsable) 6%nat
       [EvConfigure "secret"; EvModel MODEL_NAME; EvNow; EvNow;
        EvGenerate (discovery_prompt "Monday, January 06, 2025") None;
        EvNow]).
Proof.
  destruct (@generate_market_brief_rejects_discovery
              (Stub.services unparsable) (Stub.start unparsable)
              "secret" 1%nat 2%nat 3%nat 4%nat 5%nat
              (Stub.clock_2025_01_07 2) (Stub.clock_2025_01_07 3)
              (mkDatetime 2025 1 6 9 30 2 0)
              (mkResponse (Ok "I cannot help with that.") []))
    as [Unparsed _].
  - reflexivity.
  - discriminate.
  - reflexivity.
  - reflexivity.
  - reflexivity.
  - reflexivity.
  - reflexivity.
  - reflexivity.
  - exact (Unparsed Stub.JSONDecodeError eq_refl).
Defined.

(** ** More on the publisher and the entry point *)

Section MoreOnThePublisher.
Context `{Services}.


(** The two shapes of a brief. *)
Lemma generate_market_brief_shape (s : State) :
  exists items s',
    generate_market_brief s = (Ok (PDict items), s')
    /\ ((exists content sources timestamp display_date target_date,
            items = [("status", PStr "success");
                     ("content", PStr content);
                     ("sources", sources);
                     ("timestamp", PStr timestamp);
                     ("displayDate", PStr display_date);
                     ("targetDate", PStr target_date)])
        \/ (exists message timestamp,
               items = [("status", PStr "error");
                        ("error", PStr message);
                        ("timestamp", PStr timestamp)])).
Proof.
  unfold generate_market_brief, try_except.
  destruct (brief_steps s) as [[r | e] s1] eqn:E.
  - destruct (brief_steps_success _ _ _ E) as (c & so & t & dd & td & ->).
    eexists _, _. split; [reflexivity|]. left.
    eexists _, _, _, _, _. reflexivity.
  - unfold bind, ret. rewrite now_run.
    eexists _, _. split; [reflexivity|]. right.
    eexists _, _. reflexivity.
Qed.

(** The two shapes of what the publisher returns. *)
Lemma save_to_cloud_storage_shape (brief_data : PyVal) (s : State) :
  exists r s',
    save_to_cloud_storage brief_data s = (Ok (PDict r), s')
    /\ (assoc "success" r = Some (PBool true)
        \/ assoc "success" r = Some (PBool false)).
Proof.
  unfold save_to_cloud_storage, try_except.
  destruct (save_steps brief_data s) as [[r | e] s1] eqn:E.
  - unfold save_steps in E.
    repeat (apply bind_Ok_inv in E; destruct E as (? & ? & _ & E);
            cbv beta zeta in E).
    unfold ret in E. injection E as <- _.
    eexists _, _. split; [reflexivity|]. left. reflexivity.
  - eexists _, _. split; [reflexivity|]. right. reflexivity.
Qed.

(** X13.  The entry point never raises, and its response always has the
    same seven fields, the status and the timestamp being those of the
    brief.  After a successful brief: code 200, the fixed message, the
    dates and sources of the brief, and as storage the result of
    publishing that brief.  After a failed brief: code 500, nothing
    published, the error text of the brief as message (the fixed message
    when that text is empty), no dates, no sources and an empty
    storage. *)
Theorem generate_market_brief_http_response
        {Request : Type} (request : Request) (s : State) :
  exists brief s1 body code s',
    generate_market_brief s = (Ok (PDict brief), s1)
    /\ generate_market_brief_http request s = (Ok (PDict body, code), s')
    /\ map fst body
       = ["status"; "message"; "timestamp"; "displayDate"; "targetDate";
          "sources"; "storage"]
    /\ item "status" body = item "status" brief
    /\ item "timestamp" body = item "timestamp" brief
    /\ ((code = 200
         /\ item "status" brief = PStr "success"
         /\ item "message" body = PStr "Market brief generated successfully"
         /\ item "displayDate" body = item "displayDate" brief
         /\ item "targetDate" body = item "targetDate" brief
         /\ item "sources" body = item "sources" brief
         /\ exists timestamp display_date target_date storage,
             item "timestamp" brief = PStr timestamp
             /\ item "displayDate" brief = PStr display_date
             /\ item "targetDate" brief = PStr target_date
             /\ save_to_cloud_storage (PDict brief) s1
                = (Ok (PDict storage), s')
             /\ item "storage" body = PDict storage
             /\ (assoc "success" storage = Some (PBool true)
                 \/ assoc "success" storage = Some (PBool false)))
        \/ (code = 500
            /\ s' = s1
            /\ item "status" brief = PStr "error"
            /\ item "displayDate" body = PNone
            /\ item "targetDate" body = PNone
            /\ item "sources" body = PList []
            /\ item "storage" body = PDict []
            /\ exists message,
                item "error" brief = PStr message
                /\ item "message" body
                   = PStr (if String.eqb message ""
                           then "Market brief generated successfully"
                           else message))).
Proof.
  destruct (generate_market_brief_shape s)
    as (items & s1 & E & [(c & so & t & dd & td & ->)
                         | (msg & t & ->)]).
  - destruct (save_to_cloud_storage_shape
                (PDict [("status", PStr "success"); ("content", PStr c);
                        ("sources", so); ("timestamp", PStr t);
                        ("displayDate", PStr dd); ("targetDate", PStr td)])
                s1) as (r & s2 & Hp & Hr).
    eexists _, s1, _, _, _. split; [exact E|].
    unfold generate_market_brief_http, bind, lift, ret.
    rewrite E. cbn [py_get py_get_default assoc String.eqb Ascii.eqb
                    Bool.eqb py_eq_str].
    rewrite Hp.
    cbn [py_setitem assoc_set py_get py_get_default assoc String.eqb
         Ascii.eqb Bool.eqb py_eq_str py_or truthy].
    split; [reflexivity|]. split; [reflexivity|].
    split; [reflexivity|]. split; [reflexivity|].
    left. repeat (split; [reflexivity|]). exists t, dd, td, r.
    repeat (split; [reflexivity|]). exact Hr.
  - eexists _, s1, _, _, _. split; [exact E|].
    unfold generate_market_brief_http, bind, lift, ret.
    rewrite E. cbn [py_get py_get_default assoc String.eqb Ascii.eqb
                    Bool.eqb py_eq_str].
    split; [reflexivity|]. split; [reflexivity|].
    split; [reflexivity|]. split; [reflexivity|].
    right. repeat (split; [reflexivity|]).
    exists msg. split; [reflexivity|].
    unfold item. cbn [assoc String.eqb Ascii.eqb Bool.eqb].
    unfold py_or. cbn [truthy]. destruct (String.eqb msg ""); reflexivity.
Qed.

End MoreOnThePublisher.

(** ** The sources of a brief *)


Section SourcesOfABrief.
Context `{Services}.


End SourcesOfABrief.

(** ** The cleaning of the discovery answer *)

Lemma has_char_append (c : ascii) (a b : string) :
  has_char c (a ++ b) = has_char c a || has_char c b.
Proof.
  induction a as [|x a IH]; cbn; [reflexivity|].
  rewrite IH, orb_assoc. reflexivity.
Qed.

(** Text without the first character of [old] passes [replace]
    unchanged, up to where that character first comes. *)
Lemma replace_from_passes (c : ascii) (old' new a b : string) :
  has_char c a = false ->
  replace_from (String c old') new 0 (a ++ b)
  = a ++ replace_from (String c old') new 0 b.
Proof.
  induction a as [|x a IH]; cbn [has_char append]; intros Hno.
  - reflexivity.
  - apply orb_false_iff in Hno. destruct Hno as [Hx Ha].
    cbn [replace_from String.prefix].
    destruct (ascii_dec c x) as [-> | _].
    + rewrite Ascii.eqb_refl in Hx. discriminate.
    + rewrite (IH Ha). reflexivity.
Qed.

Lemma lstrip_space (c : ascii) (s : string) :
  is_space c = true -> lstrip (String c s) = lstrip s.
Proof. intros Hc. cbn [lstrip]. rewrite Hc. reflexivity. Qed.

Lemma rstrip_space (a : string) (c : ascii) :
  is_space c = true -> rstrip (a ++ String c "") = rstrip a.
Proof.
  intros Hc. induction a as [|x a IH]; cbn [append rstrip].
  - rewrite Hc. reflexivity.
  - rewrite IH. reflexivity.
Qed.

Lemma lstrip_append_space (a : string) (c : ascii) :
  is_space c = true ->
  lstrip (a ++ String c "") = lstrip a
  \/ lstrip (a ++ String c "") = lstrip a ++ String c "".
Proof.
  intros Hc. induction a as [|x a IH]; cbn [append lstrip].
  - rewrite Hc. left. reflexivity.
  - destruct (is_space x); [exact IH | right; reflexivity].
Qed.

Lemma strip_between_newlines (body : string) :
  strip (nl ++ body ++ nl) = strip body.
Proof.
  unfold strip, nl. cbn [append].
  rewrite lstrip_space by reflexivity.
  destruct (lstrip_append_space body (ascii_of_nat 10) eq_refl) as [-> | ->].
  - reflexivity.
  - apply rstrip_space. reflexivity.
Qed.

Lemma string_append_assoc (a b c : string) : (a ++ b) ++ c = a ++ b ++ c.
Proof. induction a as [|x a IH]; cbn; [reflexivity | now rewrite IH]. Qed.

Lemma replace_without (c : ascii) (old' new a : string) :
  has_char c a = false -> replace (String c old') new a = a.
Proof.
  intros Hno. unfold replace.
  rewrite <- (append_nil_r a) at 1.
  rewrite (replace_from_passes c old' new a "" Hno).
  cbn [replace_from]. apply append_nil_r.
Qed.

(** X15.  The cleaning removes the fences of a code block: an answer
    wrapped in [```json] and [```] lines, or in plain [```] lines, is
    decoded from the same text as the bare answer, its text stripped of
    the white space around it (for a text without backticks). *)
Theorem cleaned_removes_fences (body : string) :
  has_char backtick body = false ->
  cleaned ("```json" ++ nl ++ body ++ nl ++ "```") = strip body
  /\ cleaned ("```" ++ nl ++ body ++ nl ++ "```") = strip body
  /\ cleaned body = strip body.
Proof.
  intros Hno.
  assert (has_char backtick (nl ++ body ++ nl) = false) as Hin
    by (rewrite !has_char_append, Hno; reflexivity).
  assert (nl ++ body ++ nl ++ "```" = (nl ++ body ++ nl) ++ "```") as Shape
    by (rewrite !string_append_assoc; reflexivity).
  assert (replace "```json" "" (nl ++ body ++ nl ++ "```")
          = nl ++ body ++ nl ++ "```") as Json.
  { rewrite Shape. unfold replace.
    rewrite (replace_from_passes "`"%char "``json" "" _ "```" Hin).
    reflexivity. }
  assert (replace "```" "" (nl ++ body ++ nl ++ "```") = nl ++ body ++ nl)
    as Plain.
  { rewrite Shape. unfold replace.
    rewrite (replace_from_passes "`"%char "``" "" _ "```" Hin).
    cbn [replace_from String.prefix ascii_dec]. apply append_nil_r. }
  unfold cleaned. split; [|split].
  - change (replace "```json" "" ("```json" ++ nl ++ body ++ nl ++ "```"))
      with (replace "```json" "" (nl ++ body ++ nl ++ "```")).
    rewrite Json, Plain. apply strip_between_newlines.
  - change (replace "```json" "" ("```" ++ nl ++ body ++ nl ++ "```"))
      with ("```" ++ replace "```json" "" (nl ++ body ++ nl ++ "```")).
    rewrite Json.
    change (replace "```" "" ("```" ++ nl ++ body ++ nl ++ "```"))
      with (replace "```" "" (nl ++ body ++ nl ++ "```")).
    rewrite Plain. apply strip_between_newlines.
  - rewrite (replace_without "`"%char "``json" "" body Hno).
    rewrite (replace_without "`"%char "``" "" body Hno). reflexivity.
Qed.

(** ** What a successful brief was made of *)

Section WhatABriefWasMadeOf.
Context `{Services}.

(** The run behind a result of the steps, piece by piece. *)
Lemma brief_steps_run (s s' : State) (r : PyVal) :
  brief_steps s = (Ok r, s') ->
  exists (s4 s5 s6 s7 s10 s12 : State) (t1 prev t2 t : datetime)
         (discovery_resp response : GenResponse)
         (tickers : PyVal) (its : list PyVal) (movers : list FinnhubData)
         (context content : string),
    now s4 = (Ok t1, s5)
    /\ previous_trading_day t1 = Ok prev
    /\ now s5 = (Ok t2, s6)
    /\ generate_content
         (discovery_prompt (strftime "%A, %B %d, %Y" prev)) None s6
       = (Ok discovery_resp, s7)
    /\ rbind (response_text discovery_resp)
             (fun text => json_loads (cleaned text)) = Ok tickers
    /\ py_iter tickers = Ok its
    /\ verification its s7 = (Ok movers, s10)
    /\ ((movers = [] /\ context = "")
        \/ (movers <> []
            /\ exists entries,
                mover_entries movers = Ok entries
                /\ context
                   = mandatory_context_text (String.concat ", " entries)))
    /\ generate_content
         (synthesis_prompt (strftime "%A, %B %d, %Y" t2)
                           (strftime "%A, %B %d, %Y" prev) context)
         (Some (5 # 100)) s10
       = (Ok response, s12)
    /\ response_text response = Ok content
    /\ now s12 = (Ok t, s')
    /\ r = PDict [("status", PStr "success");
                  ("content", PStr content);
                  ("sources", extract_sources response);
                  ("timestamp", PStr (strftime "%Y-%m-%d %H:%M:%S" t));
                  ("displayDate", PStr (strftime "%A, %B %d, %Y" t2));
                  ("targetDate", PStr (strftime "%A, %B %d, %Y" prev))].
Proof.
  intros E. unfold brief_steps in E.
  apply bind_Ok_inv in E. destruct E as (api_key & s1 & _ & E).
  apply bind_Ok_inv in E. destruct E as (key & s2 & _ & E).
  apply bind_Ok_inv in E. destruct E as (u1 & s3 & _ & E).
  apply bind_Ok_inv in E. destruct E as (u2 & s4 & _ & E).
  apply bind_Ok_inv in E. destruct E as (target_date & s5 & E5 & E).
  unfold get_previous_trading_day_str, default_now in E5.
  apply bind_Ok_inv in E5. destruct E5 as (t1 & s41 & N1 & E5).
  apply bind_Ok_inv in E5. destruct E5 as (prev & s42 & L & E5).
  apply lift_Ok in L. destruct L as [P ->].
  apply ret_Ok in E5. destruct E5 as [-> ->].
  apply bind_Ok_inv in E. destruct E as (display_date & s6 & E6 & E).
  unfold get_formatted_date, default_now in E6.
  apply bind_Ok_inv in E6. destruct E6 as (t2 & s51 & N2 & E6).
  apply ret_Ok in E6. destruct E6 as [-> ->].
  apply bind_Ok_inv in E. destruct E as (discovery_resp & s7 & E7 & E).
  apply bind_Ok_inv in E. destruct E as (tickers & s8 & E8 & E).
  assert (rbind (response_text discovery_resp)
                (fun text => json_loads (cleaned text)) = Ok tickers
          /\ s8 = s7) as [D ->].
  { unfold try_except, bind, lift, raise in E8. unfold cleaned.
    destruct (response_text discovery_resp); [|discriminate E8].
    cbn [rbind]. destruct (json_loads _); [|discriminate E8].
    injection E8 as -> <-. auto. }
  clear E8.
  apply bind_Ok_inv in E. destruct E as (its & s9 & E9 & E).
  apply lift_Ok in E9. destruct E9 as [I ->].
  apply bind_Ok_inv in E. destruct E as (movers & s10 & V & E).
  apply bind_Ok_inv in E. destruct E as (context & s11 & E11 & E).
  assert (((movers = [] /\ context = "")
           \/ (movers <> []
               /\ exists entries,
                   mover_entries movers = Ok entries
                   /\ context
                      = mandatory_context_text (String.concat ", " entries)))
          /\ s11 = s10) as [C ->].
  { destruct movers as [|m ms].
    - apply ret_Ok in E11. destruct E11 as [-> ->]. auto.
    - apply bind_Ok_inv in E11. destruct E11 as (es & sx & L & R).
      apply lift_Ok in L. destruct L as [L ->].
      apply ret_Ok in R. destruct R as [-> ->].
      split; [|reflexivity]. right. split; [discriminate|].
      exists es. auto. }
  clear E11. cbv zeta in E.
  apply bind_Ok_inv in E. destruct E as (response & s12 & G & E).
  apply bind_Ok_inv in E. destruct E as (content & s13 & E13 & E).
  apply lift_Ok in E13. destruct E13 as [T ->].
  apply bind_Ok_inv in E. destruct E as (t & s14 & N3 & E).
  apply ret_Ok in E. destruct E as [-> ->].
  exists s4, s41, s51, s7, s10, s12, t1, prev, t2, t, discovery_resp,
    response, tickers, its, movers, context, content.
  repeat (split; [assumption|]). reflexivity.
Qed.

(** X16.  The dates of a successful brief come from two clock reads, one
    right after the other: the target date is the previous trading day of
    the first, the display date is the second.  With a clock that gives
    dates of the calendar and does not go back, the target date is a
    Monday to Friday strictly before the display date. *)
Theorem generate_market_brief_dates
        (s s' : State) (items : list (string * PyVal)) :
  generate_market_brief s = (Ok (PDict items), s') ->
  item "status" items = PStr "success" ->
  exists (w : World) (prev : datetime),
    let t1 := fst (datetime_now w) in
    let t2 := fst (datetime_now (snd (datetime_now w))) in
    previous_trading_day t1 = Ok prev
    /\ item "targetDate" items = PStr (strftime "%A, %B %d, %Y" prev)
    /\ item "displayDate" items = PStr (strftime "%A, %B %d, %Y" t2)
    /\ (datetime_ok t1 = true -> datetime_ok t2 = true ->
        toordinal t1 <= toordinal t2 ->
        0 <= weekday prev <= 4 /\ date_lt prev t2).
Proof.
  intros E Hs. apply generate_market_brief_success in E; [|exact Hs].
  destruct (brief_steps_run _ _ _ E)
    as (s4 & s5 & s6 & s7 & s10 & s12 & t1 & prev & t2 & t & dr & resp
        & tickers & its & movers & context & content
        & N1 & P & N2 & _ & _ & _ & _ & _ & _ & _ & _ & [= ->]).
  exists (world s4), prev.
  rewrite now_run in N1. injection N1 as <- <-.
  rewrite now_run in N2. cbn [world] in N2. injection N2 as <- _.
  cbv zeta. split; [exact P|]. split; [reflexivity|].
  split; [reflexivity|].
  intros Ok1 Ok2 Hle.
  set (t1 := fst (datetime_now (world s4))) in *.
  destruct (Z.eq_dec (toordinal t1) 1) as [E1 | Hord].
  { rewrite (previous_trading_day_first t1 E1) in P. discriminate. }
  destruct (previous_trading_day_defined t1 Ok1 Hord) as (p & E' & O & Hp).
  rewrite P in E'. injection E' as <-.
  destruct (weekday_of_previous t1 prev O) as [R _].
  split; [exact R|].
  apply date_lt_of_ordinal; try assumption.
  assert (toordinal prev < toordinal t1); [|lia].
  rewrite O. unfold days_back.
  destruct (weekday t1 =? 0); [lia|]. destruct (weekday t1 =? 6); lia.
Qed.

(** X17.  The report of a successful brief was asked for with a prompt
    that carries the mandatory context of exactly the movers found by
    verifying the tickers decoded from the discovery answer, one entry
    each, joined by commas; with no mover the prompt has no such
    paragraph. *)
Theorem generate_market_brief_context
        (s s' : State) (items : list (string * PyVal)) :
  generate_market_brief s = (Ok (PDict items), s') ->
  item "status" items = PStr "success" ->
  exists (s6 s7 s10 : State) (discovery : GenResponse)
         (decoded : PyVal) (tickers : list PyVal)
         (movers : list FinnhubData)
         (display_date target_date context : string),
    item "displayDate" items = PStr display_date
    /\ item "targetDate" items = PStr target_date
    /\ generate_content (discovery_prompt target_date) None s6
       = (Ok discovery, s7)
    /\ rbind (response_text discovery)
             (fun text => json_loads (cleaned text)) = Ok decoded
    /\ py_iter decoded = Ok tickers
    /\ verification tickers s7 = (Ok movers, s10)
    /\ In (EvGenerate
             (synthesis_prompt display_date target_date context)
             (Some (5 # 100)))
          (trace s')
    /\ ((movers = [] /\ context = "")
        \/ (movers <> []
            /\ exists entries,
                Forall2 entry_of movers entries
                /\ context
                   = mandatory_context_text (String.concat ", " entries))).
Proof.
  intros E Hs. apply generate_market_brief_success in E; [|exact Hs].
  destruct (brief_steps_run _ _ _ E)
    as (s4 & s5 & s6 & s7 & s10 & s12 & t1 & prev & t2 & t & dr & resp
        & tickers & its & movers & context & content
        & _ & _ & _ & D & J & I & V & C & G & _ & N3 & [= ->]).
  exists s6, s7, s10, dr, tickers, its, movers,
    (strftime "%A, %B %d, %Y" t2), (strftime "%A, %B %d, %Y" prev), context.
  split; [reflexivity|]. split; [reflexivity|].
  split; [exact D|]. split; [exact J|]. split; [exact I|].
  split; [exact V|]. split.
  { apply now_trace in N3. apply call_trace in G.
    rewrite N3, G. apply in_or_app. left. apply in_or_app. right.
    left. reflexivity. }
  destruct C as [C | (Hne & es & Hes & ->)]; [left; exact C | right].
  split; [exact Hne|].
  pose proof (verification_kept _ _ _ _ V) as K.
  exists es. split; [|reflexivity].
  exact (flagged_movers_entries
           movers (kept_in_order_flagged _ _ _ _ K) es Hes).
Qed.

End WhatABriefWasMadeOf.

(* ====================================================================== *)
(** ** The further properties on the scenarios *)

(** TINY in [missing_change]: a capitalisation of 150 and no [dp]; the
    record comes back with [None] as its change and the flag false.
    GIANT, with 3400000 and no [dp]: [abs] raises, the handler prints,
    and the result is [None]. *)
Lemma fetch_finnhub_metrics_without_change_witness :
  fst (@fetch_finnhub_metrics (Stub.services missing_change) (PStr "TINY")
         (Stub.start missing_change))
  = Ok (Some (mkFinnhubData (PStr "TINY") (PStr "Tiny Co")
                            (PNum (Float 150)) PNone false))
  /\ fst (@fetch_finnhub_metrics (Stub.services missing_change)
            (PStr "GIANT") (Stub.start missing_change))
     = Ok None.
Proof.
  split.
  - rewrite (@fetch_finnhub_metrics_without_change
               (Stub.services missing_change) (PStr "TINY")
               (Stub.start missing_change)
               (@mkState (Stub.services missing_change) 1%nat
                  [EvHttpGet (Stub.quote_url "TINY")])
               (@mkState (Stub.services missing_change) 2%nat
                  [EvHttpGet (Stub.quote_url "TINY");
                   EvHttpGet (Stub.profile_url "TINY")])
               tiny_quote tiny_profile (Float 150));
      reflexivity.
  - rewrite (@fetch_finnhub_metrics_without_change
               (Stub.services missing_change) (PStr "GIANT")
               (Stub.start missing_change)
               (@mkState (Stub.services missing_change) 1%nat
                  [EvHttpGet (Stub.quote_url "GIANT")])
               (@mkState (Stub.services missing_change) 2%nat
                  [EvHttpGet (Stub.quote_url "GIANT");
                   EvHttpGet (Stub.profile_url "GIANT")])
               tiny_quote giant_profile (Float 3400000));
      reflexivity.
Defined.

(** AAPL in [Stub.all_well]: 3400000 and +2.5%, flagged. *)
Lemma fetch_finnhub_metrics_flag_sound_witness :
  fst (@fetch_finnhub_metrics (Stub.services Stub.all_well) (PStr "AAPL")
         (Stub.start Stub.all_well))
  = Ok (Some aapl)
  /\ ticker aapl = PStr "AAPL"
  /\ truthy (marketCap aapl) = true
  /\ exists mc pc : number,
      marketCap aapl = PNum mc /\ priceChange aapl = PNum pc
      /\ (200000 <= num_val mc)%Q /\ (2 <= Qabs (num_val pc))%Q.
Proof.
  destruct (@fetch_finnhub_metrics_flag_sound
              (Stub.services Stub.all_well) (PStr "AAPL")
              (Stub.start Stub.all_well)
              (snd (@fetch_finnhub_metrics (Stub.services Stub.all_well)
                      (PStr "AAPL") (Stub.start Stub.all_well)))
              aapl)
    as (T & C & F).
  - vm_compute. reflexivity.
  - split; [reflexivity|]. split; [exact T|]. split; [exact C|].
    exact (F eq_refl).
Defined.


(** The calls of [Stub.all_well]: seven requests between the two calls of
    the generative service. *)
Lemma generate_market_brief_steps_in_order_witness :
  exists key target_date display_date requests mandatory_context,
    trace all_well_state
    = ([EvConfigure key; EvModel MODEL_NAME; EvNow; EvNow;
        EvGenerate (discovery_prompt target_date) None]
         ++ requests
         ++ [EvGenerate
               (synthesis_prompt display_date target_date mandatory_context)
               (Some (5 # 100));
             EvNow])%list
    /\ Forall is_http_get requests
    /\ item "targetDate" all_well_brief = PStr target_date
    /\ item "displayDate" all_well_brief = PStr display_date
    /\ item "targetDate" all_well_brief = PStr "Monday, January 06, 2025"
    /\ item "displayDate" all_well_brief = PStr "Tuesday, January 07, 2025".
Proof.
  destruct (@generate_market_brief_steps_in_order
              (Stub.services Stub.all_well) (Stub.start Stub.all_well)
              all_well_state all_well_brief)
    as (key & td & dd & rq & mc & T & F & Ht & Hd).
  - vm_compute. reflexivity.
  - reflexivity.
  - exists key, td, dd, rq, mc.
    split; [exact T|]. split; [exact F|]. split; [exact Ht|].
    split; [exact Hd|]. split; reflexivity.
Defined.


(** The fenced answer of [Stub.all_well]. *)
Lemma cleaned_removes_fences_witness :
  cleaned ("```json" ++ nl ++ Stub.tickers_text ++ nl ++ "```")
  = Stub.tickers_text.
Proof.
  destruct (cleaned_removes_fences Stub.tickers_text eq_refl) as [E _].
  rewrite E. reflexivity.
Defined.

(** The clock of the scenarios gives dates of the calendar. *)
Lemma clock_2025_01_07_ok (w : nat) :
  datetime_ok (Stub.clock_2025_01_07 w) = true.
Proof.
  pose proof (Nat.mod_upper_bound w 60 ltac:(discriminate)) as B.
  assert ((0 <=? Z.of_nat (w mod 60)) = true) as L
    by (apply Z.leb_le; lia).
  assert ((Z.of_nat (w mod 60) <? 60) = true) as U
    by (apply Z.ltb_lt; lia).
  cbv [datetime_ok Stub.clock_2025_01_07
       year month day hour minute second microsecond].
  rewrite L, U. reflexivity.
Qed.

(** [Stub.all_well] reads the clock on Tuesday 7 January 2025 both times:
    the target date is the Monday before. *)
Lemma generate_market_brief_dates_witness :
  exists (w : nat) (prev : datetime),
    previous_trading_day (Stub.clock_2025_01_07 w) = Ok prev
    /\ item "targetDate" all_well_brief
       = PStr (strftime "%A, %B %d, %Y" prev)
    /\ item "displayDate" all_well_brief
       = PStr (strftime "%A, %B %d, %Y" (Stub.clock_2025_01_07 (S w)))
    /\ item "displayDate" all_well_brief = PStr "Tuesday, January 07, 2025"
    /\ 0 <= weekday prev <= 4
    /\ date_lt prev (Stub.clock_2025_01_07 (S w)).
Proof.
  destruct (@generate_market_brief_dates
              (Stub.services Stub.all_well) (Stub.start Stub.all_well)
              all_well_state all_well_brief)
    as (w & prev & P & Ht & Hd & Hw).
  - vm_compute. reflexivity.
  - reflexivity.
  - exists w, prev.
    split; [exact P|]. split; [exact Ht|]. split; [exact Hd|].
    split; [reflexivity|].
    apply Hw.
    + exact (clock_2025_01_07_ok w).
    + exact (clock_2025_01_07_ok (S w)).
    + apply Z.le_refl.
Defined.

(** The prompt of the report in [Stub.all_well]. *)
Lemma generate_market_brief_context_witness :
  exists (s6 s7 s10 : @State (Stub.services Stub.all_well))
         (discovery : GenResponse)
         (decoded : PyVal) (tickers : list PyVal)
         (movers : list FinnhubData)
         (display_date target_date context : string),
    item "displayDate" all_well_brief = PStr display_date
    /\ item "targetDate" all_well_brief = PStr target_date
    /\ @generate_content (Stub.services Stub.all_well)
         (discovery_prompt target_date) None s6
       = (Ok discovery, s7)
    /\ rbind (response_text discovery)
             (fun text =>
                @json_loads (Stub.services Stub.all_well) (cleaned text))
       = Ok decoded
    /\ py_iter decoded = Ok tickers
    /\ @verification (Stub.services Stub.all_well) tickers s7
       = (Ok movers, s10)
    /\ In (EvGenerate
             (synthesis_prompt display_date target_date context)
             (Some (5 # 100)))
          (trace all_well_state)
    /\ ((movers = [] /\ context = "")
        \/ (movers <> []
            /\ exists entries,
                Forall2 (@entry_of (Stub.services Stub.all_well))
                        movers entries
                /\ context
                   = mandatory_context_text (String.concat ", " entries))).
Proof.
  apply (@generate_market_brief_context
           (Stub.services Stub.all_well) (Stub.start Stub.all_well)
           all_well_state all_well_brief).
  - vm_compute. reflexivity.
  - reflexivity.
Defined.

(** XYZ in [Stub.all_well]: the quote cannot be fetched; the result is
    [None] after that one request.  With a lone surrogate as the ticker
    the text cannot be written, and the exception of [print] leaves the
    function. *)
Lemma fetch_finnhub_metrics_fails_soft_witness :
  @fetch_finnhub_metrics (Stub.services Stub.all_well) (PStr "XYZ")
    (Stub.start Stub.all_well)
  = (Ok None,
     @mkState (Stub.services Stub.all_well) 1%nat
       [EvHttpGet (Stub.quote_url "XYZ")])
  /\ @fetch_finnhub_metrics (Stub.services Stub.all_well)
       (PStr Stub.lone_surrogate) (Stub.start Stub.all_well)
     = (Raise Stub.UnicodeEncodeError,
        @mkState (Stub.services Stub.all_well) 1%nat
          [EvHttpGet (Stub.quote_url Stub.lone_surrogate)]).
Proof.
  split.
  - destruct (@fetch_finnhub_metrics_fails_soft
                (Stub.services Stub.all_well) (PStr "XYZ")
                (Stub.start Stub.all_well)) as (P & Q & _).
    destruct (Q Stub.ConnectionError
                (@mkState (Stub.services Stub.all_well) 1%nat
                   [EvHttpGet (Stub.quote_url "XYZ")])
                eq_refl) as [E _].
    rewrite E. destruct (P Stub.ConnectionError) as [-> _]; reflexivity.
  - destruct (@fetch_finnhub_metrics_fails_soft
                (Stub.services Stub.all_well) (PStr Stub.lone_surrogate)
                (Stub.start Stub.all_well)) as (P & Q & _).
    destruct (Q Stub.ConnectionError
                (@mkState (Stub.services Stub.all_well) 1%nat
                   [EvHttpGet (Stub.quote_url Stub.lone_surrogate)])
                eq_refl) as [E _].
    rewrite E.
    destruct (P Stub.ConnectionError) as [_ R].
    rewrite (R Stub.UnicodeEncodeError eq_refl). reflexivity.
Defined.

(** The tickers of [Stub.all_well]: the two AAPL stay, in place; XYZ, whose
    fetch fails, and NVDA, which did not move, are left out. *)
Lemma verification_returns_movers_in_order_witness :
  fst (@verification (Stub.services Stub.all_well)
         [PStr "AAPL"; PStr "XYZ"; PStr "NVDA"; PStr "AAPL"]
         (Stub.start Stub.all_well))
  = Ok [aapl; aapl]
  /\ subsequence (map ticker [aapl; aapl])
                 [PStr "AAPL"; PStr "XYZ"; PStr "NVDA"; PStr "AAPL"].
Proof.
  split; [reflexivity|].
  apply (@verification_returns_movers_in_order
           (Stub.services Stub.all_well)
           [PStr "AAPL"; PStr "XYZ"; PStr "NVDA"; PStr "AAPL"]
           (Stub.start Stub.all_well)
           (snd (@verification (Stub.services Stub.all_well)
                   [PStr "AAPL"; PStr "XYZ"; PStr "NVDA"; PStr "AAPL"]
                   (Stub.start Stub.all_well)))
           [aapl; aapl]).
  vm_compute. reflexivity.
Defined.
